(** * Google Scholar profile scraper: a shallow embedding of [main.py]

    The development models the two crawl functions of [main.py],
    [scrape_paper_citers] and [scrape_google_scholar_profile], as Rocq
    functions over an explicit description of what the browser answers,
    and proves properties of the records they return.

    - [Py]: the pieces of the Python runtime the crawls rely on
      ([str] methods, [int], [re.search]) over strings of code points.
    - [Dom]: exceptions, events and the answers of Selenium queries.
    - [Citation]: [scrape_paper_citers], lines 32-353. The second body of
      that function, after its [return], is never run and is left out.
    - [Profile]: [scrape_google_scholar_profile], lines 656-803.
    - [CitationSpec], [ProfileSpec]: the vocabulary of the statements.
    - [CitationSamples], [ProfileSamples]: concrete pages.
    - [PyFacts], [CitationFacts], [ProfileFacts]: the proofs.
    - [Gui]: what [start_scraping] and [save_citers_to_csv] compute on
      strings (lines 1001-1024 and 1272-1279); the widgets, the threads and
      the tables of [MainWindow] are left out.
    - [PySpec], [CrawlSpec], [TableSpec], [TableSamples]: vocabulary and
      samples of the further facts.
    - [StrFacts], [GuiFacts], [CrawlFacts], [TableFacts]: further proofs on
      the runtime functions, the window and the two crawls.

    A crawl is a function of the answers of the browser. A loop of the
    source takes one answer per iteration from a finite list and gives
    [None] when the list ends while the loop is still running; the lemmas
    [page_loop_halts] and [expand_all_halts] say when it ends earlier.

    The console is part of what answers. [input()] may raise (there may be
    no console), and so may the three prints whose text starts with a sign
    outside ASCII (the console may be unable to encode it); both are
    answers of [Citation.Env]. Every other [print] is taken to return: its
    text is ASCII but for values that come from the page.

    The table that the profile crawl returns is modelled up to the way
    pandas stores a missing value, which changes with its version, and
    the source asks for none; see [Profile.cell]. *)

From stdpp Require Import base option list gmap strings sorting.
From Stdlib Require Import NArith ZArith Lia DecimalString.

Local Open Scope Z_scope.
Local Open Scope nat_scope.

(* ===================================================================== *)
(** * Python strings, [int] and [re]                                      *)
(* ===================================================================== *)

Module Py.

(** A Python [str] is a sequence of Unicode code points. *)
Abbreviation str := (list N).

(** [py "abc"]: the [str] of an ASCII literal of the source. *)
Definition py (lit : string) : str :=
  map Ascii.N_of_ascii (String.list_ascii_of_string lit).

(** Python values stored in the record dictionaries and read back from a
    table. [PNaN] is the float that a [DataFrame] may give for a missing
    value; no record holds it. *)
Inductive pyval :=
| PNone
| PStr (x : str)
| PInt (z : Z)
| PNaN.

Definition of_option (o : option str) : pyval :=
  match o with Some x => PStr x | None => PNone end.

(** Truth value of [None] or a string: [if x], [not x]. *)
Definition truthy (o : option str) : bool :=
  match o with Some (_ :: _) => true | _ => false end.

(** ** Unicode classes (Unicode 14.0, the tables of CPython 3.11) *)

Definition in_ranges (tbl : list (N * N)) (c : N) : bool :=
  existsb (fun r => (fst r <=? c)%N && (c <=? snd r)%N) tbl.

(** Code points for which [str.isspace] holds; [str.strip()] removes them. *)
Definition space_ranges : list (N * N) :=
  [ (9, 13); (28, 32); (133, 133); (160, 160); (5760, 5760); (8192, 8202);
    (8232, 8233); (8239, 8239); (8287, 8287); (12288, 12288) ]%N.

(** Code points of category Nd ([str.isdecimal], the class [\d] of [re]).
    Every range starts at a digit zero and holds whole runs of ten. *)
Definition decimal_ranges : list (N * N) :=
  [ (48, 57); (1632, 1641); (1776, 1785); (1984, 1993); (2406, 2415); (2534,
    2543); (2662, 2671); (2790, 2799); (2918, 2927); (3046, 3055); (3174, 3183);
    (3302, 3311); (3430, 3439); (3558, 3567); (3664, 3673); (3792, 3801); (3872,
    3881); (4160, 4169); (4240, 4249); (6112, 6121); (6160, 6169); (6470, 6479);
    (6608, 6617); (6784, 6793); (6800, 6809); (6992, 7001); (7088, 7097); (7232,
    7241); (7248, 7257); (42528, 42537); (43216, 43225); (43264, 43273); (43472,
    43481); (43504, 43513); (43600, 43609); (44016, 44025); (65296, 65305);
    (66720, 66729); (68912, 68921); (69734, 69743); (69872, 69881); (69942,
    69951); (70096, 70105); (70384, 70393); (70736, 70745); (70864, 70873);
    (71248, 71257); (71360, 71369); (71472, 71481); (71904, 71913); (72016,
    72025); (72784, 72793); (73040, 73049); (73120, 73129); (92768, 92777);
    (92864, 92873); (93008, 93017); (120782, 120831); (123200, 123209); (123632,
    123641); (125264, 125273); (130032, 130041) ]%N.

(** Code points that [str.isdigit] accepts although they are not decimal:
    superscripts, subscripts, circled and dingbat digits. *)
Definition digit_only_ranges : list (N * N) :=
  [ (178, 179); (185, 185); (4969, 4977); (6618, 6618); (8304, 8304); (8308,
    8313); (8320, 8329); (9312, 9320); (9332, 9340); (9352, 9360); (9450, 9450);
    (9461, 9469); (9471, 9471); (10102, 10110); (10112, 10120); (10122, 10130);
    (68160, 68163); (69216, 69224); (69714, 69722); (127232, 127242) ]%N.

(** Word characters of [re] on [str] patterns ([\w]): alphanumerics and the underscore. *)
Definition word_ranges : list (N * N) :=
  [ (48, 57); (65, 90); (95, 95); (97, 122); (170, 170); (178, 179); (181, 181);
    (185, 186); (188, 190); (192, 214); (216, 246); (248, 705); (710, 721);
    (736, 740); (748, 748); (750, 750); (880, 884); (886, 887); (890, 893);
    (895, 895); (902, 902); (904, 906); (908, 908); (910, 929); (931, 1013);
    (1015, 1153); (1162, 1327); (1329, 1366); (1369, 1369); (1376, 1416); (1488,
    1514); (1519, 1522); (1568, 1610); (1632, 1641); (1646, 1647); (1649, 1747);
    (1749, 1749); (1765, 1766); (1774, 1788); (1791, 1791); (1808, 1808); (1810,
    1839); (1869, 1957); (1969, 1969); (1984, 2026); (2036, 2037); (2042, 2042);
    (2048, 2069); (2074, 2074); (2084, 2084); (2088, 2088); (2112, 2136); (2144,
    2154); (2160, 2183); (2185, 2190); (2208, 2249); (2308, 2361); (2365, 2365);
    (2384, 2384); (2392, 2401); (2406, 2415); (2417, 2432); (2437, 2444); (2447,
    2448); (2451, 2472); (2474, 2480); (2482, 2482); (2486, 2489); (2493, 2493);
    (2510, 2510); (2524, 2525); (2527, 2529); (2534, 2545); (2548, 2553); (2556,
    2556); (2565, 2570); (2575, 2576); (2579, 2600); (2602, 2608); (2610, 2611);
    (2613, 2614); (2616, 2617); (2649, 2652); (2654, 2654); (2662, 2671); (2674,
    2676); (2693, 2701); (2703, 2705); (2707, 2728); (2730, 2736); (2738, 2739);
    (2741, 2745); (2749, 2749); (2768, 2768); (2784, 2785); (2790, 2799); (2809,
    2809); (2821, 2828); (2831, 2832); (2835, 2856); (2858, 2864); (2866, 2867);
    (2869, 2873); (2877, 2877); (2908, 2909); (2911, 2913); (2918, 2927); (2929,
    2935); (2947, 2947); (2949, 2954); (2958, 2960); (2962, 2965); (2969, 2970);
    (2972, 2972); (2974, 2975); (2979, 2980); (2984, 2986); (2990, 3001); (3024,
    3024); (3046, 3058); (3077, 3084); (3086, 3088); (3090, 3112); (3114, 3129);
    (3133, 3133); (3160, 3162); (3165, 3165); (3168, 3169); (3174, 3183); (3192,
    3198); (3200, 3200); (3205, 3212); (3214, 3216); (3218, 3240); (3242, 3251);
    (3253, 3257); (3261, 3261); (3293, 3294); (3296, 3297); (3302, 3311); (3313,
    3314); (3332, 3340); (3342, 3344); (3346, 3386); (3389, 3389); (3406, 3406);
    (3412, 3414); (3416, 3425); (3430, 3448); (3450, 3455); (3461, 3478); (3482,
    3505); (3507, 3515); (3517, 3517); (3520, 3526); (3558, 3567); (3585, 3632);
    (3634, 3635); (3648, 3654); (3664, 3673); (3713, 3714); (3716, 3716); (3718,
    3722); (3724, 3747); (3749, 3749); (3751, 3760); (3762, 3763); (3773, 3773);
    (3776, 3780); (3782, 3782); (3792, 3801); (3804, 3807); (3840, 3840); (3872,
    3891); (3904, 3911); (3913, 3948); (3976, 3980); (4096, 4138); (4159, 4169);
    (4176, 4181); (4186, 4189); (4193, 4193); (4197, 4198); (4206, 4208); (4213,
    4225); (4238, 4238); (4240, 4249); (4256, 4293); (4295, 4295); (4301, 4301);
    (4304, 4346); (4348, 4680); (4682, 4685); (4688, 4694); (4696, 4696); (4698,
    4701); (4704, 4744); (4746, 4749); (4752, 4784); (4786, 4789); (4792, 4798);
    (4800, 4800); (4802, 4805); (4808, 4822); (4824, 4880); (4882, 4885); (4888,
    4954); (4969, 4988); (4992, 5007); (5024, 5109); (5112, 5117); (5121, 5740);
    (5743, 5759); (5761, 5786); (5792, 5866); (5870, 5880); (5888, 5905); (5919,
    5937); (5952, 5969); (5984, 5996); (5998, 6000); (6016, 6067); (6103, 6103);
    (6108, 6108); (6112, 6121); (6128, 6137); (6160, 6169); (6176, 6264); (6272,
    6276); (6279, 6312); (6314, 6314); (6320, 6389); (6400, 6430); (6470, 6509);
    (6512, 6516); (6528, 6571); (6576, 6601); (6608, 6618); (6656, 6678); (6688,
    6740); (6784, 6793); (6800, 6809); (6823, 6823); (6917, 6963); (6981, 6988);
    (6992, 7001); (7043, 7072); (7086, 7141); (7168, 7203); (7232, 7241); (7245,
    7293); (7296, 7304); (7312, 7354); (7357, 7359); (7401, 7404); (7406, 7411);
    (7413, 7414); (7418, 7418); (7424, 7615); (7680, 7957); (7960, 7965); (7968,
    8005); (8008, 8013); (8016, 8023); (8025, 8025); (8027, 8027); (8029, 8029);
    (8031, 8061); (8064, 8116); (8118, 8124); (8126, 8126); (8130, 8132); (8134,
    8140); (8144, 8147); (8150, 8155); (8160, 8172); (8178, 8180); (8182, 8188);
    (8304, 8305); (8308, 8313); (8319, 8329); (8336, 8348); (8450, 8450); (8455,
    8455); (8458, 8467); (8469, 8469); (8473, 8477); (8484, 8484); (8486, 8486);
    (8488, 8488); (8490, 8493); (8495, 8505); (8508, 8511); (8517, 8521); (8526,
    8526); (8528, 8585); (9312, 9371); (9450, 9471); (10102, 10131); (11264,
    11492); (11499, 11502); (11506, 11507); (11517, 11517); (11520, 11557);
    (11559, 11559); (11565, 11565); (11568, 11623); (11631, 11631); (11648,
    11670); (11680, 11686); (11688, 11694); (11696, 11702); (11704, 11710);
    (11712, 11718); (11720, 11726); (11728, 11734); (11736, 11742); (11823,
    11823); (12293, 12295); (12321, 12329); (12337, 12341); (12344, 12348);
    (12353, 12438); (12445, 12447); (12449, 12538); (12540, 12543); (12549,
    12591); (12593, 12686); (12690, 12693); (12704, 12735); (12784, 12799);
    (12832, 12841); (12872, 12879); (12881, 12895); (12928, 12937); (12977,
    12991); (13312, 19903); (19968, 42124); (42192, 42237); (42240, 42508);
    (42512, 42539); (42560, 42606); (42623, 42653); (42656, 42735); (42775,
    42783); (42786, 42888); (42891, 42954); (42960, 42961); (42963, 42963);
    (42965, 42969); (42994, 43009); (43011, 43013); (43015, 43018); (43020,
    43042); (43056, 43061); (43072, 43123); (43138, 43187); (43216, 43225);
    (43250, 43255); (43259, 43259); (43261, 43262); (43264, 43301); (43312,
    43334); (43360, 43388); (43396, 43442); (43471, 43481); (43488, 43492);
    (43494, 43518); (43520, 43560); (43584, 43586); (43588, 43595); (43600,
    43609); (43616, 43638); (43642, 43642); (43646, 43695); (43697, 43697);
    (43701, 43702); (43705, 43709); (43712, 43712); (43714, 43714); (43739,
    43741); (43744, 43754); (43762, 43764); (43777, 43782); (43785, 43790);
    (43793, 43798); (43808, 43814); (43816, 43822); (43824, 43866); (43868,
    43881); (43888, 44002); (44016, 44025); (44032, 55203); (55216, 55238);
    (55243, 55291); (63744, 64109); (64112, 64217); (64256, 64262); (64275,
    64279); (64285, 64285); (64287, 64296); (64298, 64310); (64312, 64316);
    (64318, 64318); (64320, 64321); (64323, 64324); (64326, 64433); (64467,
    64829); (64848, 64911); (64914, 64967); (65008, 65019); (65136, 65140);
    (65142, 65276); (65296, 65305); (65313, 65338); (65345, 65370); (65382,
    65470); (65474, 65479); (65482, 65487); (65490, 65495); (65498, 65500);
    (65536, 65547); (65549, 65574); (65576, 65594); (65596, 65597); (65599,
    65613); (65616, 65629); (65664, 65786); (65799, 65843); (65856, 65912);
    (65930, 65931); (66176, 66204); (66208, 66256); (66273, 66299); (66304,
    66339); (66349, 66378); (66384, 66421); (66432, 66461); (66464, 66499);
    (66504, 66511); (66513, 66517); (66560, 66717); (66720, 66729); (66736,
    66771); (66776, 66811); (66816, 66855); (66864, 66915); (66928, 66938);
    (66940, 66954); (66956, 66962); (66964, 66965); (66967, 66977); (66979,
    66993); (66995, 67001); (67003, 67004); (67072, 67382); (67392, 67413);
    (67424, 67431); (67456, 67461); (67463, 67504); (67506, 67514); (67584,
    67589); (67592, 67592); (67594, 67637); (67639, 67640); (67644, 67644);
    (67647, 67669); (67672, 67702); (67705, 67742); (67751, 67759); (67808,
    67826); (67828, 67829); (67835, 67867); (67872, 67897); (67968, 68023);
    (68028, 68047); (68050, 68096); (68112, 68115); (68117, 68119); (68121,
    68149); (68160, 68168); (68192, 68222); (68224, 68255); (68288, 68295);
    (68297, 68324); (68331, 68335); (68352, 68405); (68416, 68437); (68440,
    68466); (68472, 68497); (68521, 68527); (68608, 68680); (68736, 68786);
    (68800, 68850); (68858, 68899); (68912, 68921); (69216, 69246); (69248,
    69289); (69296, 69297); (69376, 69415); (69424, 69445); (69457, 69460);
    (69488, 69505); (69552, 69579); (69600, 69622); (69635, 69687); (69714,
    69743); (69745, 69746); (69749, 69749); (69763, 69807); (69840, 69864);
    (69872, 69881); (69891, 69926); (69942, 69951); (69956, 69956); (69959,
    69959); (69968, 70002); (70006, 70006); (70019, 70066); (70081, 70084);
    (70096, 70106); (70108, 70108); (70113, 70132); (70144, 70161); (70163,
    70187); (70272, 70278); (70280, 70280); (70282, 70285); (70287, 70301);
    (70303, 70312); (70320, 70366); (70384, 70393); (70405, 70412); (70415,
    70416); (70419, 70440); (70442, 70448); (70450, 70451); (70453, 70457);
    (70461, 70461); (70480, 70480); (70493, 70497); (70656, 70708); (70727,
    70730); (70736, 70745); (70751, 70753); (70784, 70831); (70852, 70853);
    (70855, 70855); (70864, 70873); (71040, 71086); (71128, 71131); (71168,
    71215); (71236, 71236); (71248, 71257); (71296, 71338); (71352, 71352);
    (71360, 71369); (71424, 71450); (71472, 71483); (71488, 71494); (71680,
    71723); (71840, 71922); (71935, 71942); (71945, 71945); (71948, 71955);
    (71957, 71958); (71960, 71983); (71999, 71999); (72001, 72001); (72016,
    72025); (72096, 72103); (72106, 72144); (72161, 72161); (72163, 72163);
    (72192, 72192); (72203, 72242); (72250, 72250); (72272, 72272); (72284,
    72329); (72349, 72349); (72368, 72440); (72704, 72712); (72714, 72750);
    (72768, 72768); (72784, 72812); (72818, 72847); (72960, 72966); (72968,
    72969); (72971, 73008); (73030, 73030); (73040, 73049); (73056, 73061);
    (73063, 73064); (73066, 73097); (73112, 73112); (73120, 73129); (73440,
    73458); (73648, 73648); (73664, 73684); (73728, 74649); (74752, 74862);
    (74880, 75075); (77712, 77808); (77824, 78894); (82944, 83526); (92160,
    92728); (92736, 92766); (92768, 92777); (92784, 92862); (92864, 92873);
    (92880, 92909); (92928, 92975); (92992, 92995); (93008, 93017); (93019,
    93025); (93027, 93047); (93053, 93071); (93760, 93846); (93952, 94026);
    (94032, 94032); (94099, 94111); (94176, 94177); (94179, 94179); (94208,
    100343); (100352, 101589); (101632, 101640); (110576, 110579); (110581,
    110587); (110589, 110590); (110592, 110882); (110928, 110930); (110948,
    110951); (110960, 111355); (113664, 113770); (113776, 113788); (113792,
    113800); (113808, 113817); (119520, 119539); (119648, 119672); (119808,
    119892); (119894, 119964); (119966, 119967); (119970, 119970); (119973,
    119974); (119977, 119980); (119982, 119993); (119995, 119995); (119997,
    120003); (120005, 120069); (120071, 120074); (120077, 120084); (120086,
    120092); (120094, 120121); (120123, 120126); (120128, 120132); (120134,
    120134); (120138, 120144); (120146, 120485); (120488, 120512); (120514,
    120538); (120540, 120570); (120572, 120596); (120598, 120628); (120630,
    120654); (120656, 120686); (120688, 120712); (120714, 120744); (120746,
    120770); (120772, 120779); (120782, 120831); (122624, 122654); (123136,
    123180); (123191, 123197); (123200, 123209); (123214, 123214); (123536,
    123565); (123584, 123627); (123632, 123641); (124896, 124902); (124904,
    124907); (124909, 124910); (124912, 124926); (124928, 125124); (125127,
    125135); (125184, 125251); (125259, 125259); (125264, 125273); (126065,
    126123); (126125, 126127); (126129, 126132); (126209, 126253); (126255,
    126269); (126464, 126467); (126469, 126495); (126497, 126498); (126500,
    126500); (126503, 126503); (126505, 126514); (126516, 126519); (126521,
    126521); (126523, 126523); (126530, 126530); (126535, 126535); (126537,
    126537); (126539, 126539); (126541, 126543); (126545, 126546); (126548,
    126548); (126551, 126551); (126553, 126553); (126555, 126555); (126557,
    126557); (126559, 126559); (126561, 126562); (126564, 126564); (126567,
    126570); (126572, 126578); (126580, 126583); (126585, 126588); (126590,
    126590); (126592, 126601); (126603, 126619); (126625, 126627); (126629,
    126633); (126635, 126651); (127232, 127244); (130032, 130041); (131072,
    173791); (173824, 177976); (177984, 178205); (178208, 183969); (183984,
    191456); (194560, 195101); (196608, 201546) ]%N.

Definition isspace_cp : N -> bool := in_ranges space_ranges.
Definition isdecimal_cp : N -> bool := in_ranges decimal_ranges.
Definition isdigit_cp (c : N) : bool :=
  isdecimal_cp c || in_ranges digit_only_ranges c.
Definition isword_cp : N -> bool := in_ranges word_ranges.

(** Value of a decimal code point: its offset in its run of ten. *)
Definition decimal_value (c : N) : option Z :=
  match find (fun r => (fst r <=? c)%N && (c <=? snd r)%N) decimal_ranges with
  | Some r => Some (Z.of_N ((c - fst r) mod 10))
  | None => None
  end.

(** ** [str] methods *)

(** [x.lstrip()] and [x.strip()] *)
Fixpoint lstrip (x : str) : str :=
  match x with
  | c :: x' => if isspace_cp c then lstrip x' else x
  | [] => []
  end.

Definition strip (x : str) : str := rev (lstrip (rev (lstrip x))).

(** [x.isdigit()]: at least one character, all of them digits. *)
Definition isdigit (x : str) : bool :=
  match x with [] => false | _ => forallb isdigit_cp x end.

(** [x.startswith(p)] *)
Fixpoint startswith (p x : str) : bool :=
  match p, x with
  | [], _ => true
  | a :: p', b :: x' => (a =? b)%N && startswith p' x'
  | _ :: _, [] => false
  end.

(** [needle in hay] *)
Fixpoint contains (needle hay : str) : bool :=
  startswith needle hay ||
  match hay with
  | [] => false
  | _ :: hay' => contains needle hay'
  end.

(** [x.split(sep)] for a non-empty [sep]: the occurrences of [sep] are
    taken from left to right and do not overlap. [skip] counts the
    characters of the current occurrence that are still to be passed,
    [cur] is the segment being read. *)
Fixpoint split_aux (sep : str) (skip : nat) (cur x : str) : list str :=
  match x with
  | [] => [cur]
  | c :: x' =>
      match skip with
      | S n => split_aux sep n cur x'
      | O =>
          if startswith sep x
          then cur :: split_aux sep (length sep - 1) [] x'
          else split_aux sep 0 (cur ++ [c]) x'
      end
  end.

Definition split (x sep : str) : list str := split_aux sep 0 [] x.

(** [sep.join(parts)] *)
Fixpoint join (sep : str) (parts : list str) : str :=
  match parts with
  | [] => []
  | [p] => p
  | p :: rest => p ++ sep ++ join sep rest
  end.

(** ** [int] *)

(** CPython refuses to convert more than [sys.get_int_max_str_digits()]
    digits; 4300 is the default. *)
Definition int_max_str_digits : nat := 4300.

(** [int(x)] for an [x] made of digit characters only, which is what the
    one call of the source (guarded by [isdigit]) passes. A digit that is
    not decimal, or too many digits, give [None]: [int] raises
    [ValueError]. *)
Definition int (x : str) : option Z :=
  if int_max_str_digits <? length x then None
  else
    foldl (fun acc c =>
             match acc, decimal_value c with
             | Some n, Some d => Some (10 * n + d)%Z
             | _, _ => None
             end) (Some 0%Z) x.

(** ** [re]: the fragment the pattern of the source needs *)

Inductive regex :=
| RChar (c : N)            (* a literal character *)
| RDigit                   (* \d *)
| RWordB                   (* \b *)
| REps                     (* the empty pattern *)
| RSeq (r1 r2 : regex)     (* r1 r2 *)
| RAlt (r1 r2 : regex).    (* r1|r2 *)

Definition isword_opt (o : option N) : bool :=
  match o with Some c => isword_cp c | None => false end.

(** Backtracking matcher. [prev] is the character before the current
    position, [x] the rest of the subject, [k] what remains to be matched. *)
Fixpoint rmatch {A} (r : regex) (prev : option N) (x : str)
    (k : option N -> str -> option A) : option A :=
  match r with
  | RChar c =>
      match x with
      | a :: x' => if (a =? c)%N then k (Some a) x' else None
      | [] => None
      end
  | RDigit =>
      match x with
      | a :: x' => if isdecimal_cp a then k (Some a) x' else None
      | [] => None
      end
  | RWordB =>
      if xorb (isword_opt prev) (isword_opt (head x)) then k prev x else None
  | REps => k prev x
  | RSeq r1 r2 => rmatch r1 prev x (fun p x' => rmatch r2 p x' k)
  | RAlt r1 r2 =>
      match rmatch r1 prev x k with
      | Some y => Some y
      | None => rmatch r2 prev x k
      end
  end.

(** Text matched at the current position (the match's [group(0)]). *)
Definition match_here (r : regex) (prev : option N) (x : str) : option str :=
  match rmatch r prev x (fun _ rest => Some rest) with
  | Some rest => Some (take (length x - length rest) x)
  | None => None
  end.

Fixpoint search_from (r : regex) (prev : option N) (x : str) : option str :=
  match match_here r prev x with
  | Some m => Some m
  | None =>
      match x with
      | [] => None
      | a :: x' => search_from r (Some a) x'
      end
  end.

(** [re.search(r, x)], then [.group(0)] of the match if there is one. *)
Definition re_search (r : regex) (x : str) : option str := search_from r None x.

(** A sequence of patterns, a literal, and [r{n}]. *)
Definition rseq (rs : list regex) : regex := foldr RSeq REps rs.
Definition rlit (lit : string) : regex := rseq (map RChar (py lit)).
Definition rrep (n : nat) (r : regex) : regex := rseq (replicate n r).

End Py.

(* ===================================================================== *)
(** * Selenium: exceptions, answers and events                            *)
(* ===================================================================== *)

Module Dom.
Import Py.

(** The exceptions the source tells apart, and [WebDriverException] for
    every other error of the driver (stale element, intercepted click,
    lost session). *)
Inductive exn :=
| NoSuchElementException
| TimeoutException
| IndexError
| ValueError
| WebDriverException
| EOFError                (* input() at the end of the input *)
| RuntimeError            (* input() without a console: sys.stdin is None *)
| UnicodeEncodeError.     (* print of a character that the console cannot encode *)

(** What a call answers: a value, or an exception. *)
Inductive res (A : Type) :=
| Ok (a : A)
| Raise (e : exn).
Arguments Ok {A} a.
Arguments Raise {A} e.

#[global] Instance res_bind : MBind res := fun A B f r =>
  match r with Ok a => f a | Raise e => Raise e end.

Definition is_ok {A} (r : res A) : bool :=
  match r with Ok _ => true | Raise _ => false end.

(** [try: r except E: h], for the handlers of the source that catch one
    exception class only. *)
Definition except_only {A} (E : exn -> bool) (r : res A) (h : A) : res A :=
  match r with
  | Ok a => Ok a
  | Raise e => if E e then Ok h else Raise e
  end.

Definition is_NoSuchElement (e : exn) : bool :=
  match e with NoSuchElementException => true | _ => false end.

Definition is_Timeout (e : exn) : bool :=
  match e with TimeoutException => true | _ => false end.

(** The observable actions of a crawl, in the order they happen: page
    loads and clicks, every wait, the page-level reads, the warnings
    printed for the person at the console, and the release of the browser.
    Queries on a single element and progress messages are not logged; a
    warning is logged by its wording, without the mark printed before it.
    Durations are in milliseconds. *)
Inductive event :=
| EvGet (url : str)                 (* driver.get(url) *)
| EvSleep (ms : N)                  (* time.sleep(ms / 1000) *)
| EvSleepUniform (lo hi : N)        (* time.sleep(random.uniform(lo, hi)) *)
| EvPageSource                      (* driver.page_source *)
| EvPrint (msg : string)            (* print(msg) *)
| EvInput                           (* input(): blocks until ENTER *)
| EvFindRows (cls : string)         (* driver.find_elements(By.CLASS_NAME, cls) *)
| EvWait (ms : N) (id : string)     (* WebDriverWait(driver, ms / 1000).until(presence of id) *)
| EvScroll                          (* execute_script(scrollIntoView) *)
| EvClick                           (* element.click() *)
| EvJsClick                         (* execute_script(arguments[0].click()) *)
| EvQuit.                           (* driver.quit() *)

(** A record under construction: a Python [dict] with string keys. *)
Abbreviation dict := (gmap string pyval).

End Dom.

(* ===================================================================== *)
(** * [scrape_paper_citers]                                               *)
(* ===================================================================== *)

Module Citation.
Import Py Dom.

(** ** What the browser shows *)

(** The element a title locator returns. *)
Record TitleElem := {
  te_text : res str;                (* title_elem.text *)
  te_anchor : res (res (option str));
    (* title_elem.find_element(By.TAG_NAME, "a"), then its href *)
  te_href : res (option str)        (* title_elem.get_attribute('href') *)
}.

(** One result row, by what its queries answer. *)
Record CiterRow := {
  gs_rt : res TitleElem;            (* row.find_element(By.CLASS_NAME, "gs_rt") *)
  h3_a : res TitleElem;             (* row.find_element(By.CSS_SELECTOR, "h3 a") *)
  gs_a : res (res str)              (* row.find_element(By.CLASS_NAME, "gs_a"), then .text *)
}.

Record NextButton := {
  nb_disabled : res (option str);   (* next_button.get_attribute('disabled') *)
  nb_class : res (option str);      (* next_button.get_attribute('class') *)
  nb_scroll : res unit;             (* execute_script(scrollIntoView) *)
  nb_click : res unit;              (* next_button.click() *)
  nb_js_click : res unit            (* execute_script(click) *)
}.

(** What one iteration of the page loop sees. *)
Record PageView := {
  rows_gs_ri : res (list CiterRow); (* line 207 *)
  rows_gs_r : res (list CiterRow);  (* line 210 *)
  next_aria : res NextButton;       (* //button[@aria-label='Next'] *)
  next_gs_nma : res NextButton;     (* By.ID, "gs_nma" *)
  next_start : res NextButton       (* //a[contains(@href, 'start=')] *)
}.

(** The answers of the browser to one call of [scrape_paper_citers]. The
    page loop takes one [PageView] of [pages] per iteration. *)
Record Env := {
  firefox : res unit;               (* webdriver.Firefox(options=options) *)
  chrome : res unit;                (* webdriver.Chrome(options=options) *)
  get_paper : res unit;             (* driver.get(paper_url) *)
  cited_by_link : res (res (option str));
    (* //a[contains(text(), 'Cited by')], then its href *)
  all_links : res (list (res (option str)));
    (* every a element, with its href *)
  get_citations : res unit;         (* driver.get(cited_by_url) *)
  page_source : res str;            (* driver.page_source.lower() *)
  print_warning : res unit;         (* print of the warning sign, line 134 or 140 *)
  input_gate : res unit;            (* input(), line 137 or 143 *)
  results_gs_ri : res (list CiterRow);        (* line 151 *)
  results_gs_r : res (list CiterRow);         (* line 161 *)
  print_cross : res unit;           (* print of the cross mark, line 169 *)
  page_info : res unit;             (* driver.current_url and driver.title, lines 170-171 *)
  input_retry : res unit;           (* input(), line 173 *)
  results_gs_ri_again : res (list CiterRow);  (* line 177 *)
  results_gs_r_again : res (list CiterRow);   (* line 179 *)
  print_check : res unit;           (* print of the check mark, line 183 *)
  pages : list PageView
}.

(** ** Field extraction for one row (lines 224-274) *)

(** [r'\b(19|20)\d{2}\b'] *)
Definition year_pattern : regex :=
  rseq [RWordB; RAlt (rlit "19") (rlit "20"); rrep 2 RDigit; RWordB].

(** Lines 228-236: the title locators. [None] is the [continue]. *)
Definition locate_with (loc : res TitleElem) : res (TitleElem * str) :=
  title_elem ← loc;
  title ← te_text title_elem;
  Ok (title_elem, title).

Definition find_title (row : CiterRow) : option (TitleElem * str) :=
  match locate_with (gs_rt row) with
  | Ok r => Some r
  | Raise _ =>
      match locate_with (h3_a row) with
      | Ok r => Some r
      | Raise _ => None
      end
  end.

(** Lines 247-257. A [WebElement] is always true, so the [else] of line
    254 is never taken. *)
Definition get_link (title_elem : TitleElem) : pyval :=
  match te_anchor title_elem with
  | Ok (Ok href) => of_option href
  | _ =>
      match te_href title_elem with
      | Ok href => of_option href
      | Raise _ => PNone
      end
  end.

Definition segment (parts : list str) (i : nat) : pyval :=
  if bool_decide (i < length parts) then of_option (parts !! i) else PNone.

(** Lines 262-270: authors, publication and year of an info line. *)
Definition info_fields (text : str) : pyval * pyval * pyval :=
  let info_parts := split text (py " - ") in
  (segment info_parts 0,
   segment info_parts 1,
   if bool_decide (2 < length info_parts)
   then of_option (re_search year_pattern (default [] (info_parts !! 2)))
   else PNone).

(** Lines 260-274. Nothing after the [split] can raise, so the handler
    only runs before any of the three keys is set. *)
Definition get_info (row : CiterRow) : pyval * pyval * pyval :=
  match gs_a row with
  | Ok (Ok text) => info_fields text
  | _ => (PNone, PNone, PNone)
  end.

Definition citer_data (title_elem : TitleElem) (title : str) (row : CiterRow) : dict :=
  let '(authors, publication, year) := get_info row in
  <["citer_year" := year]>
    (<["citer_publication" := publication]>
      (<["citer_authors" := authors]>
        (<["citer_link" := get_link title_elem]>
          (<["citer_title" := PStr title]> ∅)))).

(** ** The crawl state *)

Record state := State {
  citers : list dict;
  seen_titles : gset str;
  page_num : nat;
  retry_count : nat;
  trace : list event;
  scraped : list CiterRow
    (* not a variable of the source: the rows handed to the row loop so
       far, kept to state what deduplication does *)
}.

Definition log (evs : list event) (st : state) : state :=
  State (citers st) (seen_titles st) (page_num st) (retry_count st)
        (trace st ++ evs) (scraped st).

(** Lines 221-278: one pass of the row loop. *)
Definition scrape_row (st : state) (row : CiterRow) : state :=
  let st := State (citers st) (seen_titles st) (page_num st) (retry_count st)
                  (trace st) (scraped st ++ [row]) in
  match find_title row with
  | None => st
  | Some (title_elem, title) =>
      if bool_decide (title = []) || bool_decide (title ∈ seen_titles st)
      then st
      else State (citers st ++ [citer_data title_elem title row])
                 ({[title]} ∪ seen_titles st)
                 (page_num st) (retry_count st) (trace st) (scraped st)
  end.

Definition scrape_rows (paper_rows : list CiterRow) (st : state) : state :=
  foldl scrape_row st paper_rows.

(** ** Pagination (lines 283-325) *)

Inductive stop :=
| StopNoResults      (* line 218 *)
| StopNoNext         (* line 300 *)
| StopDisabled       (* line 308 *)
| StopNextError      (* line 325 *)
| StopMaxRetries.    (* line 332 *)

Definition find_next_button (v : PageView) : option NextButton :=
  match next_aria v with
  | Ok b => Some b
  | Raise _ =>
      match next_gs_nma v with
      | Ok b => Some b
      | Raise _ =>
          match next_start v with
          | Ok b => Some b
          | Raise _ => None
          end
      end
  end.

(** [inl tt]: the next page was asked for; [inr r]: the loop breaks. *)
Definition next_page (v : PageView) : (unit + stop) * list event :=
  match find_next_button v with
  | None => (inr StopNoNext, [])
  | Some next_button =>
      match nb_disabled next_button, nb_class next_button with
      | Ok is_disabled, Ok cls =>
          let has_disabled_class := contains (py "disabled") (default [] cls) in
          if truthy is_disabled || has_disabled_class
          then (inr StopDisabled, [])
          else
            match nb_scroll next_button with
            | Raise _ => (inr StopNextError, [EvScroll])
            | Ok _ =>
                let evs := [EvScroll; EvSleepUniform 1000 2000; EvClick] in
                match nb_click next_button with
                | Ok _ => (inl tt, evs)
                | Raise _ =>
                    match nb_js_click next_button with
                    | Ok _ => (inl tt, evs ++ [EvJsClick])
                    | Raise _ => (inr StopNextError, evs ++ [EvJsClick])
                    end
                end
            end
      | _, _ => (inr StopNextError, [])
      end
  end.

(** Lines 207-210: the rows of the current page. *)
Definition find_rows (v : PageView) : res (list CiterRow) * list event :=
  match rows_gs_ri v with
  | Raise e => (Raise e, [EvFindRows "gs_ri"])
  | Ok [] => (rows_gs_r v, [EvFindRows "gs_ri"; EvFindRows "gs_r"])
  | Ok paper_rows => (Ok paper_rows, [EvFindRows "gs_ri"])
  end.

Definition max_retries : nat := 3.

(** Lines 196-334, the [while True] loop. One [PageView] is consumed per
    iteration; [None] when the loop is still running after the last one. *)
Fixpoint page_loop (views : list PageView) (st : state) : option (stop * state) :=
  match views with
  | [] => None
  | v :: views' =>
      let st := if bool_decide (1 < page_num st)
                then log [EvSleepUniform 2000 4000] st else st in
      let '(found, evs) := find_rows v in
      let st := log evs st in
      match found with
      | Raise _ =>
          let st := State (citers st) (seen_titles st) (page_num st)
                          (retry_count st + 1) (trace st) (scraped st) in
          if bool_decide (max_retries <= retry_count st)
          then Some (StopMaxRetries, st)
          else page_loop views' (log [EvSleep 2000] st)
      | Ok [] => Some (StopNoResults, st)
      | Ok paper_rows =>
          let st := scrape_rows paper_rows st in
          let '(next, evs) := next_page v in
          let st := log evs st in
          match next with
          | inl _ =>
              page_loop views'
                (State (citers st) (seen_titles st) (page_num st + 1) 0
                       (trace st) (scraped st))
          | inr r => Some (r, st)
          end
      end
  end.

(** ** Before the loop (lines 39-186) *)

(** Lines 42-73. *)
Definition start_browser (env : Env) : res unit :=
  match firefox env with
  | Ok _ => Ok tt
  | Raise _ => chrome env
  end.

(** Lines 104-109. *)
Fixpoint first_cites_link (links : list (res (option str))) : res (option str) :=
  match links with
  | [] => Ok None
  | Raise e :: _ => Raise e
  | Ok href :: rest =>
      if truthy href
         && contains (py "scholar.google.com") (default [] href)
         && contains (py "cites=") (default [] href)
      then Ok href
      else first_cites_link rest
  end.

(** Lines 87-111: [cited_by_url]. Only [NoSuchElementException] is caught
    by the first strategy, every exception by the second. *)
Definition locate_cited_by (env : Env) : res (option str) :=
  let strategy1 := link ← cited_by_link env; link in
  match except_only is_NoSuchElement strategy1 None with
  | Raise e => Raise e
  | Ok cited_by_url =>
      if truthy cited_by_url then Ok cited_by_url
      else
        match all_links env with
        | Ok links =>
            match first_cites_link links with
            | Ok (Some href) => Ok (Some href)
            | _ => Ok cited_by_url
            end
        | Raise _ => Ok cited_by_url
        end
  end.

Inductive GateState := Clear | SoftBlock | HardBlock.

(** Lines 133 and 139: the markers looked for in the lowered page source. *)
Definition gate (src : str) : GateState :=
  if contains (py "captcha") src then HardBlock
  else if contains (py "unusual traffic") src then SoftBlock
  else Clear.

(** Lines 133-144. The notice is printed, [input()] blocks until ENTER
    and two seconds pass. The first line of the notice starts with a
    warning sign, which a console may be unable to encode, and [input()]
    raises [EOFError] at the end of the input and [RuntimeError] when there
    is no console: either exception leaves the [try] of line 76. *)
Definition check_for_block (env : Env) (src : str) : res unit * list event :=
  let block notice :=
    match print_warning env with
    | Raise e => (Raise e, [EvPrint notice])
    | Ok _ =>
        match input_gate env with
        | Raise e => (Raise e, [EvPrint notice; EvInput])
        | Ok _ => (Ok tt, [EvPrint notice; EvInput; EvSleep 2000])
        end
    end in
  match gate src with
  | HardBlock => block "CAPTCHA DETECTED!"
  | SoftBlock => block "Google Scholar detected unusual traffic"
  | Clear => (Ok tt, [])
  end.

Definition nonempty {A} (r : res (list A)) : bool :=
  match r with Ok (_ :: _) => true | _ => false end.

Inductive before_loop :=
| EnterLoop                 (* line 188 is reached *)
| ReturnEmpty               (* return [], lines 115 and 186 *)
| Caught (e : exn).         (* except Exception, line 338 *)

(** Lines 182-183: results were found at the second attempt. The message
    starts with a check mark. *)
Definition found_after_wait (env : Env) (evs : list event) : before_loop * list event :=
  match print_check env with
  | Raise e => (Caught e, evs)
  | Ok _ => (EnterLoop, evs)
  end.

(** Lines 146-186: are there results on the page? *)
Definition find_results (env : Env) : before_loop * list event :=
  if nonempty (results_gs_ri env) then (EnterLoop, [EvFindRows "gs_ri"])
  else if nonempty (results_gs_r env)
  then (EnterLoop, [EvFindRows "gs_ri"; EvFindRows "gs_r"])
  else
    let notice := [EvFindRows "gs_ri"; EvFindRows "gs_r";
                   EvPrint "Could not find citation results"] in
    match print_cross env with
    | Raise e => (Caught e, notice)
    | Ok _ =>
        match page_info env with
        | Raise e => (Caught e, notice)
        | Ok _ =>
            match input_retry env with
            | Raise e => (Caught e, notice ++ [EvInput])
            | Ok _ =>
                let evs := notice ++ [EvInput; EvSleep 2000; EvFindRows "gs_ri"] in
                match results_gs_ri_again env with
                | Raise e => (Caught e, evs)
                | Ok (_ :: _) => found_after_wait env evs
                | Ok [] =>
                    match results_gs_r_again env with
                    | Raise e => (Caught e, evs ++ [EvFindRows "gs_r"])
                    | Ok (_ :: _) => found_after_wait env (evs ++ [EvFindRows "gs_r"])
                    | Ok [] => (ReturnEmpty, evs ++ [EvFindRows "gs_r"])
                    end
                end
            end
        end
    end.

(** Lines 78-186. *)
Definition prelude (paper_url : str) (env : Env) : before_loop * list event :=
  let tr := [EvGet paper_url] in
  match get_paper env with
  | Raise e => (Caught e, tr)
  | Ok _ =>
      let tr := tr ++ [EvSleepUniform 3000 5000] in
      match locate_cited_by env with
      | Raise e => (Caught e, tr)
      | Ok cited_by_url =>
          if negb (truthy cited_by_url) then (ReturnEmpty, tr)
          else
            let tr := tr ++ [EvSleepUniform 2000 4000;
                             EvGet (default [] cited_by_url)] in
            match get_citations env with
            | Raise e => (Caught e, tr)
            | Ok _ =>
                let tr := tr ++ [EvSleepUniform 4000 6000; EvPageSource] in
                match page_source env with
                | Raise e => (Caught e, tr)
                | Ok src =>
                    match check_for_block env src with
                    | (Raise e, evs) => (Caught e, tr ++ evs)
                    | (Ok _, evs) =>
                        let '(b, evs') := find_results env in
                        (b, tr ++ evs ++ evs')
                    end
                end
            end
      end
  end.

(** ** The function *)

(** What the caller gets: the returned list, or the exception raised
    when no browser starts (line 73). *)
Inductive outcome :=
| Returned (citers : list dict)
| Raised (msg : string).

Definition initial (tr : list event) : state := State [] ∅ 1 0 tr [].

(** Lines 343-351. *)
Definition finally_events : list event := [EvSleep 5000; EvQuit].

(** Lines 32-353. The print of line 336, after the loop, starts with a
    check mark; when it raises, line 338 catches the exception and the same
    list is returned, so that no answer is asked for it. *)
Definition scrape_paper_citers (paper_url : str) (env : Env)
    : option (outcome * list event) :=
  match start_browser env with
  | Raise _ =>
      Some (Raised "Could not start Firefox or Chrome. Please install one of them.", [])
  | Ok _ =>
      match prelude paper_url env with
      | (EnterLoop, tr) =>
          match page_loop (pages env) (initial tr) with
          | Some (_, st) => Some (Returned (citers st), trace st ++ finally_events)
          | None => None
          end
      | (_, tr) => Some (Returned [], tr ++ finally_events)
      end
  end.

End Citation.

(* ===================================================================== *)
(** * [scrape_google_scholar_profile]                                     *)
(* ===================================================================== *)

Module Profile.
Import Py Dom.

(** ** What the browser shows *)

Record TitleElement := {
  text : res str;                   (* title_element.text *)
  href : res (option str)           (* title_element.get_attribute('href') *)
}.

(** One row of the publications table, by what its queries answer. *)
Record PaperRow := {
  gsc_a_at : res TitleElement;      (* row.find_element(By.CLASS_NAME, "gsc_a_at") *)
  gs_gray : res (res str);          (* row.find_element(By.CLASS_NAME, "gs_gray"), then .text *)
  gs_gray_all : res (list (res str));
    (* row.find_elements(By.CLASS_NAME, "gs_gray"), each with its .text *)
  gsc_a_y : res (res str);          (* row.find_element(By.CLASS_NAME, "gsc_a_y"), then .text *)
  gsc_a_c : res (res str)           (* row.find_element(By.CLASS_NAME, "gsc_a_c"), then .text *)
}.

(** The button [gsc_bpf_more] found by the wait of line 699. *)
Record ShowMore := {
  sm_disabled : res (option str);   (* show_more_button.get_attribute('disabled') *)
  sm_scroll : res unit;             (* execute_script(scrollIntoView) *)
  sm_click : res unit               (* show_more_button.click() *)
}.

(** The answers of the browser to one call of
    [scrape_google_scholar_profile]. The expansion loop takes one element
    of [show_more] per iteration. *)
Record Env := {
  firefox : res unit;
  chrome : res unit;
  get_profile : res unit;           (* driver.get(profile_url) *)
  show_more : list (res ShowMore);  (* WebDriverWait(driver, 5) for "gsc_bpf_more" *)
  table_wait : res unit;            (* WebDriverWait(driver, 10) for "gsc_a_b" *)
  paper_rows : res (list PaperRow); (* driver.find_elements(By.CLASS_NAME, "gsc_a_tr") *)
  quit : res unit                   (* driver.quit() *)
}.

(** ** Field extraction for one row (lines 737-783)

    Every handler of this part catches [NoSuchElementException] only
    (and [IndexError] for the venue): any other exception leaves the
    row's [try] and is caught at line 789. *)

(** Lines 739-745. *)
Definition title_and_link (row : PaperRow) : res (pyval * pyval) :=
  except_only is_NoSuchElement
    (title_element ← gsc_a_at row;
     title ← text title_element;
     link ← href title_element;
     Ok (PStr title, of_option link))
    (PNone, PNone).

(** Lines 748-752. *)
Definition authors (row : PaperRow) : res pyval :=
  except_only is_NoSuchElement
    (authors_text ← (authors_element ← gs_gray row; authors_element);
     Ok (PStr authors_text))
    PNone.

(** Lines 755-762. *)
Definition publication (row : PaperRow) : res pyval :=
  except_only (fun e => match e with
                        | NoSuchElementException | IndexError => true
                        | _ => false
                        end)
    (publication_elements ← gs_gray_all row;
     if bool_decide (1 < length publication_elements)
     then
       match publication_elements !! 1 with
       | Some element => venue ← element; Ok (PStr venue)
       | None => Raise IndexError
       end
     else Ok PNone)
    PNone.

(** Lines 765-770. *)
Definition year (row : PaperRow) : res pyval :=
  except_only is_NoSuchElement
    (raw ← (year_element ← gsc_a_y row; year_element);
     let year_text := strip raw in
     Ok (if truthy (Some year_text) then PStr year_text else PNone))
    PNone.

(** Lines 773-781. [int] raises [ValueError] on what it cannot convert. *)
Definition citations (row : PaperRow) : res pyval :=
  except_only is_NoSuchElement
    (raw ← (citation_element ← gsc_a_c row; citation_element);
     let citation_text := strip raw in
     if truthy (Some citation_text) && isdigit citation_text
     then
       match int citation_text with
       | Some n => Ok (PInt n)
       | None => Raise ValueError
       end
     else Ok (PInt 0))
    (PInt 0).

(** The body of the row's [try]: the record, or the exception that
    reaches line 789. *)
Definition paper_data (idx : nat) (row : PaperRow) : res dict :=
  '(title, link) ← title_and_link row;
  a ← authors row;
  p ← publication row;
  y ← year row;
  c ← citations row;
  Ok (<["paper_id" := PInt (Z.of_nat idx)]>
       (<["citations" := c]>
         (<["year" := y]>
           (<["publication" := p]>
             (<["authors" := a]>
               (<["link" := link]>
                 (<["title" := title]> ∅))))))).

(** Lines 734-791: [for idx, row in enumerate(paper_rows, 1)]. *)
Fixpoint extract_rows (idx : nat) (rows : list PaperRow) (all_papers : list dict)
    : list dict :=
  match rows with
  | [] => all_papers
  | row :: rest =>
      match paper_data idx row with
      | Ok d => extract_rows (S idx) rest (all_papers ++ [d])
      | Raise _ => extract_rows (S idx) rest all_papers
      end
  end.

(** ** The table returned *)

(** A cell of a [pandas.DataFrame]: a text, an integer or a missing
    value. How a missing value is stored is left open, because the source
    does not fix it: for [None] among texts, pandas before version 3 keeps
    [None] (a column of dtype object) and pandas 3 stores [NaN] (it reads
    the column as one of strings); a key that a record lacks gives [NaN].
    A column of integers with a missing value would turn into floats; the
    crawl builds none. *)
Inductive cell :=
| Text (x : str)
| Number (z : Z)
| Missing.

(** The cell for the value that a record has, or lacks, at a key. *)
Definition cell_of (v : option pyval) : cell :=
  match v with
  | Some (PStr x) => Text x
  | Some (PInt z) => Number z
  | Some PNone | Some PNaN | None => Missing
  end.

(** A [pandas.DataFrame] by its column labels and its rows, one cell per
    column. The index and the dtypes of the columns are not modelled. *)
Record DataFrame := {
  columns : list string;
  values : list (list cell)
}.

(** The keys of a record, in the order in which lines 741-783 set them:
    the order of the columns of [pd.DataFrame(all_papers)]. *)
Definition key_order : list string :=
  ["title"; "link"; "authors"; "publication"; "year"; "citations"; "paper_id"].

(** Line 799. *)
Definition column_order : list string :=
  ["paper_id"; "title"; "authors"; "publication"; "year"; "citations"; "link"].

(** Some record has the key. *)
Definition has_column (all_papers : list dict) (col : string) : bool :=
  existsb (fun d => bool_decide (is_Some (d !! col))) all_papers.

(** [pd.DataFrame(all_papers)], line 796: one column per key, one row per
    record. *)
Definition DataFrame_of (all_papers : list dict) : DataFrame :=
  let cols := List.filter (has_column all_papers) key_order in
  {| columns := cols;
     values := map (fun d => map (fun col => cell_of (d !! col)) cols) all_papers |}.

(** [pd.DataFrame()], line 729. *)
Definition empty_frame : DataFrame := {| columns := []; values := [] |}.

(** [df.empty] *)
Definition empty (df : DataFrame) : bool :=
  match columns df, values df with
  | _ :: _, _ :: _ => false
  | _, _ => true
  end.

Fixpoint index_of (col : string) (cols : list string) : option nat :=
  match cols with
  | [] => None
  | c :: rest => if bool_decide (c = col) then Some 0 else S <$> index_of col rest
  end.

(** [df[cols]], for labels [cols] that [df] has. *)
Definition select (df : DataFrame) (cols : list string) : DataFrame :=
  {| columns := cols;
     values :=
       map (fun r =>
              map (fun col => default Missing (i ← index_of col (columns df); r !! i)) cols)
           (values df) |}.

(** Lines 796-800. *)
Definition to_frame (all_papers : list dict) : DataFrame :=
  let df := DataFrame_of all_papers in
  if negb (empty df)
  then select df (List.filter (fun col => bool_decide (col ∈ columns df)) column_order)
  else df.

(** [list(df[col])], and the empty list when there is no such column. *)
Definition column (df : DataFrame) (col : string) : list cell :=
  match index_of col (columns df) with
  | Some i => map (fun r => default Missing (r !! i)) (values df)
  | None => []
  end.

(** ** The function *)

(** Lines 697-718: the expansion loop. [None] when the loop is still
    running after the last answer. *)
Fixpoint expand_all (answers : list (res ShowMore)) : option (list event) :=
  match answers with
  | [] => None
  | answer :: answers' =>
      let wait := EvWait 5000 "gsc_bpf_more" in
      match answer with
      | Raise _ => Some [wait]
      | Ok show_more_button =>
          match sm_disabled show_more_button with
          | Raise _ => Some [wait]
          | Ok disabled =>
              if truthy disabled then Some [wait]
              else
                match sm_scroll show_more_button with
                | Raise _ => Some [wait; EvScroll]
                | Ok _ =>
                    match sm_click show_more_button with
                    | Raise _ => Some [wait; EvScroll; EvSleep 500; EvClick]
                    | Ok _ =>
                        evs ← expand_all answers';
                        Some ([wait; EvScroll; EvSleep 500; EvClick; EvSleep 2000] ++ evs)
                    end
                end
          end
      end
  end.

(** What the caller gets: the returned table, or an exception. *)
Inductive outcome :=
| Returned (df : DataFrame)
| Raised (e : exn)
| RaisedMessage (msg : string).

(** Lines 720-791, after the expansion. *)
Definition extract (env : Env) : outcome * list event :=
  let wait := EvWait 10000 "gsc_a_b" in
  match table_wait env with
  | Raise e =>
      if is_Timeout e
      then (Returned empty_frame,
            [wait; EvPrint "Error: Could not find publications table"])
      else (Raised e, [wait])
  | Ok _ =>
      match paper_rows env with
      | Raise e => (Raised e, [wait; EvFindRows "gsc_a_tr"])
      | Ok rows =>
          (Returned (to_frame (extract_rows 1 rows [])),
           [wait; EvFindRows "gsc_a_tr"])
      end
  end.

(** Lines 793-794: [finally: driver.quit()]; an exception of [quit]
    replaces the result. *)
Definition finally (env : Env) (r : outcome) : outcome :=
  match quit env with
  | Ok _ => r
  | Raise e => Raised e
  end.

Definition start_browser (env : Env) : res unit :=
  match firefox env with
  | Ok _ => Ok tt
  | Raise _ => chrome env
  end.

Definition scrape_google_scholar_profile (profile_url : str) (env : Env)
    : option (outcome * list event) :=
  match start_browser env with
  | Raise _ =>
      Some (RaisedMessage "Could not start Firefox or Chrome. Please install one of them.", [])
  | Ok _ =>
      match get_profile env with
      | Raise e => Some (finally env (Raised e), [EvGet profile_url; EvQuit])
      | Ok _ =>
          evs ← expand_all (show_more env);
          let '(r, evs') := extract env in
          Some (finally env r,
                [EvGet profile_url; EvSleep 3000] ++ evs ++ evs' ++ [EvQuit])
      end
  end.

End Profile.

(* ===================================================================== *)
(** * Specification vocabulary                                            *)
(* ===================================================================== *)

(** Definitions that only the statements use: what a crawl should have
    kept of the rows it read, and names for pieces of the event trace. *)

Module CitationSpec.
Import Py Dom Citation.

(** The title a row yields, if one of the locators finds it. *)
Definition title_text (row : CiterRow) : option str := snd <$> find_title row.

(** The record that the row at position [i] of [rows] contributes: none
    when the row has no title or an empty one, none when an earlier row of
    [rows] has the same title, and otherwise the record built from it. *)
Definition emitted_at (rows : list CiterRow) (i : nat) (row : CiterRow) : option dict :=
  match find_title row with
  | None => None
  | Some (title_elem, title) =>
      if bool_decide (title = []) then None
      else if bool_decide (Some title ∈ title_text <$> take i rows) then None
      else Some (citer_data title_elem title row)
  end.

(** First occurrence wins: the records of [rows], in order, one per title. *)
Definition first_occurrences (rows : list CiterRow) : list dict :=
  omap id (imap (emitted_at rows) rows).

(** The rows that one pass of the page loop reads from a view. *)
Definition rows_of_view (v : PageView) : list CiterRow :=
  match (find_rows v).1 with Ok rows => rows | Raise _ => [] end.

Definition citer_title (d : dict) : option pyval := d !! "citer_title".

(** The loop invariant: the list is what deduplication keeps of the rows
    read so far, and the seen-set holds their non-empty titles. *)
Definition inv (st : state) : Prop :=
  citers st = first_occurrences (scraped st) /\
  (forall t, t ∈ seen_titles st <-> t <> [] /\ Some t ∈ title_text <$> scraped st).

Definition record_keys : gset string :=
  {[ "citer_title"; "citer_link"; "citer_authors"; "citer_publication"; "citer_year" ]}.

(** [None] or a string. *)
Definition optional_str (v : pyval) : Prop := v = PNone \/ exists x, v = PStr x.

(** The gray line of a row, when it can be read. *)
Definition info_text (row : CiterRow) : option str :=
  match gs_a row with Ok (Ok text) => Some text | _ => None end.

(** The view ends the page loop whatever the counters are: it has no
    row, or the page turn after it does not happen. *)
Definition halts (v : PageView) : bool :=
  match (find_rows v).1 with
  | Ok [] => true
  | Ok _ => match (next_page v).1 with inr _ => true | inl _ => false end
  | Raise _ => false
  end.

(** Listing the rows of the view raises. *)
Definition fails (v : PageView) : Prop := is_ok (find_rows v).1 = false.

(** The delay of lines 200-203. *)
Definition pace (st : state) : list event :=
  if bool_decide (1 < page_num st) then [EvSleepUniform 2000 4000] else [].

(** The events of one attempt at listing the rows. *)
Definition attempt_events (st : state) (v : PageView) : list event :=
  pace st ++ (find_rows v).2.

(** Line 333. *)
Definition backoff : list event := [EvSleep 2000].

(** The state after the failed attempts [fs], each followed by the backoff. *)
Definition failed (fs : list PageView) (st : state) : state :=
  State (citers st) (seen_titles st) (page_num st) (retry_count st + length fs)
        (trace st ++ (fs ≫= fun v => attempt_events st v ++ backoff))
        (scraped st).

(** Events that load or change the page. *)
Definition is_navigation (e : event) : bool :=
  match e with EvGet _ | EvClick | EvJsClick => true | _ => false end.

(** Events that the page loop can log. *)
Definition loop_event (e : event) : bool :=
  match e with
  | EvSleep _ | EvSleepUniform _ _ | EvFindRows _ | EvScroll | EvClick | EvJsClick => true
  | _ => false
  end.

Definition is_page_source (e : event) : bool :=
  match e with EvPageSource => true | _ => false end.

(** No event of [evs] reads the page source. *)
Definition no_read (evs : list event) : bool :=
  forallb (fun e => negb (is_page_source e)) evs.

End CitationSpec.

Module ProfileSpec.
Import Py Dom Profile.

(** The extraction of the row raises nothing that reaches line 789. The
    index plays no part in that. *)
Definition succeeds (row : PaperRow) : bool := is_ok (paper_data 0 row).

(** The positions, counted from [idx], of the rows that succeed. *)
Fixpoint ok_positions (idx : nat) (rows : list PaperRow) : list nat :=
  match rows with
  | [] => []
  | row :: rest =>
      if succeeds row then idx :: ok_positions (S idx) rest
      else ok_positions (S idx) rest
  end.

Definition paper_id (d : dict) : cell := cell_of (d !! "paper_id").

(** The answer ends the expansion loop: no button in time, a disabled
    button, or a scroll or click that raises. *)
Definition stops (answer : res ShowMore) : bool :=
  match answer with
  | Raise _ => true
  | Ok show_more_button =>
      match sm_disabled show_more_button with
      | Raise _ => true
      | Ok disabled =>
          truthy disabled
          || negb (is_ok (sm_scroll show_more_button))
          || negb (is_ok (sm_click show_more_button))
      end
  end.

End ProfileSpec.

(* ===================================================================== *)
(** * Sample pages                                                        *)
(* ===================================================================== *)

Module CitationSamples.
Import Py Dom Citation.

Definition paper_url : str :=
  py "https://scholar.google.com/citations?view_op=view_citation&citation_for_view=X:1".

Definition cited_by_url : str := py "https://scholar.google.com/scholar?cites=123".

Definition citer_row (title link : string) (info : res (res str)) : CiterRow :=
  {| gs_rt := Ok {| te_text := Ok (py title);
                    te_anchor := Ok (Ok (Some (py link)));
                    te_href := Ok None |};
     h3_a := Raise NoSuchElementException;
     gs_a := info |}.

Definition row_a : CiterRow :=
  citer_row "Deep nets" "https://a.example/1" (Ok (Ok (py "A. Author - Venue - 2019"))).

(** The title of [row_a] again, with other data. *)
Definition row_a_again : CiterRow :=
  citer_row "Deep nets" "https://b.example/2" (Ok (Ok (py "B. Other - Elsewhere - 2021"))).

Definition row_b : CiterRow :=
  citer_row "Shallow nets" "https://c.example/3" (Ok (Ok (py "C. Author - Venue, 2019"))).

(** A row without the gray line. *)
Definition row_c : CiterRow :=
  citer_row "Breaking CAPTCHA" "https://d.example/4" (Raise NoSuchElementException).

(** A row where neither title locator finds anything. *)
Definition row_untitled : CiterRow :=
  {| gs_rt := Raise NoSuchElementException;
     h3_a := Raise NoSuchElementException;
     gs_a := Ok (Ok (py "D. Author - Venue - 2020")) |}.

Definition next_button : res NextButton :=
  Ok {| nb_disabled := Ok None; nb_class := Ok (Some (py "gs_btnPR"));
        nb_scroll := Ok tt; nb_click := Ok tt; nb_js_click := Ok tt |}.

Definition no_button : res NextButton := Raise NoSuchElementException.

Definition page (rows : list CiterRow) (next : res NextButton) : PageView :=
  {| rows_gs_ri := Ok rows; rows_gs_r := Ok [];
     next_aria := next; next_gs_nma := no_button; next_start := no_button |}.

(** A page on which the driver fails to list the rows. *)
Definition broken_page : PageView :=
  {| rows_gs_ri := Raise WebDriverException; rows_gs_r := Raise WebDriverException;
     next_aria := no_button; next_gs_nma := no_button; next_start := no_button |}.

Definition crawl (source : string) (views : list PageView) : Env :=
  {| firefox := Ok tt;
     chrome := Raise WebDriverException;
     get_paper := Ok tt;
     cited_by_link := Ok (Ok (Some cited_by_url));
     all_links := Ok [];
     get_citations := Ok tt;
     page_source := Ok (py source);
     print_warning := Ok tt;
     input_gate := Ok tt;
     results_gs_ri := Ok [row_a];
     results_gs_r := Ok [];
     print_cross := Ok tt;
     page_info := Ok tt;
     input_retry := Ok tt;
     results_gs_ri_again := Ok [];
     results_gs_r_again := Ok [];
     print_check := Ok tt;
     pages := views |}.

Definition record (title link : string) (authors publication year : pyval) : dict :=
  <["citer_year" := year]>
    (<["citer_publication" := publication]>
      (<["citer_authors" := authors]>
        (<["citer_link" := PStr (py link)]>
          (<["citer_title" := PStr (py title)]> ∅)))).

Definition record_a : dict :=
  record "Deep nets" "https://a.example/1"
         (PStr (py "A. Author")) (PStr (py "Venue")) (PStr (py "2019")).

Definition record_b : dict :=
  record "Shallow nets" "https://c.example/3"
         (PStr (py "C. Author")) (PStr (py "Venue, 2019")) PNone.

Definition record_c : dict :=
  record "Breaking CAPTCHA" "https://d.example/4" PNone PNone PNone.

(** Two pages; the second repeats a title of the first. *)
Definition two_pages : Env :=
  crawl "<html>results</html>"
        [page [row_a; row_untitled; row_b; row_a_again] next_button;
         page [row_b; row_c] no_button].

(** The events up to the first pass of the page loop, with a clear gate. *)
Definition opening : list event :=
  [EvGet paper_url; EvSleepUniform 3000 5000; EvSleepUniform 2000 4000;
   EvGet cited_by_url; EvSleepUniform 4000 6000; EvPageSource; EvFindRows "gs_ri"].

Definition turn_page : list event := [EvScroll; EvSleepUniform 1000 2000; EvClick].

Definition two_pages_trace : list event :=
  opening ++ [EvFindRows "gs_ri"] ++ turn_page ++
  [EvSleepUniform 2000 4000; EvFindRows "gs_ri"] ++ finally_events.

(** One good page, then a page that fails at every attempt. *)
Definition second_page_broken : Env :=
  crawl "<html>results</html>"
        [page [row_a; row_b] next_button; broken_page; broken_page; broken_page].

(** The same first page, and nothing after it. *)
Definition one_page : Env :=
  crawl "<html>results</html>" [page [row_a; row_b] no_button].

(** The first page fails at every attempt. *)
Definition first_page_broken : Env :=
  crawl "<html>results</html>" [broken_page; broken_page; broken_page; broken_page].

(** The page carries the marker before and after the person pressed ENTER:
    the title of a citing paper contains it. *)
Definition marker_in_title : Env :=
  crawl "<html><h3 class=gs_rt>breaking captcha</h3></html>" [page [row_c] no_button].

(** The same answers from the browser, for a program started without a
    console: [input()] raises. *)
Definition without_console (env : Env) : Env :=
  {| firefox := firefox env;
     chrome := chrome env;
     get_paper := get_paper env;
     cited_by_link := cited_by_link env;
     all_links := all_links env;
     get_citations := get_citations env;
     page_source := page_source env;
     print_warning := print_warning env;
     input_gate := Raise RuntimeError;
     results_gs_ri := results_gs_ri env;
     results_gs_r := results_gs_r env;
     print_cross := print_cross env;
     page_info := page_info env;
     input_retry := Raise RuntimeError;
     results_gs_ri_again := results_gs_ri_again env;
     results_gs_r_again := results_gs_r_again env;
     print_check := print_check env;
     pages := pages env |}.

End CitationSamples.

Module ProfileSamples.
Import Py Dom Profile.

Definition profile_url : str := py "https://scholar.google.com/citations?user=XvOnO9wAAAAJ&hl=en".

Definition cell (x : str) : res (res str) := Ok (Ok x).

Definition title_element (title : string) : res TitleElement :=
  Ok {| text := Ok (py title);
        href := Ok (Some (py "https://scholar.google.com/citations?view_op=view_citation")) |}.

Definition paper_row (title : res TitleElement) (cited : str) : PaperRow :=
  {| gsc_a_at := title;
     gs_gray := cell (py "A Author, B Author");
     gs_gray_all := Ok [Ok (py "A Author, B Author"); Ok (py "Journal of Examples 1 (2)")];
     gsc_a_y := cell (py "2020");
     gsc_a_c := cell cited |}.

Definition good_row (title : string) : PaperRow := paper_row (title_element title) (py "12").

(** A row without the title anchor. *)
Definition untitled_row : PaperRow := paper_row (Raise NoSuchElementException) (py "12").

(** A row whose element is no longer attached to the page. *)
Definition stale_row : PaperRow := paper_row (Raise WebDriverException) (py "12").

(** A row whose citation cell reads as the superscript two, U+00B2. *)
Definition superscript_row : PaperRow := paper_row (title_element "Squares") [178%N].

Definition profile (table : res unit) (rows : list PaperRow) : Env :=
  {| firefox := Ok tt;
     chrome := Raise WebDriverException;
     get_profile := Ok tt;
     show_more := [Raise TimeoutException];
     table_wait := table;
     paper_rows := Ok rows;
     quit := Ok tt |}.

End ProfileSamples.

(* ===================================================================== *)
(** * [MainWindow]: what it computes on strings                         *)
(* ===================================================================== *)

Module Gui.
Import Py Dom.

(** [re.sub(p, repl, x)] for a pattern [p] that is one character class:
    every character of the class is a match of its own. *)
Definition sub_each (class : N -> bool) (repl x : str) : str :=
  x ≫= fun c => if class c then repl else [c].

(** [re.sub(p, repl, x)] for a pattern [p] that is a character class
    followed by [+]: a match is a whole run of characters of the class.
    [in_run] says that the character before belongs to the current run. *)
Fixpoint sub_runs_from (class : N -> bool) (repl : str) (in_run : bool) (x : str) : str :=
  match x with
  | [] => []
  | c :: x' =>
      if class c
      then (if in_run then [] else repl) ++ sub_runs_from class repl true x'
      else c :: sub_runs_from class repl false x'
  end.

Definition sub_runs (class : N -> bool) (repl x : str) : str :=
  sub_runs_from class repl false x.

Definition hyphen : N := 45.

(** The class [[^\w\s-]] of line 1274. *)
Definition not_word_space_hyphen (c : N) : bool :=
  negb (isword_cp c || isspace_cp c || (c =? hyphen)%N).

(** The class [[-\s]] of line 1275. *)
Definition hyphen_or_space (c : N) : bool := (c =? hyphen)%N || isspace_cp c.

(** Lines 1274-1276. *)
Definition clean_title (current_paper_title : str) : str :=
  let clean_title := sub_each not_word_space_hyphen [] current_paper_title in
  let clean_title := sub_runs hyphen_or_space (py "_") clean_title in
  take 50 clean_title.

(** Truth value of a value read from the table of papers: [if v]. [NaN]
    is a float other than zero. *)
Definition truthy_val (v : pyval) : bool :=
  match v with
  | PNone => false
  | PStr x => truthy (Some x)
  | PInt z => negb (z =? 0)%Z
  | PNaN => true
  end.

(** [f"{v}"] *)
Definition format (v : pyval) : str :=
  match v with
  | PNone => py "None"
  | PStr x => x
  | PInt z => py (NilZero.string_of_int (Z.to_int z))
  | PNaN => py "nan"
  end.

(** The name proposed, or the [TypeError] of [re.sub] on what is not a
    string. *)
Inductive proposed :=
| Name (default_name : str)
| TypeError.

(** Lines 1272-1279 of [save_citers_to_csv]: the name proposed in the save
    dialog. Title and year are the cells that [load_citers_for_paper] read
    from the table of papers (lines 1129-1138), [None] before that. *)
Definition default_name (current_paper_title current_paper_year : pyval) : proposed :=
  if truthy_val current_paper_title && truthy_val current_paper_year
  then
    match current_paper_title with
    | PStr title =>
        Name (clean_title title ++ py "_" ++ format current_paper_year ++ py "_citers.csv")
    | _ => TypeError
    end
  else Name (py "citers.csv").

(** What [start_scraping] does with the text of the URL field. *)
Inductive started :=
| Warning (msg : string)      (* QMessageBox.warning, then return *)
| Scraping (url : str).       (* ScraperThread(url).start() *)

(** Lines 1001-1024. *)
Definition start_scraping (text : str) : started :=
  let url := strip text in
  if negb (truthy (Some url)) then Warning "Please enter a valid URL"
  else if negb (contains (py "scholar.google.com/citations") url)
  then Warning "Please enter a valid Google Scholar profile URL"
  else Scraping url.

End Gui.

(* ===================================================================== *)
(** * Vocabulary and samples of the further facts                       *)
(* ===================================================================== *)

Module PySpec.
Import Py.

(** [sep] occurs in [x]. *)
Definition occurs (sep x : str) : Prop := exists pre post, x = pre ++ sep ++ post.

(** A year as the pattern of line 267 matches it. *)
Definition is_year (y : str) : Prop :=
  exists c d, (y = py "19" ++ [c; d] \/ y = py "20" ++ [c; d]) /\
              isdecimal_cp c = true /\ isdecimal_cp d = true.

(** [sep] starts at position [i] of [x]. *)
Definition occurs_at (sep x : str) (i : nat) : Prop := exists r, drop i x = sep ++ r.

(** [parts] are the segments that the occurrences of [sep] cut [x] into,
    the occurrences being taken from the left, one after the other: what
    the documentation of [str.split] says of [x.split(sep)]. *)
Inductive cut_at (sep : str) : str -> list str -> Prop :=
| cut_last x : ~ occurs sep x -> cut_at sep x [x]
| cut_next pre post parts :
    (forall i, i < length pre -> ~ occurs_at sep (pre ++ sep ++ post) i) ->
    cut_at sep post parts ->
    cut_at sep (pre ++ sep ++ post) (pre :: parts).

(** The year [y] stands in [x] between [pre] and [post], with a word
    boundary on each side. *)
Definition year_at (x pre y post : str) : Prop :=
  x = pre ++ y ++ post /\ is_year y /\
  isword_opt (last pre) = false /\ isword_opt (head post) = false.

(** What the year field holds for the third segment of an info line:
    nothing when there is no third segment or no year in it, and otherwise
    a year of the segment that starts no later than any other. *)
Definition year_of (third year : option str) : Prop :=
  match third, year with
  | None, _ => year = None
  | Some x, None => forall pre y post, ~ year_at x pre y post
  | Some x, Some y =>
      (exists pre post, year_at x pre y post) /\
      (forall pre' y' post', year_at x pre' y' post' ->
         exists pre post, x = pre ++ y ++ post /\ length pre <= length pre')
  end.

(** No white space at either end. *)
Definition trimmed (x : str) : Prop :=
  (forall c, head x = Some c -> isspace_cp c = false) /\
  (forall c, last x = Some c -> isspace_cp c = false).

End PySpec.

Module CrawlSpec.
Import Py Dom Citation.

Definition is_quit (e : event) : bool := match e with EvQuit => true | _ => false end.

Definition no_quit (evs : list event) : bool := forallb (fun e => negb (is_quit e)) evs.

(** Line 106: the link qualifies as a link to the citing papers. *)
Definition qualifies (href : option str) : bool :=
  truthy href
  && contains (py "scholar.google.com") (default [] href)
  && contains (py "cites=") (default [] href).

(** The URLs loaded with [driver.get], in order. *)
Definition gets (evs : list event) : list str :=
  omap (fun e => match e with EvGet url => Some url | _ => None end) evs.
(** Lines 90-96: what the first strategy leaves in [cited_by_url]. *)
Definition cited_by_href (env : Env) : res (option str) :=
  except_only is_NoSuchElement (link ← cited_by_link env; link) None.


(** Every click in [evs] comes right after the scroll and the pause of
    lines 311-312, and every click by script right after a click. *)
Definition clicks_paced (evs : list event) : Prop :=
  (forall pre post, evs = pre ++ EvClick :: post ->
     exists pre', pre = pre' ++ [EvScroll; EvSleepUniform 1000 2000]) /\
  (forall pre post, evs = pre ++ EvJsClick :: post -> exists pre', pre = pre' ++ [EvClick]).

Definition no_click (evs : list event) : bool :=
  forallb (fun e => match e with EvClick | EvJsClick => false | _ => true end) evs.

End CrawlSpec.

Module TableSpec.
Import Py Dom Profile ProfileSpec.

Definition paper_keys : gset string :=
  {[ "paper_id"; "title"; "authors"; "publication"; "year"; "citations"; "link" ]}.

Definition field (key : string) (d : dict) : cell := cell_of (d !! key).

(** The cells of a record, in the order of the columns of line 799. *)
Definition line (d : dict) : list cell := (fun col => field col d) <$> column_order.

(** The events of an iteration of lines 697-718 that goes on to the next. *)
Definition expansion : list event :=
  [EvWait 5000 "gsc_bpf_more"; EvScroll; EvSleep 500; EvClick; EvSleep 2000].

End TableSpec.

Module TableSamples.
Import Py Dom Profile ProfileSamples.

(** The record of [good_row title] at position [idx]. *)
Definition good_record (idx : Z) (title : string) : dict :=
  <["paper_id" := PInt idx]>
    (<["citations" := PInt 12]>
      (<["year" := PStr (py "2020")]>
        (<["publication" := PStr (py "Journal of Examples 1 (2)")]>
          (<["authors" := PStr (py "A Author, B Author")]>
            (<["link" :=
                 PStr (py "https://scholar.google.com/citations?view_op=view_citation")]>
              (<["title" := PStr (py title)]> ∅)))))).

(** A button that can be clicked, and one that is disabled. *)
Definition more_button : ShowMore :=
  {| sm_disabled := Ok None; sm_scroll := Ok tt; sm_click := Ok tt |}.

Definition disabled_button : ShowMore :=
  {| sm_disabled := Ok (Some (py "true")); sm_scroll := Ok tt; sm_click := Ok tt |}.

(** A profile whose list is expanded twice before the button is disabled. *)
Definition long_profile (rows : list PaperRow) : Env :=
  {| firefox := Ok tt;
     chrome := Raise WebDriverException;
     get_profile := Ok tt;
     show_more := [Ok more_button; Ok more_button; Ok disabled_button; Ok more_button];
     table_wait := Ok tt;
     paper_rows := Ok rows;
     quit := Ok tt |}.

End TableSamples.

(* ===================================================================== *)
(** * Tactics                                                             *)
(* ===================================================================== *)

(** The cases of [emitted_at] in which nothing is emitted contradict [H];
    what is left is the row with a new, non-empty title. *)
Ltac emitted H te t Hf :=
  unfold CitationSpec.emitted_at in H;
  destruct (Citation.find_title _) as [[te t]|] eqn:Hf; [|by apply elem_of_nil in H];
  (case_bool_decide; [by apply elem_of_nil in H|]);
  (case_bool_decide; [by apply elem_of_nil in H|]);
  simpl in H; apply list_elem_of_singleton in H.

(** Every way through [find_results] and through [check_for_block]: the
    goal is a fact on the events, closed by computation in each case. *)
Ltac find_results_cases env :=
  unfold Citation.find_results, Citation.found_after_wait;
  destruct (Citation.nonempty (Citation.results_gs_ri env)); [done|];
  destruct (Citation.nonempty (Citation.results_gs_r env)); [done|];
  destruct (Citation.print_cross env); [|done];
  destruct (Citation.page_info env); [|done];
  destruct (Citation.input_retry env); [|done];
  destruct (Citation.print_check env);
    (destruct (Citation.results_gs_ri_again env) as [[|? ?]|?];
       [destruct (Citation.results_gs_r_again env) as [[|? ?]|?] | |]; done).

Ltac check_for_block_cases env src :=
  unfold Citation.check_for_block;
  destruct (Citation.gate src);
    (destruct (Citation.print_warning env); [destruct (Citation.input_gate env)|]); done.

(** Case analysis on the fields of a row after the title: the goal is
    closed in every case where one of them raises. *)
Ltac fields row :=
  destruct (Profile.authors row); [|done];
  destruct (Profile.publication row); [|done];
  destruct (Profile.year row); [|done];
  destruct (Profile.citations row); [|done].

(* ===================================================================== *)
(** * Facts about the runtime functions                                   *)
(* ===================================================================== *)

Module PyFacts.
Import Py Dom Citation PySpec.

Lemma startswith_app (p x : str) :
  startswith p x = true <-> exists r, x = p ++ r.
Proof.
  revert x; induction p as [|a p IH]; intros x; simpl.
  - split; [intros _; by exists x | done].
  - destruct x as [|b x]; [split; [done | intros [r Hr]; discriminate] |].
    rewrite andb_true_iff, N.eqb_eq, IH. split.
    + intros [-> [r ->]]. by exists r.
    + intros [r Hr]. injection Hr as -> ->. eauto.
Qed.

Lemma split_aux_nonempty sep k cur x : split_aux sep k cur x <> [].
Proof.
  revert k cur; induction x as [|c x IH]; intros k cur; simpl; [done|].
  destruct k; [destruct (startswith sep (c :: x)) |]; auto.
Qed.

Lemma join_cons sep p rest :
  rest <> [] -> join sep (p :: rest) = p ++ sep ++ join sep rest.
Proof. by destruct rest. Qed.

(** Joining the segments with the separator gives the string back: the
    segments are what lies between the occurrences that [split] found. *)
Lemma split_aux_join sep k cur x :
  sep <> [] -> k <= length x ->
  join sep (split_aux sep k cur x) = cur ++ drop k x.
Proof.
  intros Hsep. revert k cur; induction x as [|c x IH]; intros k cur Hk; simpl in *.
  - assert (k = 0) as -> by lia. by rewrite app_nil_r.
  - destruct k as [|k]; [|apply IH; lia].
    destruct (startswith sep (c :: x)) eqn:Hp.
    + apply startswith_app in Hp as [r Hr].
      destruct sep as [|a sep]; [done|]. simpl in Hr. injection Hr as -> ->.
      rewrite join_cons by apply split_aux_nonempty.
      rewrite IH by (rewrite length_app; simpl; lia).
      simpl. rewrite Nat.sub_0_r, drop_app_length. done.
    + rewrite IH by lia. simpl. by rewrite <- app_assoc.
Qed.

Lemma split_join x sep : sep <> [] -> join sep (split x sep) = x.
Proof. intros H. unfold split. by rewrite split_aux_join by (done || lia). Qed.

Lemma split_nonempty x sep : exists first rest, split x sep = first :: rest.
Proof.
  unfold split. pose proof (split_aux_nonempty sep 0 [] x) as H.
  destruct (split_aux sep 0 [] x); [done | eauto].
Qed.

Lemma split_aux_skip sep s cur x :
  split_aux sep (length s) cur (s ++ x) = split_aux sep 0 cur x.
Proof. induction s as [|c s IH]; [done|]. simpl. apply IH. Qed.

Lemma split_aux_cut sep n cur x :
  sep <> [] -> length x <= n ->
  (forall a b, cur = a ++ b -> b <> [] -> startswith sep (b ++ x) = false) ->
  cut_at sep (cur ++ x) (split_aux sep 0 cur x).
Proof.
  intros Hsep. revert cur x; induction n as [|n IH]; intros cur x Hn Hinv.
  - destruct x; [|simpl in Hn; lia]. simpl. rewrite app_nil_r. apply cut_last.
    intros (pre & post & ->).
    specialize (Hinv pre (sep ++ post) eq_refl). rewrite app_nil_r in Hinv.
    assert (startswith sep (sep ++ post) = true) as Hs by (apply startswith_app; eauto).
    rewrite Hinv in Hs; [done|]. by destruct sep.
  - destruct x as [|c x].
    { simpl. rewrite app_nil_r. apply cut_last. intros (pre & post & ->).
      specialize (Hinv pre (sep ++ post) eq_refl). rewrite app_nil_r in Hinv.
      assert (startswith sep (sep ++ post) = true) as Hs by (apply startswith_app; eauto).
      rewrite Hinv in Hs; [done|]. by destruct sep. }
    cbn [split_aux]. destruct (startswith sep (c :: x)) eqn:Hp.
    + apply startswith_app in Hp as [r Hr]. rewrite Hr.
      destruct sep as [|c' s]; [done|]. injection Hr as <- ->.
      cbn [length]. rewrite Nat.sub_1_r. cbn [pred]. rewrite split_aux_skip.
      apply cut_next.
      * intros i Hi [q Hq].
        rewrite drop_app_le in Hq by lia.
        assert (startswith (c :: s) (drop i cur ++ c :: s ++ r) = true) as Hs
          by (apply startswith_app; by exists q).
        rewrite (Hinv (take i cur) (drop i cur)) in Hs; [done | by rewrite take_drop |].
        intros Hnil. apply (f_equal length) in Hnil. rewrite length_drop in Hnil.
        simpl in Hnil. lia.
      * apply (IH [] r).
        -- simpl in Hn. rewrite length_app in Hn. lia.
        -- intros a b Hab Hb. by destruct a, b.
    + replace (cur ++ c :: x) with ((cur ++ [c]) ++ x) by (by rewrite <- app_assoc).
      apply IH; [simpl in Hn; lia|]. intros a b Hab Hb.
      destruct b as [|b0 b _] using rev_ind; [done|].
      rewrite app_assoc in Hab. apply app_inj_tail in Hab as [-> ->].
      rewrite <- app_assoc. simpl. destruct b as [|b1 b]; [done|].
      by apply (Hinv a (b1 :: b)).
Qed.

(** [split] cuts at the occurrences of the separator, from the left. *)
Lemma split_cut x sep : sep <> [] -> cut_at sep x (split x sep).
Proof.
  intros Hsep. apply (split_aux_cut sep (length x) [] x); [done | lia |].
  intros a b Hab Hb. by destruct a, b.
Qed.

(** There is one way only to cut a string. *)
Lemma cut_at_unique sep x parts parts' :
  cut_at sep x parts -> cut_at sep x parts' -> parts = parts'.
Proof.
  intros H. revert parts'. induction H as [x Hx | pre post parts Hfirst Hrest IH]; intros parts' H'.
  - inversion H' as [? _ | pre' post' ? _ _ Heq]; [done|]. subst.
    exfalso. apply Hx. by exists pre', post'.
  - inversion H' as [? Hx | pre' post' parts'' Hfirst' Hrest' Heq]; subst.
    + exfalso. apply Hx. by exists pre, post.
    + assert (length pre = length pre') as Hlen.
      { destruct (Nat.lt_trichotomy (length pre) (length pre')) as [Hlt | [? | Hlt]]; [|done|].
        - exfalso. apply (Hfirst' _ Hlt). rewrite Heq. exists post.
          by rewrite drop_app_length.
        - exfalso. apply (Hfirst _ Hlt). rewrite <- Heq. exists post'.
          by rewrite drop_app_length. }
      apply app_inj_1 in Heq as [-> Heq]; [|done]. apply app_inv_head in Heq as ->.
      f_equal. by apply IH.
Qed.

(** [int] never gives a negative number. *)
Lemma int_nonneg x n : int x = Some n -> (0 <= n)%Z.
Proof.
  unfold int. destruct (int_max_str_digits <? length x); [done|].
  assert (forall acc : option Z,
            (forall a, acc = Some a -> (0 <= a)%Z) ->
            foldl (fun acc c =>
                     match acc, decimal_value c with
                     | Some n, Some d => Some (10 * n + d)%Z
                     | _, _ => None
                     end) acc x = Some n -> (0 <= n)%Z) as H.
  { induction x as [|c x IH]; intros acc Hacc; simpl; [auto|].
    apply IH. intros a. destruct acc as [m|]; [|done].
    unfold decimal_value. destruct (find _ _) as [r|]; [|done].
    intros [= <-]. specialize (Hacc m eq_refl).
    pose proof (N2Z.is_nonneg ((c - r.1) mod 10)). lia. }
  apply H. by intros a [= <-].
Qed.

Lemma decimal_is_word c : isdecimal_cp c = true -> isword_cp c = true.
Proof.
  assert (forallb (fun r => existsb (fun w => (w.1 <=? r.1)%N && (r.2 <=? w.2)%N)
                                   word_ranges) decimal_ranges = true) as Hsub
    by (vm_compute; reflexivity).
  unfold isdecimal_cp, isword_cp, in_ranges.
  rewrite forallb_forall in Hsub. rewrite !existsb_exists.
  intros [r [Hr Hc]]. apply Hsub in Hr. apply existsb_exists in Hr as [w [Hw Hrw]].
  exists w. split; [done|].
  apply andb_true_iff in Hc as [Hlo Hhi%N.leb_le]. apply N.leb_le in Hlo.
  apply andb_true_iff in Hrw as [Hwlo Hwhi%N.leb_le]. apply N.leb_le in Hwlo.
  apply andb_true_iff; split; apply N.leb_le; lia.
Qed.

Lemma rmatch_lit {A} (l : str) prev x (k : option N -> str -> option A) :
  rmatch (rseq (map RChar l)) prev x k =
  if startswith l x then k (from_option Some prev (last l)) (drop (length l) x)
  else None.
Proof.
  revert prev x; induction l as [|a l IH]; intros prev x; [done|].
  cbn [map rseq foldr rmatch startswith]. destruct x as [|b x]; [done|].
  rewrite N.eqb_sym. destruct (a =? b)%N eqn:E; [|done].
  apply N.eqb_eq in E as ->. fold (rseq (map RChar l)). rewrite IH.
  destruct (startswith l x); [|done]. simpl. rewrite last_cons. by destruct (last l).
Qed.

Lemma year_match_here prev x m :
  match_here year_pattern prev x = Some m ->
  exists c d rest,
    (m = py "19" ++ [c; d] \/ m = py "20" ++ [c; d]) /\
    x = m ++ rest /\
    isdecimal_cp c = true /\ isdecimal_cp d = true /\
    isword_opt prev = false /\ isword_opt (head rest) = false.
Proof.
  unfold match_here, year_pattern. cbn [rseq rrep foldr replicate rmatch].
  unfold rlit. rewrite !rmatch_lit.
  destruct (xorb _ _) eqn:Hb; [|done].
  assert (forall lit : str, length lit = 2 -> startswith lit x = true ->
            isword_cp (default 0%N (head lit)) = true ->
            forall rest0,
            match drop (length lit) x with
            | [] => None
            | a :: x'0 =>
                if isdecimal_cp a then
                  match x'0 with
                  | [] => None
                  | a0 :: x'1 =>
                      if isdecimal_cp a0 then
                        if xorb (isword_opt (Some a0)) (isword_opt (head x'1))
                        then Some x'1 else None
                      else None
                  end
                else None
            end = Some rest0 ->
            exists c d,
              x = (lit ++ [c; d]) ++ rest0 /\
              take (length x - length rest0) x = lit ++ [c; d] /\
              isdecimal_cp c = true /\ isdecimal_cp d = true /\
              isword_opt prev = false /\ isword_opt (head rest0) = false) as Hcase.
  { intros lit Hlen Hp Hw rest0. apply startswith_app in Hp as [r ->].
    rewrite drop_app_length. destruct r as [|c [|d r]]; [done| |].
    { by destruct (isdecimal_cp c). }
    destruct (isdecimal_cp c) eqn:Hc; [|done].
    destruct (isdecimal_cp d) eqn:Hd; [|done].
    destruct (xorb (isword_opt (Some d)) _) eqn:Hb2; [|done]. intros [= <-].
    exists c, d. split_and!; try done.
    - by rewrite <- app_assoc.
    - replace (lit ++ c :: d :: r) with ((lit ++ [c; d]) ++ r) by by rewrite <- app_assoc.
      rewrite length_app, Nat.add_sub. by rewrite take_app_length.
    - destruct lit as [|a lit]; [done|]. simpl in Hb, Hw.
      rewrite Hw in Hb. by destruct (isword_opt prev).
    - simpl in Hb2. rewrite (decimal_is_word d Hd) in Hb2.
      by destruct (isword_opt (head r)). }
  destruct (startswith (py "19") x) eqn:H19.
  - destruct (match drop (length (py "19")) x with [] => None | _ => _ end) as [rest0|] eqn:Hm.
    + intros [= <-]. destruct (Hcase (py "19") eq_refl H19 eq_refl rest0 Hm)
        as (c & d & Hx & Ht & ? & ? & ? & ?). exists c, d, rest0. rewrite Ht. split_and!; try done. by left.
    + destruct (startswith (py "20") x) eqn:H20; [|done].
      apply startswith_app in H19 as [r1 ->]. apply startswith_app in H20 as [r2 H20]. done.
  - destruct (startswith (py "20") x) eqn:H20; [|done].
    destruct (match drop (length (py "20")) x with [] => None | _ => _ end) as [rest0|] eqn:Hm; [|done].
    intros [= <-]. destruct (Hcase (py "20") eq_refl H20 eq_refl rest0 Hm)
        as (c & d & Hx & Ht & ? & ? & ? & ?). exists c, d, rest0. rewrite Ht. split_and!; try done. by right.
Qed.

(** What [re.search] returns for the year pattern is a piece of the subject:
    "19" or "20" and two decimal digits, with no word character on either side. *)
Lemma year_search_sound x y :
  re_search year_pattern x = Some y ->
  exists pre c d post,
    x = pre ++ y ++ post /\
    (y = py "19" ++ [c; d] \/ y = py "20" ++ [c; d]) /\
    isdecimal_cp c = true /\ isdecimal_cp d = true /\
    isword_opt (last pre) = false /\ isword_opt (head post) = false.
Proof.
  unfold re_search.
  enough (forall pre prev, prev = last pre ->
            search_from year_pattern prev x = Some y ->
            exists pre' c d post,
              pre ++ x = pre' ++ y ++ post /\
              (y = py "19" ++ [c; d] \/ y = py "20" ++ [c; d]) /\
              isdecimal_cp c = true /\ isdecimal_cp d = true /\
              isword_opt (last pre') = false /\ isword_opt (head post) = false) as H.
  { intros Hs. apply (H [] None eq_refl Hs). }
  induction x as [|a x IH]; intros pre prev Hprev; simpl.
  - destruct (match_here year_pattern prev []) as [m|] eqn:Hm; [|done].
    intros [= <-]. apply year_match_here in Hm as (c & d & rest & Hy & Hx & ?).
    destruct Hy as [-> | ->]; done.
  - destruct (match_here year_pattern prev (a :: x)) as [m|] eqn:Hm.
    + intros [= <-]. apply year_match_here in Hm as (c & d & rest & Hy & Hx & ? & ? & ? & ?).
      exists pre, c, d, rest. rewrite Hx. subst prev. split_and!; done.
    + intros Hs. destruct (IH (pre ++ [a]) (Some a)) as (pre' & c & d & post & Hx & ?);
        [by rewrite last_snoc | done |].
      exists pre', c, d, post. rewrite <- Hx, <- app_assoc. done.
Qed.

Lemma year_match_here_complete prev y post :
  is_year y -> isword_opt prev = false -> isword_opt (head post) = false ->
  match_here year_pattern prev (y ++ post) = Some y.
Proof.
  intros (c & d & Hy & Hc & Hd) Hprev Hpost.
  assert (isword_cp c = true /\ isword_cp d = true) as [Hwc Hwd]
    by (split; by apply decimal_is_word).
  unfold match_here, year_pattern. cbn [rseq rrep foldr replicate rmatch].
  unfold rlit. rewrite !rmatch_lit.
  destruct Hy as [-> | ->]; rewrite Hprev; simpl; rewrite Hc, Hd, Hwd, Hpost; simpl;
    (replace (S (S (S (S (length post)))) - length post) with 4 by lia); reflexivity.
Qed.

(** The search finds a year wherever there is one, and no later than it. *)
Lemma year_search_complete x pre y post :
  year_at x pre y post ->
  exists m pre' post',
    re_search year_pattern x = Some m /\ x = pre' ++ m ++ post' /\
    length pre' <= length pre.
Proof.
  intros (-> & Hy & Hpre & Hpost). unfold re_search.
  enough (forall prev, isword_opt (from_option Some prev (last pre)) = false ->
            exists m pre' post',
              search_from year_pattern prev (pre ++ y ++ post) = Some m /\
              pre ++ y ++ post = pre' ++ m ++ post' /\
              length pre' <= length pre) as H.
  { apply (H None). by destruct (last pre). }
  clear Hpre. induction pre as [|a pre IH]; intros prev Hprev.
  - simpl in Hprev. exists y, [], post.
    destruct y as [|y0 y]; [by destruct Hy as (? & ? & [? | ?] & _)|].
    cbn [app search_from]. change (y0 :: y ++ post) with ((y0 :: y) ++ post).
    by rewrite (year_match_here_complete prev (y0 :: y) post Hy Hprev Hpost).
  - cbn [app search_from].
    destruct (match_here year_pattern prev (a :: pre ++ y ++ post)) as [m|] eqn:Hm.
    + apply year_match_here in Hm as (c & d & rest & Hshape & Hx & _).
      exists m, [], rest. split_and!; [done | done | simpl; lia].
    + destruct (IH (Some a)) as (m & pre' & post' & Hs & Hx & Hlen).
      { rewrite last_cons in Hprev. by destruct (last pre). }
      exists m, (a :: pre'), post'. rewrite Hs. split_and!; [done | | simpl; lia].
      simpl. by rewrite Hx.
Qed.

Lemma year_search_of x : year_of (Some x) (re_search year_pattern x).
Proof.
  unfold year_of. destruct (re_search year_pattern x) as [y|] eqn:Hsearch.
  - split.
    + apply year_search_sound in Hsearch as (pre & c & d & post & -> & Hy & Hc & Hd & ? & ?).
      exists pre, post. split_and!; [done | by exists c, d | done | done].
    + intros pre' y' post' (m & pre & post & Hm & Hx & Hlen)%year_search_complete.
      rewrite Hsearch in Hm. injection Hm as <-. by exists pre, post.
  - intros pre y post (m & ? & ? & Hm & _)%year_search_complete. by rewrite Hsearch in Hm.
Qed.

End PyFacts.

(* ===================================================================== *)
(** * Facts about [scrape_paper_citers]                                   *)
(* ===================================================================== *)

Module CitationFacts.
Import Py Dom Citation CitationSpec CitationSamples PySpec PyFacts.

Lemma first_occurrences_snoc rows row :
  first_occurrences (rows ++ [row]) =
  first_occurrences rows ++ option_list (emitted_at (rows ++ [row]) (length rows) row).
Proof.
  unfold first_occurrences. rewrite imap_app, omap_app. f_equal.
  - f_equal. apply imap_ext. intros i x Hx. unfold emitted_at.
    apply lookup_lt_Some in Hx. by rewrite take_app_le by lia.
  - simpl. rewrite Nat.add_0_r. by destruct (emitted_at _ _ _).
Qed.

Lemma citer_data_title te t row : citer_data te t row !! "citer_title" = Some (PStr t).
Proof. unfold citer_data. destruct (get_info row) as [[a p] y]. by simplify_map_eq. Qed.

Lemma title_text_Some row te t : find_title row = Some (te, t) -> title_text row = Some t.
Proof. unfold title_text. by intros ->. Qed.

Lemma title_text_None row : find_title row = None -> title_text row = None.
Proof. unfold title_text. by intros ->. Qed.

Lemma first_occurrences_title rows d :
  d ∈ first_occurrences rows ->
  exists t, citer_title d = Some (PStr t) /\ t <> [] /\ Some t ∈ title_text <$> rows.
Proof.
  induction rows as [|row rows IH] using rev_ind; [by rewrite elem_of_nil|].
  rewrite first_occurrences_snoc, elem_of_app, fmap_app. intros [Hd | Hd].
  - destruct (IH Hd) as (t & ? & ? & ?). exists t. rewrite elem_of_app. auto.
  - emitted Hd te t Hf. subst d.
    exists t. split_and!; [apply citer_data_title | done |].
    rewrite elem_of_app. right. rewrite list_fmap_singleton, (title_text_Some _ _ _ Hf).
    by apply list_elem_of_singleton.
Qed.

Lemma first_occurrences_NoDup rows : NoDup (citer_title <$> first_occurrences rows).
Proof.
  induction rows as [|row rows IH] using rev_ind; [constructor|].
  rewrite first_occurrences_snoc, fmap_app. apply NoDup_app. split_and!; [done| |].
  - intros o Ho Ho'. apply list_elem_of_fmap in Ho' as (d' & -> & Hd').
    emitted Hd' te t Hf. subst d'.
    apply list_elem_of_fmap in Ho as (d & Hd & Hin).
    apply first_occurrences_title in Hin as (t' & Ht' & _ & Hin).
    unfold citer_title in *. rewrite citer_data_title in Hd. rewrite Ht' in Hd.
    injection Hd as ->. by rewrite take_app_length in *.
  - destruct (emitted_at _ _ _); simpl; [apply NoDup_singleton | constructor].
Qed.

Lemma scrape_row_frame st row :
  page_num (scrape_row st row) = page_num st /\
  retry_count (scrape_row st row) = retry_count st /\
  trace (scrape_row st row) = trace st.
Proof.
  unfold scrape_row. destruct (find_title row) as [[te t]|]; [|done].
  simpl. by destruct (_ || _).
Qed.

Lemma scrape_rows_frame rows st :
  page_num (scrape_rows rows st) = page_num st /\
  retry_count (scrape_rows rows st) = retry_count st /\
  trace (scrape_rows rows st) = trace st.
Proof.
  unfold scrape_rows. revert st; induction rows as [|row rows IH]; intros st; [done|].
  simpl. destruct (IH (scrape_row st row)) as (-> & -> & ->). apply scrape_row_frame.
Qed.

Lemma scrape_rows_page_num rows st : page_num (scrape_rows rows st) = page_num st.
Proof. apply scrape_rows_frame. Qed.

Lemma scrape_rows_trace rows st : trace (scrape_rows rows st) = trace st.
Proof. apply scrape_rows_frame. Qed.

Lemma scrape_row_inv st row :
  inv st ->
  inv (scrape_row st row) /\
  scraped (scrape_row st row) = scraped st ++ [row] /\
  page_num (scrape_row st row) = page_num st /\
  retry_count (scrape_row st row) = retry_count st /\
  trace (scrape_row st row) = trace st.
Proof.
  intros [Hc Hs]. unfold scrape_row, inv. simpl.
  assert (Hseen : forall t, t <> [] ->
            bool_decide (t ∈ seen_titles st) =
            bool_decide (Some t ∈ title_text <$> take (length (scraped st)) (scraped st ++ [row]))).
  { intros t Ht. rewrite take_app_length. apply bool_decide_ext. rewrite Hs. tauto. }
  destruct (find_title row) as [[te t]|] eqn:Hf; simpl.
  - destruct (bool_decide (t = [])) eqn:Hnil; simpl.
    + split_and!; try done; simpl.
      * rewrite first_occurrences_snoc. unfold emitted_at. rewrite Hf, Hnil. simpl. by rewrite app_nil_r.
      * intros t'. rewrite Hs, fmap_app, elem_of_app. rewrite list_fmap_singleton, ?(title_text_Some _ _ _ Hf), ?(title_text_None _ Hf).
        rewrite list_elem_of_singleton. apply bool_decide_eq_true in Hnil. subst t. 
        split; [tauto|]. intros [? [?|?]]; [tauto | congruence].
    + apply bool_decide_eq_false in Hnil. rewrite (Hseen t Hnil).
      destruct (bool_decide (Some t ∈ _)) eqn:Hdup; simpl.
      * split_and!; try done; simpl.
        -- rewrite first_occurrences_snoc. unfold emitted_at. rewrite Hf, Hdup.
           rewrite bool_decide_eq_false_2 by done. simpl. by rewrite app_nil_r.
        -- intros t'. rewrite Hs, fmap_app, elem_of_app. rewrite list_fmap_singleton, ?(title_text_Some _ _ _ Hf), ?(title_text_None _ Hf).
           rewrite list_elem_of_singleton. split; [tauto|]. intros [? [?|Heq]]; [tauto|].
           injection Heq as ->. rewrite <- Hseen in Hdup by done.
           apply bool_decide_eq_true in Hdup. by apply Hs in Hdup.
      * split_and!; try done; simpl.
        -- rewrite first_occurrences_snoc. unfold emitted_at. rewrite Hf, Hdup.
           rewrite bool_decide_eq_false_2 by done. simpl. by rewrite Hc.
        -- intros t'. rewrite elem_of_union, elem_of_singleton, Hs, fmap_app, elem_of_app.
           rewrite list_fmap_singleton, ?(title_text_Some _ _ _ Hf), ?(title_text_None _ Hf). rewrite list_elem_of_singleton.
           split; [intros [-> | ?]; [auto | tauto] |]. intros [? [?|Heq]]; [tauto|]. left. congruence.
  - split_and!; try done; simpl.
    + rewrite first_occurrences_snoc. unfold emitted_at. rewrite Hf. simpl. by rewrite app_nil_r.
    + intros t'. rewrite Hs, fmap_app, elem_of_app. rewrite list_fmap_singleton, ?(title_text_Some _ _ _ Hf), ?(title_text_None _ Hf).
      rewrite list_elem_of_singleton. split; [tauto|]. intros [? [?|?]]; [tauto | congruence].
Qed.

Lemma scrape_rows_inv rows st :
  inv st ->
  inv (scrape_rows rows st) /\
  scraped (scrape_rows rows st) = scraped st ++ rows /\
  page_num (scrape_rows rows st) = page_num st /\
  retry_count (scrape_rows rows st) = retry_count st /\
  trace (scrape_rows rows st) = trace st.
Proof.
  unfold scrape_rows. revert st; induction rows as [|row rows IH]; intros st Hinv; simpl.
  - by rewrite app_nil_r.
  - destruct (scrape_row_inv st row Hinv) as (Hi & Hs & Hp & Hr & Ht).
    destruct (IH _ Hi) as (Hi' & Hs' & Hp' & Hr' & Ht').
    rewrite Hs', Hs, Hp', Hp, Hr', Hr, Ht', Ht, <- app_assoc. done.
Qed.

Lemma inv_ext st1 st2 :
  citers st1 = citers st2 -> seen_titles st1 = seen_titles st2 ->
  scraped st1 = scraped st2 -> inv st1 -> inv st2.
Proof. unfold inv. by intros -> -> ->. Qed.

Lemma page_loop_inv views st r st' :
  inv st -> page_loop views st = Some (r, st') ->
  inv st' /\
  exists n, scraped st' = scraped st ++ (take n views ≫= rows_of_view).
Proof.
  revert st; induction views as [|v views IH]; intros st Hinv; [done|].
  cbn [page_loop].
  set (st0 := if bool_decide (1 < page_num st) then _ else st).
  assert (inv st0 /\ scraped st0 = scraped st) as [Hinv0 Hsc0].
  { subst st0. by destruct (bool_decide _). }
  clearbody st0.
  destruct (find_rows v) as [found evs] eqn:Hfr.
  destruct found as [[|row rows]|e].
  - intros [= <- <-]. split; [done|]. exists 0. by rewrite app_nil_r.
  - destruct (scrape_rows_inv (row :: rows) (log evs st0)) as (Hi & Hs & _); [done|].
    set (st1 := scrape_rows (row :: rows) (log evs st0)) in *. clearbody st1.
    destruct (next_page v) as [[[]|r'] evs'].
    + intros Hloop. apply IH in Hloop as [Hi' [n Hn]]; [|done].
      split; [done|]. exists (S n). cbn [take mbind list_bind]. unfold rows_of_view at 1.
      rewrite Hfr. cbn [fst]. cbn [scraped log] in Hn. rewrite Hs in Hn. cbn [scraped log] in Hn.
      rewrite Hn, Hsc0. by rewrite <- app_assoc.
    + intros [= <- <-]. split; [done|]. exists 1. cbn [take mbind list_bind].
      unfold rows_of_view. rewrite Hfr. cbn [fst]. rewrite app_nil_r.
      change (scraped (log evs' ?s)) with (scraped s). rewrite Hs.
      change (scraped (log evs ?s)) with (scraped s). by rewrite Hsc0.
  - simpl. case_bool_decide.
    + intros [= <- <-]. split; [done|]. exists 0. simpl. by rewrite app_nil_r.
    + intros Hloop. apply IH in Hloop as [Hi' [n Hn]]; [|done].
      split; [done|]. exists (S n). cbn [take mbind list_bind]. unfold rows_of_view at 1.
      rewrite Hfr. cbn [fst app]. cbn [scraped log] in Hn. by rewrite Hn, Hsc0.
Qed.

Lemma inv_initial tr : inv (initial tr).
Proof.
  split; [done|]. intros t. simpl. split.
  - intros H. by apply elem_of_empty in H.
  - intros [_ H]. by apply elem_of_nil in H.
Qed.

Lemma returned_first_occurrences paper_url env result tr :
  scrape_paper_citers paper_url env = Some (Returned result, tr) ->
  exists n, result = first_occurrences (take n (pages env) ≫= rows_of_view).
Proof.
  unfold scrape_paper_citers. destruct (start_browser env); [|done].
  destruct (prelude paper_url env) as [[| |e] tr0];
    try (intros [= <- <-]; by exists 0).
  destruct (page_loop (pages env) (initial tr0)) as [[r st]|] eqn:Hloop; [|done].
  intros [= <- <-]. apply page_loop_inv in Hloop as [[Hc _] [n Hn]]; [|apply inv_initial].
  exists n. simpl in Hn. by rewrite <- Hn.
Qed.

(** Claim C1. The list that [scrape_paper_citers] returns is what
    first-occurrence deduplication keeps of the rows the page loop read, in
    document order: for each title the record of the first row that shows
    it, and nothing for later rows with that title. No two records have the
    same title, compared as exact strings, and every title is a non-empty
    string. *)
Theorem citers_unique_first_wins paper_url env result tr :
  scrape_paper_citers paper_url env = Some (Returned result, tr) ->
  exists n,
    result = first_occurrences (take n (pages env) ≫= rows_of_view) /\
    NoDup (citer_title <$> result) /\
    Forall (fun d => exists t, citer_title d = Some (PStr t) /\ t <> []) result.
Proof.
  intros Hrun. apply returned_first_occurrences in Hrun as [n ->].
  exists n. split_and!; [done | apply first_occurrences_NoDup |].
  apply Forall_forall. intros d Hd.
  apply first_occurrences_title in Hd as (t & ? & ? & _). eauto.
Qed.

Lemma citers_unique_first_wins_witness :
  exists n,
    [record_a; record_b; record_c] =
      first_occurrences (take n (pages two_pages) ≫= rows_of_view) /\
    NoDup (citer_title <$> [record_a; record_b; record_c]) /\
    Forall (fun d => exists t, citer_title d = Some (PStr t) /\ t <> [])
           [record_a; record_b; record_c].
Proof.
  apply (citers_unique_first_wins paper_url two_pages _ two_pages_trace).
  vm_compute. reflexivity.
Defined.

Lemma first_occurrences_row rows d :
  d ∈ first_occurrences rows ->
  exists row title_elem title,
    row ∈ rows /\ find_title row = Some (title_elem, title) /\ title <> [] /\
    d = citer_data title_elem title row.
Proof.
  induction rows as [|row rows IH] using rev_ind; [by rewrite elem_of_nil|].
  rewrite first_occurrences_snoc, elem_of_app. intros [Hd | Hd].
  - destruct (IH Hd) as (r & te & t & ? & ?). exists r, te, t. rewrite elem_of_app. auto.
  - emitted Hd te t Hf. subst d. exists row, te, t.
    rewrite elem_of_app, list_elem_of_singleton. auto.
Qed.

Lemma of_option_optional o : optional_str (of_option o).
Proof. destruct o; [right; eauto | by left]. Qed.

Lemma segment_optional parts i : optional_str (segment parts i).
Proof. unfold segment. case_bool_decide; [apply of_option_optional | by left]. Qed.

Lemma get_info_optional row a p y :
  get_info row = (a, p, y) ->
  optional_str a /\ optional_str p /\ optional_str y /\
  (info_text row = None -> a = PNone /\ p = PNone /\ y = PNone) /\
  (a = PNone -> p = PNone /\ y = PNone).
Proof.
  unfold get_info, info_text.
  assert (forall text, info_fields text = (a, p, y) ->
            optional_str a /\ optional_str p /\ optional_str y /\ a <> PNone) as Hinfo.
  { intros text. unfold info_fields. destruct (split_nonempty text (py " - ")) as (f & rest & ->).
    intros [= <- <- <-]. split_and!; [apply segment_optional | apply segment_optional | | done].
    case_bool_decide; [apply of_option_optional | by left]. }
  destruct (gs_a row) as [[text|e]|e].
  - intros H. apply Hinfo in H as (? & ? & ? & ?). split_and!; done.
  - intros [= <- <- <-]. split_and!; (by left) || done.
  - intros [= <- <- <-]. split_and!; (by left) || done.
Qed.

Lemma get_link_optional te : optional_str (get_link te).
Proof.
  unfold get_link. destruct (te_anchor te) as [[h|?]|?]; [apply of_option_optional| |];
    (destruct (te_href te); [apply of_option_optional | by left]).
Qed.

Lemma segment_lookup parts i : segment parts i = of_option (parts !! i).
Proof.
  unfold segment. case_bool_decide as Hi; [done|].
  by rewrite (lookup_ge_None_2 parts i) by lia.
Qed.

(** The three fields of an info line, by what they are in the line. *)
Lemma info_fields_cut text :
  exists parts year,
    cut_at (py " - ") text parts /\
    year_of (parts !! 2) year /\
    info_fields text = (of_option (parts !! 0), of_option (parts !! 1), of_option year).
Proof.
  exists (split text (py " - ")),
         (split text (py " - ") !! 2 ≫= re_search year_pattern).
  split_and!.
  - by apply split_cut.
  - destruct (split text (py " - ") !! 2) as [third|]; [apply year_search_of | done].
  - unfold info_fields. rewrite !segment_lookup. f_equal.
    case_bool_decide as Hlen.
    + by destruct (split text (py " - ") !! 2).
    + by rewrite (lookup_ge_None_2 _ 2) by lia.
Qed.

Lemma citer_data_lookup te title row :
  let d := citer_data te title row in
  dom d = record_keys /\
  d !! "citer_title" = Some (PStr title) /\
  d !! "citer_link" = Some (get_link te) /\
  d !! "citer_authors" = Some (get_info row).1.1 /\
  d !! "citer_publication" = Some (get_info row).1.2 /\
  d !! "citer_year" = Some (get_info row).2.
Proof.
  unfold citer_data. destruct (get_info row) as [[a p] y]. cbv zeta.
  split_and!; [|by simplify_map_eq..].
  unfold record_keys. rewrite !dom_insert_L, dom_empty_L. set_solver.
Qed.

Lemma returned_record paper_url env result tr d :
  scrape_paper_citers paper_url env = Some (Returned result, tr) -> d ∈ result ->
  exists row title_elem title,
    row ∈ pages env ≫= rows_of_view /\
    find_title row = Some (title_elem, title) /\ title <> [] /\
    d = citer_data title_elem title row.
Proof.
  intros Hrun Hd. apply returned_first_occurrences in Hrun as [n ->].
  apply first_occurrences_row in Hd as (row & te & t & Hrow & Hf & Ht & ->).
  exists row, te, t. split_and!; try done.
  apply list_elem_of_bind in Hrow as (v & ? & Hv). apply list_elem_of_bind.
  exists v. split; [done|]. by apply (subseteq_take n).
Qed.

(** Claim C10. Every record of the returned list is the record of one row
    that the loop read, the row whose title it carries. It has exactly the
    five keys; its title is a non-empty string, the other four values are a
    string or [None], and authors, publication and year are [None] together
    when the gray line of that row cannot be read. *)
Theorem citer_record_fields paper_url env result tr d :
  scrape_paper_citers paper_url env = Some (Returned result, tr) ->
  d ∈ result ->
  exists row title_elem title link authors publication year,
    row ∈ pages env ≫= rows_of_view /\
    find_title row = Some (title_elem, title) /\
    d = citer_data title_elem title row /\
    dom d = record_keys /\
    d !! "citer_title" = Some (PStr title) /\ title <> [] /\
    d !! "citer_link" = Some link /\ optional_str link /\
    d !! "citer_authors" = Some authors /\ optional_str authors /\
    d !! "citer_publication" = Some publication /\ optional_str publication /\
    d !! "citer_year" = Some year /\ optional_str year /\
    (info_text row = None -> authors = PNone /\ publication = PNone /\ year = PNone) /\
    (authors = PNone -> publication = PNone /\ year = PNone).
Proof.
  intros Hrun Hd.
  destruct (returned_record _ _ _ _ _ Hrun Hd) as (row & te & t & Hrow & Hf & Ht & ->).
  destruct (citer_data_lookup te t row) as (Hdom & Htitle & Hlink & Ha & Hp & Hy).
  destruct (get_info row) as [[a p] y] eqn:Hinfo.
  apply get_info_optional in Hinfo as (? & ? & ? & ? & ?).
  exists row, te, t, (get_link te), a, p, y.
  split_and!; try done. apply get_link_optional.
Qed.

Lemma citer_record_fields_witness :
  exists row title_elem title link authors publication year,
    row ∈ pages two_pages ≫= rows_of_view /\
    find_title row = Some (title_elem, title) /\
    record_c = citer_data title_elem title row /\
    dom record_c = record_keys /\
    record_c !! "citer_title" = Some (PStr title) /\ title <> [] /\
    record_c !! "citer_link" = Some link /\ optional_str link /\
    record_c !! "citer_authors" = Some authors /\ optional_str authors /\
    record_c !! "citer_publication" = Some publication /\ optional_str publication /\
    record_c !! "citer_year" = Some year /\ optional_str year /\
    (info_text row = None -> authors = PNone /\ publication = PNone /\ year = PNone) /\
    (authors = PNone -> publication = PNone /\ year = PNone).
Proof.
  apply (citer_record_fields paper_url two_pages [record_a; record_b; record_c]
           two_pages_trace record_c).
  - vm_compute. reflexivity.
  - apply list_elem_of_further, list_elem_of_further, list_elem_of_here.
Defined.

Lemma log_pace st :
  (if bool_decide (1 < page_num st) then log [EvSleepUniform 2000 4000] st else st)
  = log (pace st) st.
Proof.
  unfold pace. destruct st as [c s p r t g]. simpl.
  destruct (bool_decide (1 < p)); unfold log; simpl; by rewrite ?app_nil_r.
Qed.

Lemma failed_attempt v views st :
  fails v ->
  page_loop (v :: views) st =
  let st1 := State (citers st) (seen_titles st) (page_num st) (retry_count st + 1)
                   (trace st ++ attempt_events st v) (scraped st) in
  if bool_decide (max_retries <= retry_count st + 1) then Some (StopMaxRetries, st1)
  else page_loop views (log backoff st1).
Proof.
  unfold fails. intros Hf. cbn [page_loop]. rewrite log_pace.
  destruct (find_rows v) as [found evs] eqn:Hfr. unfold attempt_events. rewrite Hfr.
  destruct found as [rows|e]; [done|]. simpl. by rewrite <- !app_assoc.
Qed.

Lemma failed_snoc fs v st :
  log backoff
    (State (citers (failed fs st)) (seen_titles (failed fs st)) (page_num (failed fs st))
           (retry_count (failed fs st) + 1)
           (trace (failed fs st) ++ attempt_events (failed fs st) v)
           (scraped (failed fs st)))
  = failed (fs ++ [v]) st.
Proof.
  unfold failed, log, attempt_events, pace. simpl.
  rewrite length_app, bind_app. simpl. rewrite app_nil_r, <- !app_assoc.
  by rewrite Nat.add_assoc.
Qed.

Lemma failed_attempts fs views st :
  Forall fails fs -> retry_count st + length fs < max_retries ->
  page_loop (fs ++ views) st = page_loop views (failed fs st).
Proof.
  revert views. induction fs as [|v fs IH] using rev_ind; intros views Hf Hlen.
  - unfold failed. simpl. destruct st. simpl. by rewrite Nat.add_0_r, app_nil_r.
  - apply Forall_app in Hf as [Hfs Hv%Forall_inv].
    rewrite length_app in Hlen. simpl in Hlen.
    rewrite <- app_assoc. rewrite IH by (done || lia). cbn [app].
    rewrite (failed_attempt v views _ Hv). cbv zeta.
    rewrite bool_decide_eq_false_2 by (unfold failed; simpl; lia).
    by rewrite failed_snoc.
Qed.

Lemma find_rows_events v : Forall (fun e => exists cls, e = EvFindRows cls) (find_rows v).2.
Proof.
  unfold find_rows. destruct (rows_gs_ri v) as [[|? ?]|?]; simpl; repeat constructor; eauto.
Qed.

Lemma attempt_no_navigation st v :
  Forall (fun e => is_navigation e = false) (attempt_events st v).
Proof.
  unfold attempt_events, pace. apply Forall_app. split.
  - case_bool_decide; repeat constructor.
  - eapply Forall_impl; [apply find_rows_events|]. by intros e [cls ->].
Qed.

(** Claim C7, as the code has it. Starting from a zero counter, up to two
    failed attempts at listing the rows of a page are each followed by the
    fixed backoff and another attempt on the same page number with the same
    records; a third failure in a row stops the loop with 3 on the counter.
    No event of these attempts loads or changes the page. A successful page
    turn puts the counter back to 0. *)
Theorem retry_same_page (fs : list PageView) (v : PageView) (views : list PageView) (st : state) :
  retry_count st = 0 -> Forall fails fs -> length fs <= 2 ->
  page_loop (fs ++ views) st = page_loop views (failed fs st) /\
  (length fs = 2 -> fails v ->
   page_loop (fs ++ v :: views) st =
   Some (StopMaxRetries,
         State (citers st) (seen_titles st) (page_num st) 3
               (trace (failed fs st) ++ attempt_events st v) (scraped st))) /\
  Forall (fun e => is_navigation e = false)
         ((fs ≫= fun f => attempt_events st f ++ backoff) ++ attempt_events st v) /\
  (forall rows, (find_rows v).1 = Ok rows -> rows <> [] -> (next_page v).1 = inl tt ->
   exists st1, page_loop (v :: views) (failed fs st) = page_loop views st1 /\
               retry_count st1 = 0 /\ page_num st1 = page_num st + 1).
Proof.
  intros Hr Hfs Hlen. split_and!.
  - apply failed_attempts; [done|]. unfold max_retries. lia.
  - intros Hl Hv. rewrite failed_attempts by (done || unfold max_retries; lia).
    rewrite (failed_attempt v views _ Hv). cbv zeta.
    rewrite bool_decide_eq_true_2 by (unfold failed, max_retries; simpl; lia).
    unfold failed. simpl. rewrite Hr, Hl. done.
  - apply Forall_app. split; [|apply attempt_no_navigation].
    apply Forall_forall. intros e He. apply list_elem_of_bind in He as (f & He & _).
    apply elem_of_app in He as [He | He].
    + by eapply Forall_forall in He; [|apply attempt_no_navigation].
    + by apply list_elem_of_singleton in He as ->.
  - intros rows Hrows Hne Hnext. cbn [page_loop]. rewrite log_pace.
    destruct (find_rows v) as [found evs]. simpl in Hrows. subst found.
    destruct rows as [|row rows]; [done|].
    destruct (next_page v) as [next evs']. simpl in Hnext. subst next.
    eexists. split; [reflexivity|]. cbn [retry_count page_num log].
    split; [done|]. by rewrite (scrape_rows_page_num (row :: rows)).
Qed.

Lemma retry_same_page_witness :
  page_loop ([broken_page; broken_page] ++ broken_page :: []) (initial []) =
  Some (StopMaxRetries,
        State [] ∅ 1 3
              [EvFindRows "gs_ri"; EvSleep 2000; EvFindRows "gs_ri"; EvSleep 2000;
               EvFindRows "gs_ri"] []).
Proof.
  apply (retry_same_page [broken_page; broken_page] broken_page [] (initial []));
    [reflexivity | repeat constructor | simpl; lia | reflexivity | reflexivity].
Defined.

(** The first page fails three times: two backoffs, then the ordinary
    return of an empty list, as for a paper that nobody cites. *)
Lemma retries_exhausted_returns_normally :
  (exists st, page_loop (pages first_page_broken) (initial opening) = Some (StopMaxRetries, st)) /\
  scrape_paper_citers paper_url first_page_broken =
  Some (Returned [],
        opening ++
        [EvFindRows "gs_ri"; EvSleep 2000; EvFindRows "gs_ri"; EvSleep 2000; EvFindRows "gs_ri"] ++
        finally_events).
Proof. split; [eexists|]; by vm_compute. Qed.

Lemma next_page_events v : forallb loop_event (next_page v).2 = true.
Proof.
  unfold next_page. destruct (find_next_button v) as [b|]; [|done].
  destruct (nb_disabled b), (nb_class b); try done.
  destruct (_ || _); [done|].
  destruct (nb_scroll b); [|done]. destruct (nb_click b); [done|].
  by destruct (nb_js_click b).
Qed.

Lemma find_rows_loop_events v : forallb loop_event (find_rows v).2 = true.
Proof. unfold find_rows. by destruct (rows_gs_ri v) as [[|? ?]|?]. Qed.

Lemma page_loop_trace views st r st' :
  page_loop views st = Some (r, st') ->
  exists evs, trace st' = trace st ++ evs /\ forallb loop_event evs = true.
Proof.
  revert st; induction views as [|v views IH]; intros st; [done|].
  cbn [page_loop]. rewrite log_pace.
  assert (forallb loop_event (pace st) = true) as Hpace
    by (unfold pace; by case_bool_decide).
  pose proof (find_rows_loop_events v) as Hfind.
  pose proof (next_page_events v) as Hnext.
  destruct (find_rows v) as [found evs]. simpl in Hfind.
  destruct found as [[|row rows]|e].
  - intros [= <- <-]. exists (pace st ++ evs). cbn [trace log]. rewrite <- ?app_assoc. split; [done|].
    by rewrite forallb_app, Hpace, Hfind.
  - pose proof (scrape_rows_trace (row :: rows) (log evs (log (pace st) st))) as Htr.
    cbn [trace log] in Htr.
    set (st1 := scrape_rows (row :: rows) _) in *. clearbody st1.
    destruct (next_page v) as [[[]|r'] evs']; simpl in Hnext.
    + intros Hloop. apply IH in Hloop as (evs2 & -> & H2). cbn [trace log]. rewrite Htr.
      exists (pace st ++ evs ++ evs' ++ evs2). rewrite <- ?app_assoc. split; [done|].
      by rewrite !forallb_app, Hpace, Hfind, Hnext, H2.
    + intros [= <- <-]. cbn [trace log]. rewrite Htr.
      exists (pace st ++ evs ++ evs'). rewrite <- ?app_assoc. split; [done|].
      by rewrite !forallb_app, Hpace, Hfind, Hnext.
  - cbn [retry_count log]. case_bool_decide.
    + intros [= <- <-]. exists (pace st ++ evs). cbn [trace log]. rewrite <- ?app_assoc. split; [done|].
    by rewrite forallb_app, Hpace, Hfind.
    + intros Hloop. apply IH in Hloop as (evs2 & -> & H2). cbn [trace log].
      exists (pace st ++ evs ++ [EvSleep 2000] ++ evs2). rewrite <- ?app_assoc. split; [done|].
      by rewrite !forallb_app, Hpace, Hfind, H2.
Qed.

(** The page loop ends within the views it is given as soon as one of them
    halts it, so a result is returned. *)
Lemma page_loop_halts views st :
  existsb halts views = true -> is_Some (page_loop views st).
Proof.
  revert st; induction views as [|v views IH]; intros st Hh; [done|].
  cbn [existsb] in Hh. unfold halts in Hh. cbn [page_loop]. rewrite log_pace.
  destruct (find_rows v) as [found evs]. cbn [fst] in Hh.
  destruct found as [[|row rows]|e]; [by eexists | |].
  - destruct (next_page v) as [[[]|r'] evs']; cbn [fst] in Hh; [by apply IH | by eexists].
  - cbn [retry_count log]. case_bool_decide; [by eexists | by apply IH].
Qed.

Lemma scrape_paper_citers_returns paper_url env :
  existsb halts (pages env) = true -> is_Some (scrape_paper_citers paper_url env).
Proof.
  intros Hh. unfold scrape_paper_citers. destruct (start_browser env); [|by eexists].
  destruct (prelude paper_url env) as [[| |e] tr0]; [|by eexists|by eexists].
  destruct (page_loop_halts (pages env) (initial tr0) Hh) as [[r st] ->]. by eexists.
Qed.

Lemma no_read_not_in evs : no_read evs = true -> EvPageSource ∉ evs.
Proof.
  unfold no_read. rewrite forallb_forall. intros H Hin.
  apply list_elem_of_In, H in Hin. done.
Qed.

Lemma no_read_app evs1 evs2 : no_read (evs1 ++ evs2) = no_read evs1 && no_read evs2.
Proof. apply forallb_app. Qed.

Lemma loop_events_no_read evs : forallb loop_event evs = true -> no_read evs = true.
Proof.
  unfold no_read. rewrite !forallb_forall. intros H e He. apply H in He. by destruct e.
Qed.

Lemma find_results_events env :
  exists evs, (find_results env).2 = EvFindRows "gs_ri" :: evs /\ no_read evs = true.
Proof.
  unfold find_results, found_after_wait.
  destruct (nonempty (results_gs_ri env)); [by exists []|].
  destruct (nonempty (results_gs_r env)); [by eexists|].
  destruct (print_cross env); [|by eexists].
  destruct (page_info env); [|by eexists].
  destruct (input_retry env); [|by eexists].
  destruct (print_check env);
    (destruct (results_gs_ri_again env) as [[|? ?]|?];
       [destruct (results_gs_r_again env) as [[|? ?]|?] | |]; by eexists).
Qed.

Lemma check_for_block_events env src :
  gate src <> Clear ->
  exists notice,
    match print_warning env, input_gate env with
    | Ok _, Ok _ => check_for_block env src = (Ok tt, [EvPrint notice; EvInput; EvSleep 2000])
    | Ok _, Raise e => check_for_block env src = (Raise e, [EvPrint notice; EvInput])
    | Raise e, _ => check_for_block env src = (Raise e, [EvPrint notice])
    end.
Proof.
  unfold check_for_block.
  destruct (gate src); [done | |];
    eexists; (destruct (print_warning env); [destruct (input_gate env)|]); reflexivity.
Qed.

Lemma prelude_gate paper_url env src :
  page_source env = Ok src -> gate src <> Clear ->
  no_read (prelude paper_url env).2 = true \/
  exists before notice after,
    (prelude paper_url env).2 = before ++ [EvPageSource; EvPrint notice] ++ after /\
    no_read before = true /\ no_read after = true /\
    match print_warning env, input_gate env with
    | Ok _, Ok _ => exists rest, after = [EvInput; EvSleep 2000; EvFindRows "gs_ri"] ++ rest
    | Ok _, Raise e => after = [EvInput] /\ (prelude paper_url env).1 = Caught e
    | Raise e, _ => after = [] /\ (prelude paper_url env).1 = Caught e
    end.
Proof.
  intros Hsrc Hgate. unfold prelude.
  destruct (get_paper env); [|by left].
  destruct (locate_cited_by env) as [cited_by_url|]; [|by left].
  destruct (negb (truthy cited_by_url)); [by left|].
  destruct (get_citations env); [|by left].
  rewrite Hsrc. right.
  exists [EvGet paper_url; EvSleepUniform 3000 5000; EvSleepUniform 2000 4000;
          EvGet (default [] cited_by_url); EvSleepUniform 4000 6000].
  destruct (check_for_block_events env src Hgate) as [notice Hblock]. exists notice.
  destruct (print_warning env) as [[]|e]; [destruct (input_gate env) as [[]|e]|];
    rewrite Hblock.
  - destruct (find_results env) as [b evs] eqn:Hfind.
    destruct (find_results_events env) as (rest & Hevs & Hrest). rewrite Hfind in Hevs.
    cbn [snd] in Hevs. subst evs. eexists. split_and!; [reflexivity | done | | by eexists].
    done.
  - exists [EvInput]. by split_and!.
  - exists []. by split_and!.
Qed.

(** Claim C9, as the code has it. When the page source carries a block
    marker, the crawl prints a notice and blocks on [input()]. When
    [input()] returns, it sleeps two seconds and goes straight on to
    listing the result rows. When the notice cannot be printed or
    [input()] raises, as it does without a console, the crawl lists no row
    and returns the empty list. In each case the page source is read once
    in the whole run: the markers are not looked for again. *)
Theorem gate_suspends_once paper_url env src o tr :
  page_source env = Ok src -> gate src <> Clear ->
  scrape_paper_citers paper_url env = Some (o, tr) -> EvPageSource ∈ tr ->
  exists before notice after,
    tr = before ++ [EvPageSource; EvPrint notice] ++ after /\
    (EvPageSource ∉ before) /\ (EvPageSource ∉ after) /\
    match print_warning env, input_gate env with
    | Ok _, Ok _ => exists rest, after = [EvInput; EvSleep 2000; EvFindRows "gs_ri"] ++ rest
    | Ok _, Raise _ => after = [EvInput] ++ finally_events /\ o = Returned []
    | Raise _, _ => after = finally_events /\ o = Returned []
    end.
Proof.
  intros Hsrc Hgate. unfold scrape_paper_citers.
  destruct (start_browser env); [|intros [= <- <-] Hin; by apply elem_of_nil in Hin].
  pose proof (prelude_gate paper_url env src Hsrc Hgate) as Hpre.
  destruct (prelude paper_url env) as [b tr0]. cbn [fst snd] in Hpre.
  intros Hrun Hin.
  assert (exists rest, tr = tr0 ++ rest /\ no_read rest = true /\
                       match b with
                       | EnterLoop => True
                       | _ => rest = finally_events /\ o = Returned []
                       end) as (rest & -> & Hrest & Hb).
  { destruct b.
    - destruct (page_loop (pages env) (initial tr0)) as [[r st]|] eqn:Hloop; [|done].
      apply page_loop_trace in Hloop as (evs & Htr & Hevs). cbn [trace initial] in Htr.
      injection Hrun as <- <-. exists (evs ++ finally_events).
      rewrite Htr, <- app_assoc. split_and!; [done | | done].
      by rewrite no_read_app, (loop_events_no_read _ Hevs).
    - injection Hrun as <- <-. by exists finally_events.
    - injection Hrun as <- <-. by exists finally_events. }
  destruct Hpre as [Hno | (before & notice & after & -> & Hbefore & Hafter & Hcase)].
  { exfalso. revert Hin. apply no_read_not_in. by rewrite no_read_app, Hno, Hrest. }
  exists before, notice, (after ++ rest). rewrite <- !app_assoc. split_and!; [done | | |].
  - by apply no_read_not_in.
  - apply no_read_not_in. by rewrite no_read_app, Hafter, Hrest.
  - destruct (print_warning env) as [[]|e]; [destruct (input_gate env) as [[]|e]|].
    + destruct Hcase as [rest' ->]. exists (rest' ++ rest). by rewrite <- !app_assoc.
    + destruct Hcase as [-> ->]. by destruct Hb as [-> ->].
    + destruct Hcase as [-> ->]. by destruct Hb as [-> ->].
Qed.

Lemma gate_suspends_once_witness :
  exists before notice after,
    [EvGet paper_url; EvSleepUniform 3000 5000; EvSleepUniform 2000 4000;
     EvGet cited_by_url; EvSleepUniform 4000 6000;
     EvPageSource; EvPrint "CAPTCHA DETECTED!"; EvInput; EvSleep 2000;
     EvFindRows "gs_ri"; EvFindRows "gs_ri"; EvSleep 5000; EvQuit]
    = before ++ [EvPageSource; EvPrint notice] ++ after /\
    (EvPageSource ∉ before) /\ (EvPageSource ∉ after) /\
    exists rest, after = [EvInput; EvSleep 2000; EvFindRows "gs_ri"] ++ rest.
Proof.
  apply (gate_suspends_once paper_url marker_in_title
           (py "<html><h3 class=gs_rt>breaking captcha</h3></html>") (Returned [record_c])).
  - reflexivity.
  - vm_compute. discriminate.
  - vm_compute. reflexivity.
  - do 5 apply list_elem_of_further. apply list_elem_of_here.
Defined.

(** The marker is in the page before and after ENTER; the page source is
    read once and the row is extracted. *)
Lemma gate_not_rechecked :
  gate (py "<html><h3 class=gs_rt>breaking captcha</h3></html>") = HardBlock /\
  scrape_paper_citers paper_url marker_in_title =
  Some (Returned [record_c],
        [EvGet paper_url; EvSleepUniform 3000 5000; EvSleepUniform 2000 4000;
         EvGet cited_by_url; EvSleepUniform 4000 6000;
         EvPageSource; EvPrint "CAPTCHA DETECTED!"; EvInput; EvSleep 2000;
         EvFindRows "gs_ri"; EvFindRows "gs_ri"; EvSleep 5000; EvQuit]).
Proof. split; by vm_compute. Qed.

(** The same page when the program runs without a console: [input()]
    raises, no row is listed and the list is empty. *)
Lemma gate_without_console :
  scrape_paper_citers paper_url (without_console marker_in_title) =
  Some (Returned [],
        [EvGet paper_url; EvSleepUniform 3000 5000; EvSleepUniform 2000 4000;
         EvGet cited_by_url; EvSleepUniform 4000 6000;
         EvPageSource; EvPrint "CAPTCHA DETECTED!"; EvInput; EvSleep 5000; EvQuit]).
Proof. by vm_compute. Qed.

Lemma scrape_row_prefix st row : citers st `prefix_of` citers (scrape_row st row).
Proof.
  unfold scrape_row. destruct (find_title row) as [[te t]|]; [|done].
  simpl. destruct (_ || _); [done|]. simpl. by apply prefix_app_r.
Qed.

Lemma scrape_rows_prefix rows st : citers st `prefix_of` citers (scrape_rows rows st).
Proof.
  unfold scrape_rows. revert st; induction rows as [|row rows IH]; intros st; [done|].
  simpl. etrans; [apply scrape_row_prefix | apply IH].
Qed.

(** Records already gathered stay where they are while the loop runs. *)
Lemma page_loop_prefix views st r st' :
  page_loop views st = Some (r, st') -> citers st `prefix_of` citers st'.
Proof.
  revert st; induction views as [|v views IH]; intros st; [done|].
  cbn [page_loop]. rewrite log_pace. destruct (find_rows v) as [found evs].
  destruct found as [[|row rows]|e].
  - by intros [= <- <-].
  - pose proof (scrape_rows_prefix (row :: rows) (log evs (log (pace st) st))) as Hpre.
    cbn [citers log] in Hpre.
    set (st1 := scrape_rows (row :: rows) _) in *. clearbody st1.
    destruct (next_page v) as [[[]|r'] evs'].
    + intros Hloop. apply IH in Hloop. by etrans.
    + by intros [= <- <-].
  - cbn [retry_count log]. case_bool_decide; [by intros [= <- <-]|].
    intros Hloop. by apply IH in Hloop.
Qed.

(** Claim C6, as the code has it. When the page loop stops, whatever the
    reason (the retry limit and a failed page turn included), the function
    returns the records gathered so far as its ordinary result; every
    record gathered at an earlier point of the loop is still in it. *)
Theorem failed_crawl_returns_gathered paper_url env tr0 r st :
  start_browser env = Ok tt ->
  prelude paper_url env = (EnterLoop, tr0) ->
  page_loop (pages env) (initial tr0) = Some (r, st) ->
  scrape_paper_citers paper_url env =
    Some (Returned (citers st), trace st ++ finally_events) /\
  forall views1 views2 st1,
    pages env = views1 ++ views2 ->
    page_loop (views1 ++ views2) (initial tr0) = page_loop views2 st1 ->
    citers st1 `prefix_of` citers st.
Proof.
  intros Hs Hp Hl. split.
  - unfold scrape_paper_citers. by rewrite Hs, Hp, Hl.
  - intros views1 views2 st1 Hpages Hsplit. rewrite Hpages, Hsplit in Hl.
    by apply page_loop_prefix in Hl.
Qed.

Lemma failed_crawl_returns_gathered_witness :
  scrape_paper_citers paper_url second_page_broken =
  Some (Returned [record_a; record_b],
        opening ++ [EvFindRows "gs_ri"] ++ turn_page ++
        [EvSleepUniform 2000 4000; EvFindRows "gs_ri"; EvSleep 2000;
         EvSleepUniform 2000 4000; EvFindRows "gs_ri"; EvSleep 2000;
         EvSleepUniform 2000 4000; EvFindRows "gs_ri"] ++ finally_events).
Proof.
  apply (failed_crawl_returns_gathered paper_url second_page_broken opening StopMaxRetries
           (State [record_a; record_b] {[py "Deep nets"; py "Shallow nets"]} 2 3
                  (opening ++ [EvFindRows "gs_ri"] ++ turn_page ++
                   [EvSleepUniform 2000 4000; EvFindRows "gs_ri"; EvSleep 2000;
                    EvSleepUniform 2000 4000; EvFindRows "gs_ri"; EvSleep 2000;
                    EvSleepUniform 2000 4000; EvFindRows "gs_ri"])
                  [row_a; row_b]));
    vm_compute; reflexivity.
Defined.

(** The second page fails three times: the records of the first page are
    returned, the value that a clean crawl of that page alone returns. *)
Lemma gathered_prefix_is_returned :
  (exists st, page_loop (pages second_page_broken) (initial opening) = Some (StopMaxRetries, st)) /\
  fst <$> scrape_paper_citers paper_url second_page_broken = Some (Returned [record_a; record_b]) /\
  fst <$> scrape_paper_citers paper_url one_page = Some (Returned [record_a; record_b]).
Proof. split_and!; [eexists|..]; by vm_compute. Qed.

(** Claim C5. In every record that the crawl returns, for the row it
    comes from: when the gray line of the row can be read, the line is cut
    at the occurrences of [" - "], taken from the left; the first segment
    is the authors, the second the publication ([None] when there is
    none), and the year is the leftmost year that stands between word
    boundaries in the third segment, [None] when there is no third segment
    or no such year in it. The two lines of the specification give the
    stated fields. *)
Theorem info_line_segments paper_url env result tr d :
  scrape_paper_citers paper_url env = Some (Returned result, tr) -> d ∈ result ->
  exists row title_elem title,
    row ∈ pages env ≫= rows_of_view /\
    find_title row = Some (title_elem, title) /\
    d = citer_data title_elem title row /\
    (forall text, info_text row = Some text ->
       exists parts year,
         cut_at (py " - ") text parts /\
         d !! "citer_authors" = Some (of_option (parts !! 0)) /\
         d !! "citer_publication" = Some (of_option (parts !! 1)) /\
         d !! "citer_year" = Some (of_option year) /\
         year_of (parts !! 2) year) /\
    (info_text row = Some (py "A. Author - Venue, 2019") ->
       d !! "citer_authors" = Some (PStr (py "A. Author")) /\
       d !! "citer_publication" = Some (PStr (py "Venue, 2019")) /\
       d !! "citer_year" = Some PNone) /\
    (info_text row = Some (py "A. Author - Venue - 2019") ->
       d !! "citer_authors" = Some (PStr (py "A. Author")) /\
       d !! "citer_publication" = Some (PStr (py "Venue")) /\
       d !! "citer_year" = Some (PStr (py "2019"))).
Proof.
  intros Hrun Hd.
  destruct (returned_record _ _ _ _ _ Hrun Hd) as (row & te & title & Hrow & Hf & _ & ->).
  exists row, te, title. split_and!; [done..| | |].
  all: destruct (citer_data_lookup te title row) as (_ & _ & _ & Ha & Hp & Hy).
  all: unfold info_text, get_info in *; destruct (gs_a row) as [[line|]|]; try done.
  - intros text [= ->]. destruct (info_fields_cut text) as (parts & year & Hcut & Hyear & Hinfo).
    rewrite Hinfo in Ha, Hp, Hy. by exists parts, year.
  - intros [= ->]. by rewrite Ha, Hp, Hy.
  - intros [= ->]. by rewrite Ha, Hp, Hy.
Qed.

Lemma info_line_segments_witness :
  exists row title_elem title,
    row ∈ pages two_pages ≫= rows_of_view /\
    find_title row = Some (title_elem, title) /\
    record_a = citer_data title_elem title row /\
    (forall text, info_text row = Some text ->
       exists parts year,
         cut_at (py " - ") text parts /\
         record_a !! "citer_authors" = Some (of_option (parts !! 0)) /\
         record_a !! "citer_publication" = Some (of_option (parts !! 1)) /\
         record_a !! "citer_year" = Some (of_option year) /\
         year_of (parts !! 2) year) /\
    (info_text row = Some (py "A. Author - Venue, 2019") ->
       record_a !! "citer_authors" = Some (PStr (py "A. Author")) /\
       record_a !! "citer_publication" = Some (PStr (py "Venue, 2019")) /\
       record_a !! "citer_year" = Some PNone) /\
    (info_text row = Some (py "A. Author - Venue - 2019") ->
       record_a !! "citer_authors" = Some (PStr (py "A. Author")) /\
       record_a !! "citer_publication" = Some (PStr (py "Venue")) /\
       record_a !! "citer_year" = Some (PStr (py "2019"))).
Proof.
  apply (info_line_segments paper_url two_pages [record_a; record_b; record_c]
           two_pages_trace record_a).
  - vm_compute. reflexivity.
  - apply list_elem_of_here.
Defined.

End CitationFacts.

(* ===================================================================== *)
(** * Facts about [scrape_google_scholar_profile]                         *)
(* ===================================================================== *)

Module ProfileFacts.
Import Py Dom Profile ProfileSpec ProfileSamples PyFacts.

Lemma paper_data_idx idx row :
  match paper_data idx row with
  | Ok d => succeeds row = true /\ d !! "paper_id" = Some (PInt (Z.of_nat idx))
  | Raise _ => succeeds row = false
  end.
Proof.
  unfold succeeds, paper_data, mbind, res_bind.
  destruct (title_and_link row) as [[t l]|]; [|done]. fields row.
  split; [done|]. by simplify_map_eq.
Qed.

Lemma extract_rows_acc idx rows acc :
  extract_rows idx rows acc = acc ++ extract_rows idx rows [].
Proof.
  revert idx acc; induction rows as [|row rows IH]; intros idx acc; simpl.
  - by rewrite app_nil_r.
  - destruct (paper_data idx row); [|apply IH].
    rewrite (IH _ (acc ++ [a])), (IH _ ([] ++ [a])). by rewrite <- app_assoc.
Qed.

Lemma extract_rows_ids idx rows :
  paper_id <$> extract_rows idx rows [] = (Number ∘ Z.of_nat) <$> ok_positions idx rows.
Proof.
  revert idx; induction rows as [|row rows IH]; intros idx; [done|]. simpl.
  pose proof (paper_data_idx idx row) as H.
  destruct (paper_data idx row) as [d|e].
  - destruct H as [-> Hid]. rewrite extract_rows_acc. simpl. rewrite IH.
    unfold paper_id at 1. by rewrite Hid.
  - rewrite H. apply IH.
Qed.

Lemma extract_rows_has_id idx rows d :
  d ∈ extract_rows idx rows [] -> is_Some (d !! "paper_id").
Proof.
  revert idx; induction rows as [|row rows IH]; intros idx; simpl; [by rewrite elem_of_nil|].
  pose proof (paper_data_idx idx row) as H.
  destruct (paper_data idx row) as [d'|e]; [|apply IH].
  rewrite extract_rows_acc. simpl. rewrite elem_of_cons. intros [-> | Hd]; [|by eapply IH].
  destruct H as [_ ->]. eauto.
Qed.

Lemma index_of_lookup col cols :
  col ∈ cols -> exists i, index_of col cols = Some i /\ cols !! i = Some col.
Proof.
  induction cols as [|c cols IH]; [by intros ?%elem_of_nil|].
  intros Hin. cbn [index_of]. case_bool_decide as Hc; [subst c; by exists 0|].
  apply elem_of_cons in Hin as [-> | Hin]; [done|].
  destruct (IH Hin) as (i & -> & Hi). by exists (S i).
Qed.

Lemma column_paper_id (all_papers : list dict) :
  (forall d, d ∈ all_papers -> is_Some (d !! "paper_id")) ->
  column (to_frame all_papers) "paper_id" = paper_id <$> all_papers.
Proof.
  intros Hid. destruct all_papers as [|d l]; [done|].
  assert ("paper_id" ∈ columns (DataFrame_of (d :: l))) as Hcol.
  { apply list_elem_of_In, filter_In. split; [cbn; tauto|].
    cbn [has_column existsb]. rewrite bool_decide_eq_true_2; [done|]. apply Hid. by left. }
  unfold to_frame. set (df := DataFrame_of (d :: l)) in *.
  assert (values df = (fun d => (fun col => cell_of (d !! col)) <$> columns df) <$> (d :: l))
    as Hvals by done.
  clearbody df.
  assert (empty df = false) as ->.
  { unfold empty. rewrite Hvals. destruct (columns df); [by apply elem_of_nil in Hcol | done]. }
  unfold column_order.
  generalize ["title"; "authors"; "publication"; "year"; "citations"; "link"]. intros others.
  unfold column, select. cbn [negb List.filter columns values].
  rewrite bool_decide_eq_true_2 by done. cbn [index_of].
  rewrite bool_decide_eq_true_2 by done.
  destruct (index_of_lookup _ _ Hcol) as (i & Hi & Hlook).
  rewrite Hvals, <- !list_fmap_compose. apply list_fmap_ext. intros k d' _.
  unfold compose. cbn [map lookup list_lookup]. rewrite Hi. cbn [mbind option_bind].
  by rewrite list_lookup_fmap, Hlook.
Qed.

Lemma ok_positions_spec idx rows k :
  k ∈ ok_positions idx rows <->
  exists row, idx <= k /\ rows !! (k - idx) = Some row /\ succeeds row = true.
Proof.
  revert idx; induction rows as [|row rows IH]; intros idx; simpl.
  - rewrite elem_of_nil. split; [done | by intros (? & _ & ? & _)].
  - assert (k ∈ ok_positions (S idx) rows <->
            exists r, idx < k /\ (row :: rows) !! (k - idx) = Some r /\ succeeds r = true) as Hrest.
    { rewrite IH. split; intros (r & Hk & Hl & Hs); exists r; (split; [lia|]); split; try done.
      - by replace (k - idx) with (S (k - S idx)) by lia.
      - by replace (k - idx) with (S (k - S idx)) in Hl by lia. }
    destruct (succeeds row) eqn:Hrow.
    + rewrite elem_of_cons, Hrest. split.
      * intros [-> | (r & ? & ? & ?)].
        -- exists row. rewrite Nat.sub_diag. by split_and!.
        -- exists r. split_and!; [lia | done | done].
      * intros (r & Hk & Hl & Hs). destruct (decide (k = idx)) as [->|]; [by left|].
        right. exists r. split_and!; [lia | done | done].
    + rewrite Hrest. split; intros (r & Hk & Hl & Hs); exists r.
      * split_and!; [lia | done | done].
      * split_and!; [|done|done]. destruct (decide (k = idx)) as [->|]; [|lia].
        rewrite Nat.sub_diag in Hl. simpl in Hl. congruence.
Qed.

Lemma ok_positions_sorted idx rows : StronglySorted lt (ok_positions idx rows).
Proof.
  revert idx; induction rows as [|row rows IH]; intros idx; simpl; [constructor|].
  destruct (succeeds row); [|apply IH]. constructor; [apply IH|].
  apply Forall_forall. intros k Hk. apply ok_positions_spec in Hk as (? & ? & _). lia.
Qed.

Lemma ok_positions_all idx rows :
  forallb succeeds rows = true -> ok_positions idx rows = seq idx (length rows).
Proof.
  revert idx; induction rows as [|row rows IH]; intros idx; simpl; [done|].
  intros [-> H]%andb_true_iff. by rewrite IH.
Qed.

(** The expansion loop ends within the answers it is given as soon as one
    of them stops it, so the crawl returns or raises. *)
Lemma expand_all_halts answers :
  existsb stops answers = true -> is_Some (expand_all answers).
Proof.
  induction answers as [|answer answers IH]; intros Hs; [done|].
  cbn [existsb] in Hs. unfold stops in Hs. cbn [expand_all].
  destruct answer as [b|e]; [|by eexists].
  destruct (sm_disabled b) as [d|e]; [|by eexists].
  destruct (truthy d); [by eexists|].
  destruct (sm_scroll b); [|by eexists]. destruct (sm_click b); [|by eexists].
  simpl in Hs. destruct (IH Hs) as [evs ->]. by eexists.
Qed.

Lemma scrape_google_scholar_profile_returns profile_url env :
  existsb stops (show_more env) = true ->
  is_Some (scrape_google_scholar_profile profile_url env).
Proof.
  intros Hs. unfold scrape_google_scholar_profile.
  destruct (start_browser env); [|by eexists]. destruct (get_profile env); [|by eexists].
  destruct (expand_all_halts _ Hs) as [evs ->]. simpl.
  destruct (extract env). by eexists.
Qed.

Lemma returned_frame profile_url env df tr rows :
  scrape_google_scholar_profile profile_url env = Some (Returned df, tr) ->
  table_wait env = Ok tt -> paper_rows env = Ok rows ->
  df = to_frame (extract_rows 1 rows []).
Proof.
  unfold scrape_google_scholar_profile, extract, finally. intros Hrun Hw Hrows.
  rewrite Hw, Hrows in Hrun.
  destruct (start_browser env); [|done]. destruct (get_profile env).
  - destruct (expand_all (show_more env)); [|done]. simpl in Hrun.
    destruct (quit env); congruence.
  - destruct (quit env); simpl in Hrun; congruence.
Qed.

(** Claim C2, as the code has it. The [paper_id] values of the returned
    table are, in strictly increasing order, the 1-based positions of the
    rows whose extraction succeeded: the index comes from [enumerate] and a
    failing row still uses up its position. They are [1..N] when every row
    succeeds. *)
Theorem paper_ids_are_row_positions profile_url env df tr rows :
  scrape_google_scholar_profile profile_url env = Some (Returned df, tr) ->
  table_wait env = Ok tt -> paper_rows env = Ok rows ->
  exists ids : list nat,
    column df "paper_id" = (Number ∘ Z.of_nat) <$> ids /\
    StronglySorted lt ids /\
    (forall k, k ∈ ids <->
               exists row, 1 <= k /\ rows !! (k - 1) = Some row /\ succeeds row = true) /\
    (forallb succeeds rows = true -> ids = seq 1 (length rows)).
Proof.
  intros Hrun Hw Hrows. rewrite (returned_frame _ _ _ _ _ Hrun Hw Hrows).
  exists (ok_positions 1 rows). split_and!.
  - rewrite column_paper_id by apply extract_rows_has_id. apply extract_rows_ids.
  - apply ok_positions_sorted.
  - apply ok_positions_spec.
  - apply ok_positions_all.
Qed.

Lemma paper_ids_are_row_positions_witness :
  exists ids : list nat,
    column (to_frame (extract_rows 1 [good_row "First"; good_row "Second"] [])) "paper_id"
      = (Number ∘ Z.of_nat) <$> ids /\
    StronglySorted lt ids /\
    (forall k, k ∈ ids <->
               exists row, 1 <= k /\
                 [good_row "First"; good_row "Second"] !! (k - 1) = Some row /\
                 succeeds row = true) /\
    (forallb succeeds [good_row "First"; good_row "Second"] = true -> ids = seq 1 2).
Proof.
  apply (paper_ids_are_row_positions profile_url
           (profile (Ok tt) [good_row "First"; good_row "Second"])
           (to_frame (extract_rows 1 [good_row "First"; good_row "Second"] []))
           [EvGet profile_url; EvSleep 3000; EvWait 5000 "gsc_bpf_more";
            EvWait 10000 "gsc_a_b"; EvFindRows "gsc_a_tr"; EvQuit]);
    vm_compute; reflexivity.
Defined.

(** The second of three rows fails: two records, with ids 1 and 3. *)
Lemma failed_row_leaves_gap :
  succeeds (good_row "First") = true /\ succeeds stale_row = false /\
  succeeds (good_row "Third") = true /\
  exists df tr,
    scrape_google_scholar_profile profile_url
      (profile (Ok tt) [good_row "First"; stale_row; good_row "Third"])
      = Some (Returned df, tr) /\
    length (values df) = 2 /\
    column df "paper_id" = [Number 1; Number 3] /\
    column df "paper_id" <> [Number 1; Number 2] /\
    column df "title" = [Text (py "First"); Text (py "Third")].
Proof. split_and!; try by vm_compute. eexists _, _. split_and!; by vm_compute. Qed.

Lemma citations_nonneg row v :
  citations row = Ok v -> exists n, v = PInt n /\ (0 <= n)%Z.
Proof.
  unfold citations, except_only, mbind, res_bind.
  destruct (gsc_a_c row) as [[raw|e]|e].
  - destruct (_ && _).
    + destruct (int (strip raw)) as [n|] eqn:Hn; [|done].
      intros [= <-]. exists n. split; [done|]. by eapply int_nonneg.
    + intros [= <-]. by exists 0%Z.
  - destruct (is_NoSuchElement e); [|done]. intros [= <-]. by exists 0%Z.
  - destruct (is_NoSuchElement e); [|done]. intros [= <-]. by exists 0%Z.
Qed.

(** Claim C4, at the input where the code departs from it. The citation
    text [U+00B2] passes [isdigit], [int] raises [ValueError], the handler of
    line 780 does not catch it, and the row is dropped at line 789 instead
    of getting the count 0. *)
Theorem superscript_citation_count :
  strip [178%N] = [178%N] /\
  isdigit [178%N] = true /\
  int [178%N] = None /\
  citations superscript_row = Raise ValueError /\
  extract_rows 1 [superscript_row] [] = [] /\
  fst <$> scrape_google_scholar_profile profile_url (profile (Ok tt) [superscript_row])
    = Some (Returned empty_frame).
Proof. split_and!; by vm_compute. Qed.

(** Claim C8, as the code has it. When the ten-second wait for the
    publications table times out, the crawl prints the error, releases the
    browser and returns the empty table at once; a profile whose table
    holds no row returns the same value. *)
Theorem table_not_found profile_url env evs :
  start_browser env = Ok tt -> get_profile env = Ok tt ->
  expand_all (show_more env) = Some evs ->
  table_wait env = Raise TimeoutException -> quit env = Ok tt ->
  scrape_google_scholar_profile profile_url env =
    Some (Returned empty_frame,
          [EvGet profile_url; EvSleep 3000] ++ evs ++
          [EvWait 10000 "gsc_a_b"; EvPrint "Error: Could not find publications table";
           EvQuit]) /\
  forall env' evs',
    start_browser env' = Ok tt -> get_profile env' = Ok tt ->
    expand_all (show_more env') = Some evs' ->
    table_wait env' = Ok tt -> paper_rows env' = Ok [] -> quit env' = Ok tt ->
    fst <$> scrape_google_scholar_profile profile_url env' =
    fst <$> scrape_google_scholar_profile profile_url env.
Proof.
  intros Hs Hg He Hw Hq. unfold scrape_google_scholar_profile, extract, finally.
  rewrite Hs, Hg, He, Hw, Hq. split; [done|].
  intros env' evs' Hs' Hg' He' Hw' Hr' Hq'. by rewrite Hs', Hg', He', Hw', Hr', Hq'.
Qed.

Lemma table_not_found_witness :
  scrape_google_scholar_profile profile_url (profile (Raise TimeoutException) []) =
    Some (Returned empty_frame,
          [EvGet profile_url; EvSleep 3000] ++ [EvWait 5000 "gsc_bpf_more"] ++
          [EvWait 10000 "gsc_a_b"; EvPrint "Error: Could not find publications table";
           EvQuit]).
Proof.
  apply (table_not_found profile_url (profile (Raise TimeoutException) [])
           [EvWait 5000 "gsc_bpf_more"]); reflexivity.
Defined.

(** A table that never appears and a table without rows give the same
    result. *)
Lemma missing_table_looks_like_empty_profile :
  fst <$> scrape_google_scholar_profile profile_url (profile (Raise TimeoutException) [])
  = fst <$> scrape_google_scholar_profile profile_url (profile (Ok tt) []).
Proof. by vm_compute. Qed.

(** Claim C3, as the code has it. In the citation crawl the title is taken
    with the primary locator, else with the heading-anchor locator, and a
    row on which both fail leaves the list and the seen-set untouched. The
    profile crawl has one title locator and no skip: when it finds no
    element the row still gives a record, with title and link [None]. *)
Theorem title_locators (row : Citation.CiterRow) (st : Citation.state)
    (prow : PaperRow) (idx : nat) :
  match Citation.locate_with (Citation.gs_rt row), Citation.locate_with (Citation.h3_a row) with
  | Ok found, _ => Citation.find_title row = Some found
  | Raise _, Ok found => Citation.find_title row = Some found
  | Raise _, Raise _ =>
      Citation.find_title row = None /\
      Citation.citers (Citation.scrape_row st row) = Citation.citers st /\
      Citation.seen_titles (Citation.scrape_row st row) = Citation.seen_titles st
  end /\
  match gsc_a_at prow, paper_data idx prow with
  | Raise NoSuchElementException, Ok d =>
      d !! "title" = Some PNone /\ d !! "link" = Some PNone /\
      forall rest all_papers,
        extract_rows idx (prow :: rest) all_papers =
        extract_rows (S idx) rest (all_papers ++ [d])
  | Raise NoSuchElementException, Raise _ => title_and_link prow = Ok (PNone, PNone)
  | _, _ => True
  end.
Proof.
  split.
  - unfold Citation.scrape_row, Citation.find_title.
    destruct (Citation.locate_with (Citation.gs_rt row)); [done|].
    by destruct (Citation.locate_with (Citation.h3_a row)).
  - destruct (gsc_a_at prow) as [|[]] eqn:Ht; try done.
    assert (title_and_link prow = Ok (PNone, PNone)) as Htl
      by (unfold title_and_link; by rewrite Ht).
    destruct (paper_data idx prow) as [d|e] eqn:Hd; [|done].
    assert (d !! "title" = Some PNone /\ d !! "link" = Some PNone) as [Hnone Hlink].
    { revert Hd. unfold paper_data, mbind, res_bind. rewrite Htl. fields prow.
      intros [= <-]. by simplify_map_eq. }
    split_and!; [done | done |].
    intros rest all_papers. cbn [extract_rows]. by rewrite Hd.
Qed.

(** A profile row without the title anchor gives a record all the same,
    with title and link [None]: a line of the table whose title is
    missing. *)
Lemma untitled_profile_row_is_kept :
  gsc_a_at untitled_row = Raise NoSuchElementException /\
  (exists d, extract_rows 1 [untitled_row] [] = [d] /\
             d !! "title" = Some PNone /\ d !! "link" = Some PNone) /\
  exists df tr,
    scrape_google_scholar_profile profile_url (profile (Ok tt) [untitled_row])
      = Some (Returned df, tr) /\
    column df "paper_id" = [Number 1] /\ column df "title" = [Missing].
Proof.
  split_and!; [done | eexists; split_and!; by vm_compute |].
  eexists _, _. split_and!; by vm_compute.
Qed.

End ProfileFacts.

(* ===================================================================== *)
(** * Further facts about the runtime functions                         *)
(* ===================================================================== *)

Module StrFacts.
Import Py Citation PySpec PyFacts.

(** ** [strip] *)

Lemma lstrip_head x c : head (lstrip x) = Some c -> isspace_cp c = false.
Proof.
  induction x as [|a x IH]; [done|]. simpl.
  destruct (isspace_cp a) eqn:Ha; [done|]. by intros [= <-].
Qed.

Lemma lstrip_spaces ws x : forallb isspace_cp ws = true -> lstrip (ws ++ x) = lstrip x.
Proof.
  induction ws as [|a ws IH]; [done|]. simpl. intros [Ha Hws]%andb_true_iff.
  rewrite Ha. auto.
Qed.

Lemma lstrip_app x y :
  lstrip (x ++ y) = if forallb isspace_cp x then lstrip y else lstrip x ++ y.
Proof.
  induction x as [|a x IH]; [done|]. simpl. by destruct (isspace_cp a).
Qed.

Lemma lstrip_id x :
  (forall c, head x = Some c -> isspace_cp c = false) -> lstrip x = x.
Proof. destruct x as [|a x]; [done|]. simpl. intros H. by rewrite (H a eq_refl). Qed.

Lemma lstrip_suffix x : exists ws, x = ws ++ lstrip x /\ forallb isspace_cp ws = true.
Proof.
  induction x as [|a x (ws & Hx & Hws)]; [by exists []|]. simpl.
  destruct (isspace_cp a) eqn:Ha; [|by exists []].
  exists (a :: ws). simpl. rewrite Ha, Hws. by rewrite <- Hx.
Qed.

Lemma head_rev {A} (l : list A) : head (rev l) = last l.
Proof. rewrite rev_alt. apply head_reverse. Qed.

Lemma strip_trimmed x : trimmed (strip x).
Proof.
  unfold strip. destruct (lstrip_suffix (rev (lstrip x))) as (ws & Hrev & Hws).
  set (y := lstrip (rev (lstrip x))) in *. split.
  - intros c Hc. apply (lstrip_head x).
    assert (lstrip x = rev y ++ rev ws) as ->
      by (rewrite <- rev_app_distr, <- Hrev; by rewrite rev_involutive).
    destruct (rev y); [done|]. done.
  - intros c Hc. apply (lstrip_head (rev (lstrip x))). fold y.
    rewrite <- (rev_involutive y) at 1. by rewrite head_rev.
Qed.

Lemma strip_of_trimmed x : trimmed x -> strip x = x.
Proof.
  intros [Hh Hl]. unfold strip. rewrite (lstrip_id x Hh).
  rewrite lstrip_id; [apply rev_involutive|]. intros c. rewrite head_rev. apply Hl.
Qed.

Lemma strip_spaces ws ws' x :
  forallb isspace_cp ws = true -> forallb isspace_cp ws' = true ->
  strip (ws ++ x ++ ws') = strip x.
Proof.
  intros Hws Hws'. unfold strip. rewrite (lstrip_spaces _ _ Hws), lstrip_app.
  destruct (forallb isspace_cp x) eqn:Hx.
  - rewrite <- (app_nil_r ws') at 1. rewrite (lstrip_spaces _ _ Hws'). simpl.
    rewrite <- (app_nil_r x) at 1. by rewrite (lstrip_spaces _ _ Hx).
  - rewrite rev_app_distr, lstrip_spaces; [done|].
    rewrite forallb_forall in *. intros c Hc. apply Hws'. by apply in_rev.
Qed.

(** ** [in] *)

Lemma contains_occurs needle hay :
  contains needle hay = true <-> exists pre post, hay = pre ++ needle ++ post.
Proof.
  induction hay as [|c hay IH]; simpl.
  - rewrite orb_false_r, startswith_app. split.
    + intros [r Hr]. by exists [], r.
    + intros (pre & post & H). symmetry in H.
      apply app_eq_nil in H as [-> H]. apply app_eq_nil in H as [-> ->]. by exists [].
  - rewrite orb_true_iff, startswith_app, IH. split.
    + intros [[r Hr] | (pre & post & ->)]; [by exists [], r | by exists (c :: pre), post].
    + intros (pre & post & H). destruct pre as [|a pre]; [left; by exists post|].
      injection H as -> ->. right. by exists pre, post.
Qed.

(** ** [split] *)

Lemma split_aux_no_sep sep k cur x :
  sep <> [] ->
  (0 < k -> cur = []) ->
  (forall a b, cur = a ++ b -> b <> [] -> startswith sep (b ++ x) = false) ->
  Forall (fun seg => ~ occurs sep seg) (split_aux sep k cur x).
Proof.
  intros Hsep. revert k cur; induction x as [|c x IH]; intros k cur Hk Hinv.
  - simpl. apply Forall_singleton. intros (pre & post & ->).
    specialize (Hinv pre (sep ++ post) eq_refl). rewrite app_nil_r in Hinv.
    assert (startswith sep (sep ++ post) = true) as Hs by (apply startswith_app; eauto).
    rewrite Hinv in Hs; [done|]. by destruct sep.
  - cbn [split_aux]. destruct k as [|k].
    + destruct (startswith sep (c :: x)) eqn:Hp.
      * constructor.
        -- intros (pre & post & ->).
           specialize (Hinv pre (sep ++ post) eq_refl).
           assert (startswith sep ((sep ++ post) ++ c :: x) = true) as Hs
             by (apply startswith_app; rewrite <- app_assoc; eauto).
           rewrite Hinv in Hs; [done|]. by destruct sep.
        -- apply IH; [done|]. intros a b Hab Hb. by destruct a, b.
      * apply IH; [lia|]. intros a b Hab Hb.
        destruct b as [|b0 b _] using rev_ind; [done|].
        rewrite app_assoc in Hab. apply app_inj_tail in Hab as [-> ->].
        rewrite <- app_assoc. simpl. destruct b as [|b1 b]; [done|].
        by apply (Hinv a (b1 :: b)).
    + rewrite (Hk ltac:(lia)). apply IH; [done|]. intros a b Hab Hb. by destruct a, b.
Qed.

Lemma split_no_sep x sep : sep <> [] -> Forall (fun seg => ~ occurs sep seg) (split x sep).
Proof.
  intros Hsep. apply split_aux_no_sep; [done | lia |]. intros a b Hab Hb. by destruct a, b.
Qed.

Lemma segment_no_sep x sep i seg :
  sep <> [] -> segment (split x sep) i = PStr seg -> ~ occurs sep seg.
Proof.
  intros Hsep. unfold segment. case_bool_decide; [|done].
  destruct (split x sep !! i) as [s|] eqn:Hi; [|done]. intros [= <-].
  apply (Forall_lookup_1 _ _ _ _ (split_no_sep x sep Hsep) Hi).
Qed.

(** ** The year pattern finds every year *)

(** Whenever the text holds a year between word boundaries, [re.search]
    with the pattern of line 267 finds a year, the leftmost one: the field
    is [None] only for a text without any. *)
Theorem year_search_finds (pre y post : str) :
  is_year y -> isword_opt (last pre) = false -> isword_opt (head post) = false ->
  exists m pre' post',
    re_search year_pattern (pre ++ y ++ post) = Some m /\
    is_year m /\
    pre ++ y ++ post = pre' ++ m ++ post' /\
    length pre' <= length pre.
Proof.
  intros Hy Hpre Hpost. unfold re_search.
  enough (forall prev, isword_opt (from_option Some prev (last pre)) = false ->
            exists m pre' post',
              search_from year_pattern prev (pre ++ y ++ post) = Some m /\
              is_year m /\
              pre ++ y ++ post = pre' ++ m ++ post' /\
              length pre' <= length pre) as H.
  { apply (H None). by destruct (last pre). }
  clear Hpre. induction pre as [|a pre IH]; intros prev Hprev.
  - simpl in Hprev. exists y, [], post.
    destruct y as [|y0 y]; [by destruct Hy as (? & ? & [? | ?] & _)|].
    cbn [app search_from]. change (y0 :: y ++ post) with ((y0 :: y) ++ post).
    rewrite (year_match_here_complete prev (y0 :: y) post Hy Hprev Hpost). done.
  - cbn [app search_from].
    destruct (match_here year_pattern prev (a :: pre ++ y ++ post)) as [m|] eqn:Hm.
    + apply year_match_here in Hm as (c & d & rest & Hshape & Hx & Hc & Hd & _).
      exists m, [], rest. split_and!; [done | by exists c, d | done | simpl; lia].
    + destruct (IH (Some a)) as (m & pre' & post' & Hs & Hmy & Hx & Hlen).
      { rewrite last_cons in Hprev. by destruct (last pre). }
      exists m, (a :: pre'), post'. rewrite Hs. split_and!; [done | done | | simpl; lia].
      simpl. by rewrite Hx.
Qed.

Lemma year_search_finds_witness :
  exists m pre' post',
    re_search year_pattern (py "Venue, " ++ py "2019" ++ py " - x") = Some m /\
    is_year m /\
    py "Venue, " ++ py "2019" ++ py " - x" = pre' ++ m ++ post' /\
    length pre' <= length (py "Venue, ").
Proof.
  apply year_search_finds; [|reflexivity|reflexivity].
  exists 49%N, 57%N. split_and!; [by right | reflexivity | reflexivity].
Defined.

(** ** [int] *)

Lemma decimal_value_None c : decimal_value c = None <-> isdecimal_cp c = false.
Proof.
  unfold decimal_value, isdecimal_cp, in_ranges.
  induction decimal_ranges as [|r l IH]; [done|]. simpl.
  destruct (_ && _); [done|]. apply IH.
Qed.

Lemma int_raises x :
  int x = None <-> int_max_str_digits < length x \/ forallb isdecimal_cp x = false.
Proof.
  unfold int. destruct (int_max_str_digits <? length x) eqn:Hlen.
  - apply Nat.ltb_lt in Hlen. split; [by left | done].
  - apply Nat.ltb_ge in Hlen.
    set (f := fun (acc : option Z) c =>
                match acc, decimal_value c with
                | Some n, Some d => Some (10 * n + d)%Z
                | _, _ => None
                end).
    assert (forall y, foldl f None y = None) as Hnone by (induction y; done).
    assert (forall y n, foldl f (Some n) y = None <-> forallb isdecimal_cp y = false) as H.
    { induction y as [|c y IH]; intros n; simpl; [done|].
      destruct (decimal_value c) as [d|] eqn:Hd.
      - rewrite IH. destruct (isdecimal_cp c) eqn:Hc; [done|].
        apply decimal_value_None in Hc. congruence.
      - apply decimal_value_None in Hd. by rewrite Hnone, Hd. }
    rewrite H. split; [by right | intros [? | ?]; [lia | done]].
Qed.

End StrFacts.

(* ===================================================================== *)
(** * Facts about the window                                            *)
(* ===================================================================== *)

Module GuiFacts.
Import Py Dom Gui PySpec PyFacts StrFacts.

(** ** The proposed file name *)

Lemma space_not_word c : isspace_cp c = true -> isword_cp c = false.
Proof.
  assert (forallb (fun r => forallb (fun w => (r.2 <? w.1)%N || (w.2 <? r.1)%N) word_ranges)
                  space_ranges = true) as Hdis by (vm_compute; reflexivity).
  unfold isspace_cp, isword_cp, in_ranges. rewrite forallb_forall in Hdis.
  rewrite existsb_exists. intros (r & Hr & Hc). apply Hdis in Hr.
  rewrite forallb_forall in Hr. apply not_true_is_false. rewrite existsb_exists.
  intros (w & Hw & Hcw). apply Hr in Hw.
  apply andb_true_iff in Hc as [Hlo%N.leb_le Hhi%N.leb_le].
  apply andb_true_iff in Hcw as [Hwlo%N.leb_le Hwhi%N.leb_le].
  apply orb_true_iff in Hw as [Hw%N.ltb_lt | Hw%N.ltb_lt]; lia.
Qed.

Lemma word_not_hyphen_or_space c : isword_cp c = true -> hyphen_or_space c = false.
Proof.
  intros Hw. unfold hyphen_or_space. apply orb_false_iff. split.
  - apply N.eqb_neq. intros ->. by vm_compute in Hw.
  - destruct (isspace_cp c) eqn:Hs; [|done]. apply space_not_word in Hs. congruence.
Qed.

Lemma sub_each_removed x c :
  c ∈ sub_each not_word_space_hyphen [] x ->
  isword_cp c = true \/ hyphen_or_space c = true.
Proof.
  unfold sub_each. intros (a & Hc & _)%list_elem_of_bind.
  unfold not_word_space_hyphen, hyphen_or_space in *.
  destruct (isword_cp a) eqn:Hw; simpl in Hc.
  - apply list_elem_of_singleton in Hc as ->. by left.
  - destruct (isspace_cp a) eqn:Hs; simpl in Hc.
    + apply list_elem_of_singleton in Hc as ->. right. by rewrite Hs, orb_true_r.
    + destruct (a =? hyphen)%N eqn:Hh; simpl in Hc; [|by apply elem_of_nil in Hc].
      apply list_elem_of_singleton in Hc as ->. right. by rewrite Hh.
Qed.

Lemma sub_runs_from_elem class repl b x c :
  c ∈ sub_runs_from class repl b x -> c ∈ repl \/ (c ∈ x /\ class c = false).
Proof.
  revert b; induction x as [|a x IH]; intros b; simpl; [by intros ?%elem_of_nil|].
  destruct (class a) eqn:Ha.
  - intros [Hc | Hc]%elem_of_app.
    + destruct b; [by apply elem_of_nil in Hc | by left].
    + destruct (IH _ Hc) as [? | [? ?]]; [by left | right; split; [by right | done]].
  - intros [-> | Hc]%elem_of_cons; [right; split; [by left | done]|].
    destruct (IH _ Hc) as [? | [? ?]]; [by left | right; split; [by right | done]].
Qed.

Lemma sub_each_id class x :
  Forall (fun c => class c = false) x -> sub_each class [] x = x.
Proof.
  unfold sub_each. induction 1 as [|a x Ha _ IH]; [done|].
  cbn [mbind list_bind]. fold (x ≫= fun c => if class c then [] else [c]).
  by rewrite Ha, IH.
Qed.

Lemma sub_runs_from_id class repl x :
  Forall (fun c => class c = false) x -> sub_runs_from class repl false x = x.
Proof. induction 1 as [|a x Ha _ IH]; [done|]. simpl. by rewrite Ha, IH. Qed.

Lemma clean_title_word title : Forall (fun c => isword_cp c = true) (clean_title title).
Proof.
  unfold clean_title, sub_runs. apply Forall_take, Forall_forall. intros c Hc.
  apply sub_runs_from_elem in Hc as [Hc | [Hc Hclass]].
  - by repeat (apply elem_of_cons in Hc as [-> | Hc]; [by vm_compute|]); apply elem_of_nil in Hc.
  - apply sub_each_removed in Hc as [? | ?]; [done | congruence].
Qed.

Lemma clean_title_stem title :
  length (clean_title title) <= 50 /\
  Forall (fun c => isword_cp c = true /\ isspace_cp c = false /\ c <> hyphen)
         (clean_title title) /\
  clean_title (clean_title title) = clean_title title.
Proof.
  pose proof (clean_title_word title) as Hword.
  assert (length (clean_title title) <= 50) as Hlen
    by (unfold clean_title; rewrite length_take; lia).
  set (stem := clean_title title) in *. clearbody stem. split_and!.
  - done.
  - eapply Forall_impl; [exact Hword|]. intros c Hc. cbn beta.
    pose proof (word_not_hyphen_or_space c Hc) as [Hh%N.eqb_neq Hs]%orb_false_iff. done.
  - unfold clean_title, sub_runs. rewrite sub_each_id.
    + rewrite sub_runs_from_id; [by apply take_ge|].
      eapply Forall_impl; [exact Hword|]. apply word_not_hyphen_or_space.
    + eapply Forall_impl; [exact Hword|]. intros c Hc. unfold not_word_space_hyphen.
      by rewrite Hc.
Qed.

(** The name proposed for the file of citers is [citers.csv] when the
    title or the year is missing or empty. Otherwise it is a stem, an
    underscore, the year and [_citers.csv], where the stem has at most 50
    characters, all of them letters, digits or underscores (so no separator
    of paths, no dot, no blank and no hyphen), and cleaning the stem again
    changes nothing. A title that is not a text, beside a year, makes
    [re.sub] raise. *)
Theorem default_name_stem (current_paper_title current_paper_year : pyval) :
  match default_name current_paper_title current_paper_year with
  | Name name =>
      (name = py "citers.csv" /\
       truthy_val current_paper_title && truthy_val current_paper_year = false) \/
      (exists title stem,
         current_paper_title = PStr title /\ title <> [] /\
         truthy_val current_paper_year = true /\
         name = stem ++ py "_" ++ format current_paper_year ++ py "_citers.csv" /\
         length stem <= 50 /\
         Forall (fun c => isword_cp c = true /\ isspace_cp c = false /\ c <> hyphen) stem /\
         clean_title stem = stem)
  | TypeError =>
      truthy_val current_paper_title = true /\ truthy_val current_paper_year = true /\
      forall title, current_paper_title <> PStr title
  end.
Proof.
  unfold default_name.
  destruct (truthy_val current_paper_title) eqn:Ht; [|by left].
  destruct (truthy_val current_paper_year) eqn:Hy; [|by left]. cbn [andb].
  destruct current_paper_title as [|title|z|]; try done.
  right. exists title, (clean_title title).
  destruct (clean_title_stem title) as (? & ? & ?).
  split_and!; try done. by destruct title.
Qed.

(** ** The URL field *)

(** A text is taken as a profile URL exactly when, with the white space
    around it removed, it contains [scholar.google.com/citations]; the URL
    handed to the crawl is that trimmed text, and white space added around
    the text changes nothing. *)
Theorem start_scraping_trims (text ws ws' : str) :
  forallb isspace_cp ws = true -> forallb isspace_cp ws' = true ->
  start_scraping (ws ++ text ++ ws') = start_scraping text /\
  (forall url, start_scraping text = Scraping url <->
     url = strip text /\
     exists pre post, strip text = pre ++ py "scholar.google.com/citations" ++ post) /\
  (forall url, start_scraping text = Scraping url -> trimmed url /\ url <> []).
Proof.
  intros Hws Hws'.
  assert (forall url, start_scraping text = Scraping url <->
            url = strip text /\
            exists pre post, strip text = pre ++ py "scholar.google.com/citations" ++ post) as Hiff.
  { intros url. unfold start_scraping. rewrite <- contains_occurs.
    destruct (strip text) as [|c u] eqn:Hu; simpl.
    - split; [done | by intros [_ [=]]].
    - destruct (_ || _); simpl; split; try done; [by intros [= <-] | by intros [-> _] | by intros [_ [=]]]. }
  split_and!; [|done|].
  - unfold start_scraping. by rewrite strip_spaces.
  - intros url [-> (pre & post & Hocc)]%Hiff. split; [apply strip_trimmed|].
    rewrite Hocc. by destruct pre.
Qed.

Lemma start_scraping_trims_witness :
  start_scraping (py "  " ++ py "https://scholar.google.com/citations?user=X" ++ [10%N])
  = start_scraping (py "https://scholar.google.com/citations?user=X").
Proof. apply start_scraping_trims; reflexivity. Defined.

End GuiFacts.

(* ===================================================================== *)
(** * Further facts about [scrape_paper_citers]                         *)
(* ===================================================================== *)

Module CrawlFacts.
Import Py Dom Citation CitationSpec CitationSamples PySpec CrawlSpec PyFacts StrFacts CitationFacts.

(** ** The gray line *)

(** In the records that [scrape_paper_citers] returns, the authors and the
    publication never contain the delimiter [" - "]: they are whole
    segments of the gray line. *)
Theorem authors_and_publication_are_segments paper_url env result tr d key field :
  scrape_paper_citers paper_url env = Some (Returned result, tr) ->
  d ∈ result ->
  key = "citer_authors" \/ key = "citer_publication" ->
  d !! key = Some (PStr field) ->
  ~ occurs (py " - ") field.
Proof.
  intros Hrun Hd Hkey Hfield. apply returned_first_occurrences in Hrun as [n ->].
  apply first_occurrences_row in Hd as (row & te & t & _ & _ & _ & ->).
  revert Hfield. unfold citer_data, get_info.
  destruct (gs_a row) as [[text|e]|e];
    try (destruct Hkey as [-> | ->]; by simplify_map_eq).
  unfold info_fields. destruct Hkey as [-> | ->]; simplify_map_eq;
    intros [= Hseg]; by eapply segment_no_sep in Hseg.
Qed.

Lemma authors_and_publication_are_segments_witness :
  ~ occurs (py " - ") (py "Venue, 2019").
Proof.
  apply (authors_and_publication_are_segments paper_url two_pages
           [record_a; record_b; record_c] two_pages_trace record_b "citer_publication").
  - vm_compute. reflexivity.
  - apply list_elem_of_further, list_elem_of_here.
  - by right.
  - vm_compute. reflexivity.
Defined.

(** ** The browser is released *)

Lemma no_quit_not_in evs : no_quit evs = true -> EvQuit ∉ evs.
Proof.
  unfold no_quit. rewrite forallb_forall. intros H Hin.
  apply list_elem_of_In, H in Hin. done.
Qed.

Lemma no_quit_app evs1 evs2 : no_quit (evs1 ++ evs2) = no_quit evs1 && no_quit evs2.
Proof. apply forallb_app. Qed.

Lemma loop_events_no_quit evs : forallb loop_event evs = true -> no_quit evs = true.
Proof.
  unfold no_quit. rewrite !forallb_forall. intros H e He. apply H in He. by destruct e.
Qed.

Lemma prelude_no_quit paper_url env : no_quit (prelude paper_url env).2 = true.
Proof.
  unfold prelude. destruct (get_paper env); [|done].
  destruct (locate_cited_by env) as [cited_by_url|]; [|done].
  destruct (negb (truthy cited_by_url)); [done|].
  destruct (get_citations env); [|done].
  destruct (page_source env) as [src|]; [|done].
  assert (no_quit (find_results env).2 = true) as Hfind by find_results_cases env.
  assert (no_quit (check_for_block env src).2 = true) as Hblock
    by check_for_block_cases env src.
  destruct (check_for_block env src) as [[[]|e] evs0]; cbn [snd] in *;
    [destruct (find_results env) as [b evs]; cbn [snd] in *|];
    by rewrite !no_quit_app, ?Hfind, Hblock.
Qed.

(** Once a browser has started, [scrape_paper_citers] raises nothing: it
    returns a list, and the last thing it does is to wait five seconds and
    quit the browser, which it does once. When no browser starts it raises
    before doing anything. *)
Theorem citation_crawl_releases_browser paper_url env o tr :
  scrape_paper_citers paper_url env = Some (o, tr) ->
  match start_browser env with
  | Ok _ =>
      exists result before,
        o = Returned result /\
        tr = before ++ [EvSleep 5000; EvQuit] /\ EvQuit ∉ before
  | Raise _ => (exists msg, o = Raised msg) /\ tr = []
  end.
Proof.
  unfold scrape_paper_citers. destruct (start_browser env); [|intros [= <- <-]; eauto].
  pose proof (prelude_no_quit paper_url env) as Hpre.
  destruct (prelude paper_url env) as [b tr0]. cbn [snd] in Hpre.
  destruct b.
  - destruct (page_loop (pages env) (initial tr0)) as [[r st]|] eqn:Hloop; [|done].
    apply page_loop_trace in Hloop as (evs & Htr & Hevs). cbn [trace initial] in Htr.
    intros [= <- <-]. exists (citers st), (tr0 ++ evs). rewrite Htr. split_and!; [done..|].
    apply no_quit_not_in. by rewrite no_quit_app, Hpre, (loop_events_no_quit _ Hevs).
  - intros [= <- <-]. exists [], tr0. split_and!; [done..|]. by apply no_quit_not_in.
  - intros [= <- <-]. exists [], tr0. split_and!; [done..|]. by apply no_quit_not_in.
Qed.

Lemma citation_crawl_releases_browser_witness :
  exists result before,
    Returned [record_a; record_b; record_c] = Returned result /\
    two_pages_trace = before ++ [EvSleep 5000; EvQuit] /\ EvQuit ∉ before.
Proof.
  apply (citation_crawl_releases_browser paper_url two_pages
           (Returned [record_a; record_b; record_c]) two_pages_trace).
  vm_compute. reflexivity.
Defined.

(** ** The loop ends at the first view that halts it *)

(** A view that halts the page loop ends the crawl: a result is returned,
    and the views after it are never looked at. *)
Theorem crawl_ends_at_halting_view views v views' views'' st :
  halts v = true ->
  is_Some (page_loop (views ++ v :: views') st) /\
  page_loop (views ++ v :: views') st = page_loop (views ++ v :: views'') st.
Proof.
  intros Hv. revert st; induction views as [|w views IH]; intros st.
  - cbn [app page_loop]. rewrite log_pace. unfold halts in Hv.
    destruct (find_rows v) as [found evs]. cbn [fst] in Hv.
    destruct found as [[|row rows]|e]; [by eauto | | done].
    destruct (next_page v) as [[[]|r'] evs']; cbn [fst] in Hv; [done | by eauto].
  - cbn [app page_loop]. rewrite log_pace.
    destruct (find_rows w) as [found evs].
    destruct found as [[|row rows]|e]; [by eauto | |].
    + destruct (next_page w) as [[[]|r'] evs']; [apply IH | by eauto].
    + cbn [retry_count log]. case_bool_decide; [by eauto | apply IH].
Qed.

Lemma crawl_ends_at_halting_view_witness :
  is_Some (page_loop ([page [row_a] next_button] ++ page [row_b] no_button :: [broken_page])
                     (initial [])) /\
  page_loop ([page [row_a] next_button] ++ page [row_b] no_button :: [broken_page]) (initial [])
  = page_loop ([page [row_a] next_button] ++ page [row_b] no_button :: []) (initial []).
Proof. apply crawl_ends_at_halting_view. reflexivity. Defined.

(** ** Reading the same rows again *)

Lemma scrape_row_seen_mono st row t :
  t ∈ seen_titles st -> t ∈ seen_titles (scrape_row st row).
Proof.
  unfold scrape_row. destruct (find_title row) as [[te t']|]; [|done]. simpl.
  destruct (_ || _); [done|]. simpl. set_solver.
Qed.

Lemma scrape_rows_seen_mono rows st t :
  t ∈ seen_titles st -> t ∈ seen_titles (scrape_rows rows st).
Proof.
  unfold scrape_rows. revert st; induction rows as [|row rows IH]; intros st; [done|].
  simpl. intros Ht. by apply IH, scrape_row_seen_mono.
Qed.

Lemma scrape_rows_seen rows st row t :
  row ∈ rows -> title_text row = Some t -> t <> [] ->
  t ∈ seen_titles (scrape_rows rows st).
Proof.
  unfold scrape_rows. revert st; induction rows as [|r rows IH]; intros st; [by intros ?%elem_of_nil|].
  intros Hin Ht Hne. apply elem_of_cons in Hin as [Heq | Hin]; simpl; [subst r | by apply IH].
  apply scrape_rows_seen_mono. unfold scrape_row, title_text in *.
  destruct (find_title row) as [[te t']|]; [|done]. simpl in Ht. injection Ht as ->. simpl.
  rewrite bool_decide_eq_false_2 by done. simpl.
  case_bool_decide; simpl; [done | set_solver].
Qed.

Lemma scrape_rows_all_seen rows st :
  (forall row t, row ∈ rows -> title_text row = Some t -> t <> [] -> t ∈ seen_titles st) ->
  citers (scrape_rows rows st) = citers st /\
  seen_titles (scrape_rows rows st) = seen_titles st.
Proof.
  unfold scrape_rows. revert st; induction rows as [|row rows IH]; intros st Hseen; [done|].
  simpl.
  assert (citers (scrape_row st row) = citers st /\
          seen_titles (scrape_row st row) = seen_titles st) as [Hc Hs].
  { specialize (Hseen row). unfold scrape_row, title_text in *.
    destruct (find_title row) as [[te t]|]; [|done]. simpl.
    case_bool_decide; simpl; [done|].
    rewrite bool_decide_eq_true_2; [done|]. apply Hseen; [by left | done | done]. }
  rewrite <- Hc, <- Hs. apply IH. intros r t Hr Ht Hne. rewrite Hs.
  apply (Hseen r t); [by right | done | done].
Qed.

(** Reading rows that were already read adds nothing: a second pass over
    the same rows, at once or after other rows, leaves the records and the
    seen-set as they were. *)
Theorem rescraping_adds_nothing (rows between : list CiterRow) (st : state) :
  let st1 := scrape_rows between (scrape_rows rows st) in
  citers (scrape_rows rows st1) = citers st1 /\
  seen_titles (scrape_rows rows st1) = seen_titles st1.
Proof.
  cbv zeta. apply scrape_rows_all_seen. intros row t Hrow Ht Hne.
  apply scrape_rows_seen_mono. by eapply scrape_rows_seen.
Qed.

(** ** Where the crawl navigates *)

Lemma first_cites_link_first links href :
  first_cites_link links = Ok (Some href) ->
  exists before after,
    links = before ++ Ok (Some href) :: after /\
    qualifies (Some href) = true /\
    Forall (fun l => exists h, l = Ok h /\ qualifies h = false) before.
Proof.
  induction links as [|l links IH]; [done|]. cbn [first_cites_link].
  destruct l as [h|e]; [|done]. fold (qualifies h).
  destruct (qualifies h) eqn:Hq.
  - intros [= ->]. by exists [], links.
  - intros (before & after & -> & ? & ?)%IH. exists (Ok h :: before), after.
    split_and!; [done | done |]. constructor; eauto.
Qed.

(** The URL of the citing papers is the [href] of the link that reads
    "Cited by" when that link has one; otherwise it is the [href] of the
    first link of the page that contains both [scholar.google.com] and
    [cites=], every link before it having been read without error. *)
Theorem cited_by_url_origin env url :
  locate_cited_by env = Ok (Some url) -> url <> [] ->
  cited_by_href env = Ok (Some url) \/
  ((exists o, cited_by_href env = Ok o /\ truthy o = false) /\
   exists before after,
     all_links env = Ok (before ++ Ok (Some url) :: after) /\
     occurs (py "scholar.google.com") url /\
     occurs (py "cites=") url /\
     Forall (fun l => exists h, l = Ok h /\ qualifies h = false) before).
Proof.
  unfold locate_cited_by. fold (cited_by_href env).
  destruct (cited_by_href env) as [o|e]; [|done].
  destruct (truthy o) eqn:Ho; [intros [= ->]; by left|].
  intros Hloc Hurl. right. split; [by exists o|].
  destruct (all_links env) as [links|e].
  - destruct (first_cites_link links) as [[href|]|e] eqn:Hfirst.
    + injection Hloc as ->.
      apply first_cites_link_first in Hfirst as (before & after & -> & Hq & Hbefore).
      exists before, after. unfold qualifies in Hq.
      apply andb_true_iff in Hq as [[_ H1%contains_occurs]%andb_true_iff H2%contains_occurs].
      by split_and!.
    + injection Hloc as ->. by destruct url.
    + injection Hloc as ->. by destruct url.
  - injection Hloc as ->. by destruct url.
Qed.

Lemma cited_by_url_origin_witness :
  cited_by_href two_pages = Ok (Some cited_by_url) \/
  ((exists o, cited_by_href two_pages = Ok o /\ truthy o = false) /\
   exists before after,
     all_links two_pages = Ok (before ++ Ok (Some cited_by_url) :: after) /\
     occurs (py "scholar.google.com") cited_by_url /\
     occurs (py "cites=") cited_by_url /\
     Forall (fun l => exists h, l = Ok h /\ qualifies h = false) before).
Proof. apply cited_by_url_origin; [reflexivity | discriminate]. Defined.

Lemma gets_app evs1 evs2 : gets (evs1 ++ evs2) = gets evs1 ++ gets evs2.
Proof. apply omap_app. Qed.

Lemma loop_events_gets evs : forallb loop_event evs = true -> gets evs = [].
Proof.
  induction evs as [|e evs IH]; [done|]. simpl. intros [He Hevs]%andb_true_iff.
  unfold gets in *. cbn [omap]. rewrite (IH Hevs). by destruct e.
Qed.

Lemma prelude_gets paper_url env :
  gets (prelude paper_url env).2 = [paper_url] \/
  exists url, locate_cited_by env = Ok (Some url) /\ url <> [] /\
              gets (prelude paper_url env).2 = [paper_url; url].
Proof.
  unfold prelude. destruct (get_paper env); [|by left].
  destruct (locate_cited_by env) as [cited_by_url|]; [|by left].
  destruct cited_by_url as [[|c url]|]; [by left | | by left]. cbn [truthy negb default].
  assert (gets (find_results env).2 = []) as Hfind by find_results_cases env.
  right. exists (c :: url). split_and!; [done | done |].
  destruct (get_citations env); [|done]. destruct (page_source env) as [src|]; [|done].
  assert (gets (check_for_block env src).2 = []) as Hblock
    by check_for_block_cases env src.
  destruct (check_for_block env src) as [[[]|e] evs0]; cbn [snd] in *;
    [destruct (find_results env) as [b evs]; cbn [snd] in *|];
    by rewrite !gets_app, ?Hfind, Hblock.
Qed.

(** [scrape_paper_citers] loads at most two URLs: the paper's, and then the
    one found for the citing papers. Every other page change is a click. *)
Theorem citation_crawl_page_loads paper_url env o tr :
  scrape_paper_citers paper_url env = Some (o, tr) ->
  tr = [] \/
  gets tr = [paper_url] \/
  exists url, locate_cited_by env = Ok (Some url) /\ url <> [] /\
              gets tr = [paper_url; url].
Proof.
  unfold scrape_paper_citers. destruct (start_browser env); [|intros [= <- <-]; by left].
  pose proof (prelude_gets paper_url env) as Hpre.
  destruct (prelude paper_url env) as [b tr0]. cbn [snd] in Hpre.
  assert (forall rest, gets rest = [] -> gets (tr0 ++ rest) = gets tr0) as Hrest
    by (intros rest Hr; by rewrite gets_app, Hr, app_nil_r).
  intros Hrun. right.
  assert (exists rest, tr = tr0 ++ rest /\ gets rest = []) as (rest & -> & Hr).
  { destruct b.
    - destruct (page_loop (pages env) (initial tr0)) as [[r st]|] eqn:Hloop; [|done].
      apply page_loop_trace in Hloop as (evs & Htr & Hevs). cbn [trace initial] in Htr.
      injection Hrun as <- <-. exists (evs ++ finally_events).
      rewrite Htr, <- app_assoc, gets_app, (loop_events_gets _ Hevs). done.
    - injection Hrun as <- <-. by exists finally_events.
    - injection Hrun as <- <-. by exists finally_events. }
  by rewrite (Hrest _ Hr).
Qed.

Lemma citation_crawl_page_loads_witness :
  two_pages_trace = [] \/
  gets two_pages_trace = [paper_url] \/
  exists url, locate_cited_by two_pages = Ok (Some url) /\ url <> [] /\
              gets two_pages_trace = [paper_url; url].
Proof.
  apply (citation_crawl_page_loads paper_url two_pages (Returned [record_a; record_b; record_c])).
  vm_compute. reflexivity.
Defined.

(** ** Clicks *)

Lemma no_click_paced evs : no_click evs = true -> clicks_paced evs.
Proof.
  unfold no_click. rewrite forallb_forall. intros H.
  split; intros pre post ->; exfalso;
    [specialize (H EvClick) | specialize (H EvJsClick)];
    (discriminate H; apply in_or_app; right; by left).
Qed.

Lemma clicks_paced_app evs1 evs2 :
  clicks_paced evs1 -> clicks_paced evs2 -> clicks_paced (evs1 ++ evs2).
Proof.
  assert (forall (e : event) (need : list event),
            (forall pre post, evs1 = pre ++ e :: post -> exists pre', pre = pre' ++ need) ->
            (forall pre post, evs2 = pre ++ e :: post -> exists pre', pre = pre' ++ need) ->
            forall pre post, evs1 ++ evs2 = pre ++ e :: post -> exists pre', pre = pre' ++ need)
    as Hgen.
  { intros e need H1 H2 pre post Heq.
    apply app_eq_app in Heq as [l [[Hl Hk] | [Hl Hk]]].
    - destruct l as [|e' l].
      + rewrite app_nil_r in Hl. simpl in Hk. subst.
        destruct (H2 [] post eq_refl) as [pre' Hp].
        destruct pre'; [|done]. simpl in Hp. subst need.
        exists pre. by rewrite app_nil_r.
      + injection Hk as <- ->. by apply (H1 pre l).
    - destruct (H2 l post Hk) as [pre' ->]. exists (evs1 ++ pre'). by rewrite Hl, app_assoc. }
  intros [Ha1 Hb1] [Ha2 Hb2]. split; by apply Hgen.
Qed.

Lemma next_page_paced v : clicks_paced (next_page v).2.
Proof.
  assert (clicks_paced [EvScroll; EvSleepUniform 1000 2000; EvClick]) as Hclick.
  { split; intros pre post Heq.
    - do 3 (destruct pre as [|? pre]; [try done; by exists [] |]; injection Heq as <- Heq).
      by destruct pre.
    - do 3 (destruct pre as [|? pre]; [done|]; injection Heq as <- Heq). by destruct pre. }
  assert (clicks_paced [EvScroll; EvSleepUniform 1000 2000; EvClick; EvJsClick]) as Hjs.
  { split; intros pre post Heq.
    - do 4 (destruct pre as [|? pre]; [try done; by exists [] |]; injection Heq as <- Heq).
      by destruct pre.
    - do 3 (destruct pre as [|? pre]; [done|]; injection Heq as <- Heq).
      destruct pre as [|? pre]; [by exists [EvScroll; EvSleepUniform 1000 2000]|].
      injection Heq as <- Heq. by destruct pre. }
  unfold next_page. destruct (find_next_button v) as [b|]; [|by apply no_click_paced].
  destruct (nb_disabled b) as [d|]; [|by apply no_click_paced].
  destruct (nb_class b) as [c|]; [|by apply no_click_paced].
  destruct (_ || _); [by apply no_click_paced|].
  destruct (nb_scroll b); [|by apply no_click_paced].
  destruct (nb_click b); [done|]. by destruct (nb_js_click b).
Qed.

Lemma log_trace evs st : trace (log evs st) = trace st ++ evs.
Proof. done. Qed.

Lemma page_loop_paced views st r st' :
  page_loop views st = Some (r, st') ->
  exists evs, trace st' = trace st ++ evs /\ clicks_paced evs.
Proof.
  assert (forall st rows, trace (scrape_rows rows st) = trace st) as Hrows
    by (intros; apply scrape_rows_trace).
  revert st; induction views as [|v views IH]; intros st; [done|]. cbn [page_loop].
  set (st0 := if bool_decide (1 < page_num st) then log [EvSleepUniform 2000 4000] st else st).
  assert (exists evs0, trace st0 = trace st ++ evs0 /\ no_click evs0 = true) as (evs0 & Ht0 & Hn0).
  { unfold st0. case_bool_decide; [by eexists | exists []; by rewrite app_nil_r]. }
  clearbody st0.
  assert (no_click (find_rows v).2 = true) as Hfind.
  { unfold find_rows. by destruct (rows_gs_ri v) as [[|? ?]|]. }
  destruct (find_rows v) as [found evs1]. cbn [snd] in Hfind.
  pose proof (clicks_paced_app _ _ (no_click_paced _ Hn0) (no_click_paced _ Hfind)) as H01.
  destruct found as [[|row rows]|e].
  - intros [= <- <-]. exists (evs0 ++ evs1). cbn [trace log]. by rewrite Ht0, <- app_assoc.
  - set (st1 := scrape_rows (row :: rows) (log evs1 st0)).
    assert (trace st1 = trace st ++ evs0 ++ evs1) as Ht1
      by (unfold st1; by rewrite Hrows, log_trace, Ht0, <- app_assoc).
    clearbody st1. pose proof (next_page_paced v) as Hnext.
    destruct (next_page v) as [[[]|r'] evs2]; cbn [snd] in Hnext.
    + intros (evs & Htr & Hevs)%IH. cbn [trace log] in Htr. rewrite Ht1 in Htr.
      exists ((evs0 ++ evs1) ++ evs2 ++ evs). split.
      * rewrite Htr. by rewrite <- !app_assoc.
      * apply clicks_paced_app; [done|]. by apply clicks_paced_app.
    + intros [= <- <-]. exists ((evs0 ++ evs1) ++ evs2). split.
      * cbn [trace log]. by rewrite Ht1, <- !app_assoc.
      * by apply clicks_paced_app.
  - case_bool_decide.
    + intros [= <- <-]. exists (evs0 ++ evs1). cbn [trace log].
      by rewrite Ht0, <- app_assoc.
    + intros (evs & Htr & Hevs)%IH. cbn [trace log] in Htr.
      rewrite Ht0 in Htr. exists ((evs0 ++ evs1) ++ [EvSleep 2000] ++ evs). split.
      * rewrite Htr. by rewrite <- !app_assoc.
      * apply clicks_paced_app; [done|]. apply clicks_paced_app; [|done].
        by apply no_click_paced.
Qed.

Lemma prelude_no_click paper_url env : no_click (prelude paper_url env).2 = true.
Proof.
  unfold prelude. destruct (get_paper env); [|done].
  destruct (locate_cited_by env) as [cited_by_url|]; [|done].
  destruct (negb (truthy cited_by_url)); [done|].
  destruct (get_citations env); [|done]. destruct (page_source env) as [src|]; [|done].
  assert (no_click (find_results env).2 = true) as Hfind by find_results_cases env.
  assert (no_click (check_for_block env src).2 = true) as Hblock
    by check_for_block_cases env src.
  destruct (check_for_block env src) as [[[]|e] evs0]; cbn [snd] in *;
    [destruct (find_results env) as [b evs]; cbn [snd] in *|];
    unfold no_click in *; by rewrite !forallb_app, ?Hfind, Hblock.
Qed.

(** [scrape_paper_citers] never clicks on a next-page button without having
    scrolled to it and paused between one and two seconds just before, and
    it clicks by script only right after a click that failed. *)
Theorem citation_crawl_clicks_paced paper_url env o tr :
  scrape_paper_citers paper_url env = Some (o, tr) -> clicks_paced tr.
Proof.
  unfold scrape_paper_citers.
  destruct (start_browser env); [|intros [= <- <-]; by apply no_click_paced].
  pose proof (prelude_no_click paper_url env) as Hpre%no_click_paced.
  destruct (prelude paper_url env) as [b tr0]. cbn [snd] in Hpre.
  assert (clicks_paced finally_events) as Hfin by (apply no_click_paced; reflexivity).
  destruct b; try (intros [= <- <-]; by apply clicks_paced_app).
  destruct (page_loop (pages env) (initial tr0)) as [[r st]|] eqn:Hloop; [|done].
  apply page_loop_paced in Hloop as (evs & -> & Hevs). intros [= <- <-].
  cbn [trace initial]. apply clicks_paced_app; [|done]. by apply clicks_paced_app.
Qed.

Lemma citation_crawl_clicks_paced_witness : clicks_paced two_pages_trace.
Proof.
  apply (citation_crawl_clicks_paced paper_url two_pages (Returned [record_a; record_b; record_c])).
  vm_compute. reflexivity.
Defined.

End CrawlFacts.

(* ===================================================================== *)
(** * Further facts about [scrape_google_scholar_profile]               *)
(* ===================================================================== *)

Module TableFacts.
Import Py Dom Profile ProfileSpec ProfileSamples PySpec CrawlSpec TableSpec PyFacts StrFacts
  ProfileFacts.

(** ** The citation count *)

Lemma citations_raises_fails row e : citations row = Raise e -> succeeds row = false.
Proof.
  intros Hc. unfold succeeds, paper_data, mbind, res_bind.
  destruct (title_and_link row) as [[t l]|]; [|done].
  destruct (authors row); [|done]. destruct (publication row); [|done].
  destruct (year row); [|done]. by rewrite Hc.
Qed.

(** What the text of the citation cell gives, once white space around it
    is removed: 0 when it is not made of digit characters; the number it
    writes when all its characters are decimal and there are at most 4300
    of them; and otherwise a [ValueError], with which the row is lost. *)
Theorem citation_count_cases row raw :
  gsc_a_c row = Ok (Ok raw) ->
  let citation_text := strip raw in
  if isdigit citation_text
  then if forallb isdecimal_cp citation_text && (length citation_text <=? int_max_str_digits)
       then exists n, int citation_text = Some n /\ (0 <= n)%Z /\ citations row = Ok (PInt n)
       else citations row = Raise ValueError /\ succeeds row = false
  else citations row = Ok (PInt 0).
Proof.
  intros Hcell. cbv zeta.
  assert (citations row =
          if truthy (Some (strip raw)) && isdigit (strip raw)
          then match int (strip raw) with Some n => Ok (PInt n) | None => Raise ValueError end
          else Ok (PInt 0)) as Hc.
  { unfold citations. rewrite Hcell. cbn [mbind res_bind].
    destruct (_ && _); [|done]. by destruct (int (strip raw)). }
  assert (truthy (Some (strip raw)) && isdigit (strip raw) = isdigit (strip raw)) as Ht
    by by destruct (strip raw).
  rewrite Ht in Hc. destruct (isdigit (strip raw)); [|done].
  destruct (forallb isdecimal_cp (strip raw)) eqn:Hdec;
    [destruct (length (strip raw) <=? int_max_str_digits) eqn:Hlen|]; cbn [andb].
  - apply Nat.leb_le in Hlen. destruct (int (strip raw)) as [n|] eqn:Hint.
    + exists n. split_and!; [done | by eapply int_nonneg | done].
    + apply int_raises in Hint as [? | ?]; [lia | congruence].
  - apply Nat.leb_gt in Hlen.
    assert (int (strip raw) = None) as Hint by (apply int_raises; by left).
    rewrite Hint in Hc. split; [done | by eapply citations_raises_fails].
  - assert (int (strip raw) = None) as Hint by (apply int_raises; by right).
    rewrite Hint in Hc. split; [done | by eapply citations_raises_fails].
Qed.

Lemma citation_count_cases_witness :
  exists n, int (py "12") = Some n /\ (0 <= n)%Z /\ citations (good_row "Title") = Ok (PInt n).
Proof. exact (citation_count_cases (good_row "Title") (py "12") eq_refl). Defined.

(** ** The records *)

Lemma except_only_Ok {A} E (r : res A) h v :
  except_only E r h = Ok v -> r = Ok v \/ v = h.
Proof. destruct r as [a|e]; simpl; [by left|]. destruct (E e); [intros [= <-]; by right | done]. Qed.

Lemma paper_data_fields idx row d :
  paper_data idx row = Ok d ->
  dom d = paper_keys /\
  d !! "paper_id" = Some (PInt (Z.of_nat idx)) /\
  (exists n, d !! "citations" = Some (PInt n) /\ (0 <= n)%Z) /\
  (d !! "year" = Some PNone \/
   exists y, d !! "year" = Some (PStr y) /\ y <> [] /\ trimmed y) /\
  (d !! "title" = Some PNone /\ d !! "link" = Some PNone \/
   exists t l, d !! "title" = Some (PStr t) /\ d !! "link" = Some l /\
               CitationSpec.optional_str l) /\
  (exists a, d !! "authors" = Some a /\ CitationSpec.optional_str a) /\
  (exists p, d !! "publication" = Some p /\ CitationSpec.optional_str p).
Proof.
  unfold paper_data. cbn [mbind res_bind].
  destruct (title_and_link row) as [[t l]|] eqn:Htl; [|done].
  destruct (authors row) as [a|] eqn:Ha; [|done].
  destruct (publication row) as [p|] eqn:Hp; [|done].
  destruct (year row) as [y|] eqn:Hy; [|done].
  destruct (citations row) as [c|] eqn:Hc; [|done].
  intros [= <-]. split_and!.
  - unfold paper_keys. rewrite !dom_insert_L, dom_empty_L. set_solver.
  - by simplify_map_eq.
  - apply citations_nonneg in Hc as (n & -> & Hn). exists n. by simplify_map_eq.
  - unfold year in Hy. apply except_only_Ok in Hy as [Hy | ->]; [|left; by simplify_map_eq].
    destruct (gsc_a_y row) as [[raw|]|]; [|done..]. cbn [mbind res_bind] in Hy.
    injection Hy as <-. destruct (strip raw) as [|c0 s] eqn:Hs; simpl.
    + left. by simplify_map_eq.
    + right. exists (c0 :: s). split_and!; [by simplify_map_eq | done |].
      rewrite <- Hs. apply strip_trimmed.
  - unfold title_and_link in Htl. apply except_only_Ok in Htl as [Htl | [= -> ->]].
    + destruct (gsc_a_at row) as [te|]; [|done]. cbn [mbind res_bind] in Htl.
      destruct (text te) as [title|]; [|done]. destruct (href te) as [link|]; [|done].
      injection Htl as <- <-. right. exists title, (of_option link).
      split_and!; [by simplify_map_eq.. |]. destruct link; [right; by eexists | by left].
    + left. split; by simplify_map_eq.
  - exists a. split; [by simplify_map_eq|].
    unfold authors in Ha. apply except_only_Ok in Ha as [Ha | ->]; [|by left].
    destruct (gs_gray row) as [[x|]|]; [|done..]. injection Ha as <-. right. by eexists.
  - exists p. split; [by simplify_map_eq|].
    unfold publication in Hp. apply except_only_Ok in Hp as [Hp | ->]; [|by left].
    destruct (gs_gray_all row) as [els|]; [|done]. cbn [mbind res_bind] in Hp.
    case_bool_decide; [|injection Hp as <-; by left].
    destruct (els !! 1) as [[v|]|]; [|done..]. injection Hp as <-. right. by eexists.
Qed.

Lemma extract_rows_elem idx rows d :
  d ∈ extract_rows idx rows [] ->
  exists k row, rows !! k = Some row /\ paper_data (idx + k) row = Ok d.
Proof.
  revert idx; induction rows as [|row rows IH]; intros idx; simpl; [by rewrite elem_of_nil|].
  assert (d ∈ extract_rows (S idx) rows [] ->
          exists k r, (row :: rows) !! k = Some r /\ paper_data (idx + k) r = Ok d) as Hrest.
  { intros (k & r & Hk & Hd)%IH. exists (S k), r. split; [done|].
    by replace (idx + S k) with (S idx + k) by lia. }
  destruct (paper_data idx row) as [d'|e] eqn:Hrow; [|done].
  rewrite extract_rows_acc. simpl. rewrite elem_of_cons. intros [-> | Hd]; [|auto].
  exists 0, row. by rewrite Nat.add_0_r.
Qed.

(** Every record that the profile crawl gathers comes from a row of the
    table and holds the seven keys. Its [paper_id] is the 1-based position
    of that row, its [citations] a non-negative integer, its [year] [None]
    or a non-empty text without white space around it; when the title is
    [None] so is the link, and the other fields are [None] or a text. *)
Theorem profile_record_fields rows d :
  d ∈ extract_rows 1 rows [] ->
  exists k row,
    rows !! k = Some row /\
    dom d = paper_keys /\
    d !! "paper_id" = Some (PInt (Z.of_nat (S k))) /\
    (exists n, d !! "citations" = Some (PInt n) /\ (0 <= n)%Z) /\
    (d !! "year" = Some PNone \/
     exists y, d !! "year" = Some (PStr y) /\ y <> [] /\ trimmed y) /\
    (d !! "title" = Some PNone /\ d !! "link" = Some PNone \/
     exists t l, d !! "title" = Some (PStr t) /\ d !! "link" = Some l /\
                 CitationSpec.optional_str l) /\
    (exists a, d !! "authors" = Some a /\ CitationSpec.optional_str a) /\
    (exists p, d !! "publication" = Some p /\ CitationSpec.optional_str p).
Proof.
  intros (k & row & Hk & Hd)%extract_rows_elem. exists k, row.
  split; [done|]. by apply paper_data_fields in Hd.
Qed.

Lemma profile_record_fields_witness :
  exists k row,
    [good_row "First"; good_row "Second"] !! k = Some row /\
    dom (TableSamples.good_record 2 "Second") = paper_keys /\
    TableSamples.good_record 2 "Second" !! "paper_id" = Some (PInt (Z.of_nat (S k))) /\
    (exists n, TableSamples.good_record 2 "Second" !! "citations" = Some (PInt n) /\ (0 <= n)%Z) /\
    (TableSamples.good_record 2 "Second" !! "year" = Some PNone \/
     exists y, TableSamples.good_record 2 "Second" !! "year" = Some (PStr y) /\
               y <> [] /\ trimmed y) /\
    (TableSamples.good_record 2 "Second" !! "title" = Some PNone /\
     TableSamples.good_record 2 "Second" !! "link" = Some PNone \/
     exists t l, TableSamples.good_record 2 "Second" !! "title" = Some (PStr t) /\
                 TableSamples.good_record 2 "Second" !! "link" = Some l /\
                 CitationSpec.optional_str l) /\
    (exists a, TableSamples.good_record 2 "Second" !! "authors" = Some a /\
               CitationSpec.optional_str a) /\
    (exists p, TableSamples.good_record 2 "Second" !! "publication" = Some p /\
               CitationSpec.optional_str p).
Proof.
  apply (profile_record_fields [good_row "First"; good_row "Second"]).
  vm_compute. apply list_elem_of_further, list_elem_of_here.
Defined.

(** ** The table *)

Lemma filter_all {A} (f : A -> bool) l : forallb f l = true -> List.filter f l = l.
Proof.
  induction l as [|a l IH]; [done|]. simpl. intros [-> Hl]%andb_true_iff. by rewrite IH.
Qed.

Lemma to_frame_lines (all_papers : list dict) :
  all_papers <> [] ->
  (forall d, d ∈ all_papers -> dom d = paper_keys) ->
  columns (to_frame all_papers) = column_order /\
  values (to_frame all_papers) = line <$> all_papers.
Proof.
  intros Hne Hdom.
  assert (List.filter (has_column all_papers) key_order = key_order) as Hcols.
  { apply filter_all, forallb_forall. intros col Hcol%list_elem_of_In.
    destruct all_papers as [|d rest]; [done|]. cbn [has_column existsb].
    rewrite bool_decide_eq_true_2; [done|]. apply elem_of_dom.
    rewrite (Hdom d) by left. unfold key_order in Hcol.
    repeat (apply elem_of_cons in Hcol as [-> | Hcol];
            [apply (bool_decide_unpack _); by vm_compute|]).
    by apply elem_of_nil in Hcol. }
  unfold to_frame, DataFrame_of. rewrite Hcols.
  destruct all_papers as [|d rest]; [done|].
  set (df := {| columns := key_order; values := _ |}).
  assert (empty df = false) as -> by reflexivity. cbn [negb].
  assert (List.filter (fun col => bool_decide (col ∈ columns df)) column_order = column_order)
    as -> by (by vm_compute).
  unfold select, df. cbn [columns values]. split; [done|].
  rewrite map_map. apply map_ext. intros d'. reflexivity.
Qed.

Lemma extract_rows_length idx rows :
  length (extract_rows idx rows []) = length (List.filter succeeds rows).
Proof.
  rewrite <- (length_fmap paper_id), extract_rows_ids, length_fmap.
  revert idx. induction rows as [|row rows' IH]; intros idx; [done|]. simpl.
  destruct (succeeds row); simpl; by rewrite IH.
Qed.

Lemma paper_data_values idx row d col :
  paper_data idx row = Ok d -> col ∈ column_order ->
  exists v, d !! col = Some v /\ v <> PNaN.
Proof.
  intros Hd Hcol. apply paper_data_fields in Hd
    as (_ & Hid & (n & Hn & _) & Hy & Ht & (a & Ha & Hao) & (p & Hp & Hpo)).
  assert (forall v, CitationSpec.optional_str v -> v <> PNaN) as Hopt
    by (intros v [-> | [x ->]]; done).
  unfold column_order in Hcol.
  repeat (apply elem_of_cons in Hcol as [-> | Hcol]); [..|by apply elem_of_nil in Hcol].
  - by eexists.
  - destruct Ht as [[-> _] | (title & l & -> & _)]; by eexists.
  - exists a. auto.
  - exists p. auto.
  - destruct Hy as [-> | (y & -> & _)]; by eexists.
  - by eexists.
  - destruct Ht as [[_ ->] | (title & l & _ & -> & Hl)]; eexists; split; done || auto.
Qed.

(** The table returned for a profile whose rows could be listed has one
    line per row that was extracted, in the order of the rows. Unless there
    is none, its columns are those of line 799 in that order and each line
    holds the seven cells of its record: a cell is missing exactly where
    the record holds [None], and the columns [paper_id] and [citations]
    hold integers throughout. *)
Theorem profile_table_lines profile_url env df tr rows :
  scrape_google_scholar_profile profile_url env = Some (Returned df, tr) ->
  table_wait env = Ok tt -> paper_rows env = Ok rows ->
  let all_papers := extract_rows 1 rows [] in
  length (values df) = length (List.filter succeeds rows) /\
  match all_papers with
  | [] => df = empty_frame
  | _ :: _ =>
      columns df = column_order /\
      values df = line <$> all_papers /\
      Forall (fun d =>
                length (line d) = 7 /\
                (forall col, col ∈ column_order ->
                   field col d = Missing <-> d !! col = Some PNone) /\
                (exists id n, field "paper_id" d = Number id /\
                              field "citations" d = Number n))
             all_papers
  end.
Proof.
  intros Hrun Hw Hrows. cbv zeta.
  rewrite (returned_frame _ _ _ _ _ Hrun Hw Hrows).
  destruct (extract_rows 1 rows []) as [|d0 rest] eqn:Hall.
  - split; [|done]. by rewrite <- (extract_rows_length 1), Hall.
  - assert (forall d, d ∈ d0 :: rest -> exists k row, rows !! k = Some row /\
                                          paper_data (1 + k) row = Ok d) as Hfrom.
    { intros d Hd. apply extract_rows_elem. by rewrite Hall. }
    destruct (to_frame_lines (d0 :: rest)) as [Hc Hv]; [done | |].
    { intros d (k & row & _ & Hd)%Hfrom. by apply paper_data_fields in Hd as [? _]. }
    rewrite Hv. split_and!; [|done..|].
    + by rewrite length_fmap, <- Hall, extract_rows_length.
    + apply Forall_forall. intros d (k & row & _ & Hd)%Hfrom. split_and!; [done | |].
      * intros col Hcol. destruct (paper_data_values _ _ _ _ Hd Hcol) as (v & Hv' & Hnan).
        unfold field. rewrite Hv'. split; [|by intros [= ->]]. by destruct v.
      * apply paper_data_fields in Hd as (_ & Hid & (n & Hn & _) & _).
        eexists _, n. unfold field. by rewrite Hid, Hn.
Qed.

Lemma profile_table_lines_witness :
  let df := to_frame [TableSamples.good_record 1 "First"; TableSamples.good_record 3 "Third"] in
  let all_papers := [TableSamples.good_record 1 "First"; TableSamples.good_record 3 "Third"] in
  length (values df) = 2 /\
  columns df = column_order /\
  values df = line <$> all_papers /\
  Forall (fun d =>
            length (line d) = 7 /\
            (forall col, col ∈ column_order ->
               field col d = Missing <-> d !! col = Some PNone) /\
            (exists id n, field "paper_id" d = Number id /\
                          field "citations" d = Number n))
         all_papers.
Proof.
  exact (profile_table_lines profile_url
           (profile (Ok tt) [good_row "First"; stale_row; good_row "Third"]) _ _ _
           eq_refl eq_refl eq_refl).
Defined.

(** ** The expansion loop *)

Lemma expand_all_stop a rest : stops a = true -> expand_all (a :: rest) = expand_all [a].
Proof.
  unfold stops. cbn [expand_all]. destruct a as [b|]; [|done].
  destruct (sm_disabled b) as [d|]; [|done]. destruct (truthy d); [done|].
  destruct (sm_scroll b); [|done]. by destruct (sm_click b).
Qed.

Lemma expand_all_go a rest :
  stops a = false -> expand_all (a :: rest) = (expansion ++.) <$> expand_all rest.
Proof.
  unfold stops. cbn [expand_all]. destruct a as [b|]; [|done].
  destruct (sm_disabled b) as [d|]; [|done]. destruct (truthy d); [done|].
  destruct (sm_scroll b); [|done]. by destruct (sm_click b).
Qed.

(** The expansion loop ends at the first answer that stops it: the answers
    after that one are never asked for, and every answer before it costs
    one wait, one scroll, a half-second pause, one click and a two-second
    pause. The last round has no pause after a click. *)
Theorem expansion_stops_at_first (pre rest : list (res ShowMore)) (a : res ShowMore) :
  Forall (fun x => stops x = false) pre -> stops a = true ->
  exists last_round,
    expand_all [a] = Some last_round /\
    expand_all (pre ++ a :: rest) = Some ((pre ≫= fun _ => expansion) ++ last_round) /\
    (EvSleep 2000 ∉ last_round) /\
    head last_round = Some (EvWait 5000 "gsc_bpf_more").
Proof.
  intros Hpre Ha.
  assert (exists last_round, expand_all [a] = Some last_round /\
                             (EvSleep 2000 ∉ last_round) /\
                             head last_round = Some (EvWait 5000 "gsc_bpf_more"))
    as (last_round & Hlast & Hno & Hhead).
  { assert (forall evs : list event,
              Forall (fun e => e <> EvSleep 2000) evs ->
              head evs = Some (EvWait 5000 "gsc_bpf_more") ->
              exists last_round, Some evs = Some last_round /\
                                 (EvSleep 2000 ∉ last_round) /\
                                 head last_round = Some (EvWait 5000 "gsc_bpf_more")) as Hround.
    { intros evs Hevs Hhd. exists evs. split_and!; [done | | done].
      intros Hin. by eapply Forall_forall in Hevs. }
    unfold stops in Ha. cbn [expand_all].
    destruct a as [b|]; [|apply Hround; by repeat constructor].
    destruct (sm_disabled b) as [d|]; [|apply Hround; by repeat constructor].
    destruct (truthy d); [apply Hround; by repeat constructor|].
    destruct (sm_scroll b); [|apply Hround; by repeat constructor].
    destruct (sm_click b); [done | apply Hround; by repeat constructor]. }
  exists last_round. split_and!; [done| |done..].
  induction Hpre as [|x pre Hx _ IH].
  - cbn [app]. by rewrite expand_all_stop.
  - change ((x :: pre) ++ a :: rest) with (x :: (pre ++ a :: rest)).
    rewrite expand_all_go, IH by done. simpl. by rewrite <- ?app_assoc.
Qed.

Lemma expansion_stops_at_first_witness :
  exists last_round,
    expand_all [Ok TableSamples.disabled_button] = Some last_round /\
    expand_all ([Ok TableSamples.more_button; Ok TableSamples.more_button]
                ++ Ok TableSamples.disabled_button :: [Ok TableSamples.more_button])
      = Some (([Ok TableSamples.more_button; Ok TableSamples.more_button]
                 ≫= fun _ => expansion) ++ last_round) /\
    (EvSleep 2000 ∉ last_round) /\
    head last_round = Some (EvWait 5000 "gsc_bpf_more").
Proof.
  apply expansion_stops_at_first; [|reflexivity].
  repeat constructor.
Defined.

(** A run of the expansion loop that returns has met an answer that stops
    it. *)
Lemma expand_all_stopped answers evs :
  expand_all answers = Some evs ->
  exists pre a rest,
    answers = pre ++ a :: rest /\ Forall (fun x => stops x = false) pre /\ stops a = true.
Proof.
  revert evs; induction answers as [|x answers IH]; intros evs; [done|].
  destruct (stops x) eqn:Hx.
  - intros _. by exists [], x, answers.
  - rewrite expand_all_go by done.
    destruct (expand_all answers) as [evs'|]; [|done].
    destruct (IH evs' eq_refl) as (pre & a & rest & -> & Hpre & Ha). intros _.
    exists (x :: pre), a, rest. split_and!; [done | by constructor | done].
Qed.

(** ** The trace of the profile crawl *)

Lemma expand_all_events answers evs :
  expand_all answers = Some evs -> no_quit evs = true /\ gets evs = [].
Proof.
  revert evs; induction answers as [|a answers IH]; intros evs; [done|].
  destruct (stops a) eqn:Ha.
  - rewrite expand_all_stop by done. clear IH. unfold stops in Ha. cbn [expand_all].
    destruct a as [b|]; [|by intros [= <-]].
    destruct (sm_disabled b) as [d|]; [|by intros [= <-]].
    destruct (truthy d); [by intros [= <-]|].
    destruct (sm_scroll b); [|by intros [= <-]].
    destruct (sm_click b); [done | by intros [= <-]].
  - rewrite expand_all_go by done. destruct (expand_all answers) as [evs'|]; [|done].
    intros [= <-]. destruct (IH evs' eq_refl) as [IH1 IH2]. split; [exact IH1 | exact IH2].
Qed.

(** When a browser starts, [scrape_google_scholar_profile] loads one
    page, the profile, before anything else, and quits the browser exactly
    once, as the last thing it does, whether it returns a table or raises.
    What it raises is then what loading the page, waiting for the table
    (other than a timeout), listing the rows or quitting raised: nothing
    that goes wrong in the expansion loop or inside a row reaches the
    caller. *)
Theorem profile_crawl_trace profile_url env o tr :
  scrape_google_scholar_profile profile_url env = Some (o, tr) ->
  start_browser env = Ok tt ->
  (exists tr', tr = EvGet profile_url :: tr' ++ [EvQuit] /\
               no_quit tr' = true /\ gets tr' = []) /\
  match o with
  | Returned df => quit env = Ok tt
  | Raised e =>
      quit env = Raise e \/
      get_profile env = Raise e \/
      (table_wait env = Raise e /\ is_Timeout e = false) \/
      paper_rows env = Raise e
  | RaisedMessage _ => False
  end.
Proof.
  unfold scrape_google_scholar_profile. intros Hrun Hstart. rewrite Hstart in Hrun.
  assert (forall r, match finally env r with
                    | Returned _ => quit env = Ok tt /\ finally env r = r
                    | Raised e => quit env = Raise e \/ finally env r = r
                    | RaisedMessage _ => finally env r = r
                    end) as Hfin.
  { intros r. unfold finally. destruct (quit env) as [[]|e]; [|by left].
    destruct r; auto. }
  destruct (get_profile env) as [[]|e].
  - destruct (expand_all (show_more env)) as [evs|] eqn:Hexp; [|done].
    apply expand_all_events in Hexp as [Hq Hg]. cbn [mbind option_bind] in Hrun.
    assert (no_quit (extract env).2 = true /\ gets (extract env).2 = [] /\
            match (extract env).1 with
            | Returned _ => True
            | Raised e => (table_wait env = Raise e /\ is_Timeout e = false) \/
                          paper_rows env = Raise e
            | RaisedMessage _ => False
            end) as (Hq' & Hg' & Hr).
    { unfold extract. destruct (table_wait env) as [[]|e].
      - destruct (paper_rows env) as [rows|e]; [done|]. split_and!; [done..|]. by right.
      - destruct (is_Timeout e) eqn:He; [done|]. split_and!; [done..|]. by left. }
    destruct (extract env) as [r evs']. cbn [fst snd] in *. injection Hrun as <- <-. split.
    + exists ([EvSleep 3000] ++ evs ++ evs'). split_and!.
      * simpl. by rewrite <- !app_assoc.
      * by rewrite !CrawlFacts.no_quit_app, Hq, Hq'.
      * by rewrite !CrawlFacts.gets_app, Hg, Hg'.
    + specialize (Hfin r). destruct (finally env r) as [df|e|msg].
      * by destruct Hfin.
      * destruct Hfin as [? | <-]; [by left|]. right; right. done.
      * by rewrite <- Hfin in Hr.
  - injection Hrun as <- <-. split; [by exists []|].
    specialize (Hfin (Raised e)). destruct (finally env (Raised e)) as [df|e'|msg].
    + by destruct Hfin as [_ ?].
    + destruct Hfin as [? | [= ->]]; [by left | right; by left].
    + done.
Qed.

Lemma profile_crawl_trace_witness :
  (exists tr',
     [EvGet profile_url; EvSleep 3000; EvWait 5000 "gsc_bpf_more"; EvWait 10000 "gsc_a_b";
      EvFindRows "gsc_a_tr"; EvQuit] = EvGet profile_url :: tr' ++ [EvQuit] /\
     no_quit tr' = true /\ gets tr' = []) /\
  quit (profile (Ok tt) [good_row "First"]) = Ok tt.
Proof.
  exact (profile_crawl_trace profile_url (profile (Ok tt) [good_row "First"])
           (Returned (to_frame (extract_rows 1 [good_row "First"] []))) _ eq_refl eq_refl).
Defined.

End TableFacts.
